(** * Asset-generation orchestration layer: model and properties

    A shallow embedding of the decision logic of the asset-generation
    server: the pixel routine, the HTTP helper and the two-step
    transparent image of [utils/imageUtils.ts], the seven FAL.ai
    dispatchers and the data uris of [utils/model3dUtils.ts] and the
    orchestration helpers of [providers/model3dHelpers.ts].

    Conventions.
    - A pixel buffer ([ImageData.data], a [Uint8ClampedArray]) is a
      [list Z]; indexing is stdpp's [!!], a store is stdpp's list insert
      (out of range it does nothing, as for a typed array).
    - A JavaScript number that may be [NaN] (a sum that met an
      [undefined]) is an [option Z], [None] standing for [NaN].
    - A JavaScript object used as an option bag is a [gmap string Value].
    - A JavaScript string is a [string] holding its UTF-8 text, as a
      string literal of this file does: a character below U+0080 is one
      byte, any other character two to four bytes, none of them below 128.
      The literals of the program are ASCII; [JS.blank] and
      [JS.utf16_length] decode the longer sequences.
    - The tolerance of the pixel routine is any JavaScript number, a
      binary64 [float]. The square root of the colour distance and its
      comparison with the tolerance are computed in binary64, on the
      primitive floats.
    - Effects (console, image generation, HTTP, download, stat, unlink)
      are calls to oracles of a [World]; every call is appended to a
      chronological trace, and an exception is the [Throw] result. The
      content of a file is read from the world without a trace. *)

From Stdlib Require Import Floats Uint63.
From Stdlib Require Import ZArith ZifyNat Reals Lia Lra QArith Ascii String.
From stdpp Require Import base option list gmap strings pretty.

(* ================================================================== *)
(** ** utils/imageUtils.ts : the transparency converter                *)
(* ================================================================== *)

Module ImageUtils.

Local Open Scope Z_scope.

(** [backgroundColor: 'white' | 'black' | 'auto'] *)
Inductive BackgroundColor := white | black | auto.

(** What [ctx.getImageData(0, 0, canvas.width, canvas.height)] hands to the
    loop: the canvas dimensions and the RGBA bytes, four per pixel, rows
    first. *)
Record ImageData := mkImageData {
  width : Z;
  height : Z;
  data : list Z
}.

(** [data[idx]] for a numeric index: [undefined] outside the array. *)
Definition read (d : list Z) (idx : Z) : option Z :=
  if idx <? 0 then None else d !! Z.to_nat idx.

(** [total += data[idx]] : adding [undefined] yields [NaN], and [NaN]
    stays. *)
Definition add_nan (total v : option Z) : option Z :=
  match total, v with
  | Some t, Some x => Some (t + x)
  | _, _ => None
  end.

(** The [corners] array literal, as [(x, y)] pairs. *)
Definition corners (w h : Z) : list (Z * Z) :=
  [ (0, 0); (w - 1, 0); (0, h - 1); (w - 1, h - 1) ].

(** The body of [for (const corner of corners)]. *)
Definition add_corner (w : Z) (d : list Z)
    (tot : option Z * option Z * option Z) (corner : Z * Z)
    : option Z * option Z * option Z :=
  let '(totalR, totalG, totalB) := tot in
  let '(x, y) := corner in
  let idx := (y * w + x) * 4 in
  (add_nan totalR (read d idx),
   add_nan totalG (read d (idx + 1)),
   add_nan totalB (read d (idx + 2))).

Definition corner_totals (w h : Z) (d : list Z)
    : option Z * option Z * option Z :=
  fold_left (add_corner w d) (corners w h) (Some 0, Some 0, Some 0).

(** [Math.round(total / 4)]. A quarter of an integer is exact in binary
    floating point and [Math.round] rounds halves towards plus infinity, so
    the result is the floor of [total / 4 + 1/2]. *)
Definition round_quarter (total : option Z) : option Z :=
  (fun t => (t + 2) / 4) <$> total.

(** Lines 266-290: the target colour. *)
Definition target_color (img : ImageData) (backgroundColor : BackgroundColor)
    : option Z * option Z * option Z :=
  match backgroundColor with
  | black => (Some 0, Some 0, Some 0)
  | auto =>
      let '(totalR, totalG, totalB) :=
        corner_totals (width img) (height img) (data img) in
      (round_quarter totalR, round_quarter totalG, round_quarter totalB)
  | white => (Some 255, Some 255, Some 255)
  end.

(** [Math.pow(c - target, 2)] *)
Definition pow2_diff (c target : option Z) : option Z :=
  match c, target with
  | Some x, Some t => Some ((x - t) * (x - t))
  | _, _ => None
  end.

(** The argument of [Math.sqrt]: the squared distance, an integer. *)
Definition distance_sq (r g b targetR targetG targetB : option Z) : option Z :=
  add_nan (add_nan (pow2_diff r targetR) (pow2_diff g targetG))
          (pow2_diff b targetB).

(** A squared distance as a JavaScript number. The differences of bytes,
    their squares and the sum of three of them stay below 2^18, far below
    2^53, and are exact. *)
Definition to_float (z : Z) : float :=
  if z <? 0
  then PrimFloat.opp (PrimFloat.of_uint63 (Uint63.of_Z (- z)))
  else PrimFloat.of_uint63 (Uint63.of_Z z).

(** [Math.sqrt(n) <= tolerance] in binary64 arithmetic, for any number
    [tolerance]. A comparison with [NaN], on either side, is false. *)
Definition sqrt_le (n : option Z) (tolerance : float) : bool :=
  match n with
  | Some n => PrimFloat.leb (PrimFloat.sqrt (to_float n)) tolerance
  | None => false
  end.

(** The body of the pixel loop at index [i]. *)
Definition pixel_step (target : option Z * option Z * option Z)
    (tolerance : float) (d : list Z) (i : nat) : list Z :=
  let '(targetR, targetG, targetB) := target in
  let r := d !! i in
  let g := d !! (i + 1)%nat in
  let b := d !! (i + 2)%nat in
  if sqrt_le (distance_sq r g b targetR targetG targetB) tolerance
  then <[(i + 3)%nat := 0]> d
  else d.

(** The indices visited by [for (let i = 0; i < data.length; i += 4)]. *)
Definition loop_indices (len : nat) : list nat :=
  (fun k => (4 * k)%nat) <$> seq 0 (Nat.div (len + 3) 4).

Definition pixel_loop (target : option Z * option Z * option Z)
    (tolerance : float) (d : list Z) : list Z :=
  fold_left (pixel_step target tolerance) (loop_indices (length d)) d.

(** [convertImagePixelsToTransparent], from [getImageData] to
    [putImageData]: the buffer is mutated in place, the canvas keeps its
    dimensions. Decoding and PNG encoding are the canvas library's. *)
Definition convertImagePixelsToTransparent (img : ImageData)
    (backgroundColor : BackgroundColor) (tolerance : float) : ImageData :=
  let target := target_color img backgroundColor in
  {| width := width img;
     height := height img;
     data := pixel_loop target tolerance (data img) |}.

(** The four bytes of pixel number [k]. *)
Definition pixel (d : list Z) (k : nat) : option (Z * Z * Z * Z) :=
  match d !! (4 * k)%nat, d !! (4 * k + 1)%nat,
        d !! (4 * k + 2)%nat, d !! (4 * k + 3)%nat with
  | Some r, Some g, Some b, Some a => Some (r, g, b, a)
  | _, _, _, _ => None
  end.

(** The squared distance of two colours, an integer. *)
Definition squared_distance (r g b tR tG tB : Z) : Z :=
  (r - tR) * (r - tR) + (g - tG) * (g - tG) + (b - tB) * (b - tB).

(** The real number a finite double stands for, zero for the others. *)
Definition float_value (f : float) : R :=
  match Prim2SF f with
  | S754_finite sign m e =>
      ((if sign then -1 else 1) * IZR (Z.pos m) * powerRZ 2 e)%R
  | _ => 0%R
  end.

(** Euclidean distance in RGB space, as a real number. *)
Definition euclid (r g b tR tG tB : Z) : R :=
  sqrt (IZR ((r - tR) * (r - tR) + (g - tG) * (g - tG) + (b - tB) * (b - tB))).

(** The values of a [Uint8ClampedArray]. *)
Definition bytes (d : list Z) : Prop := Forall (fun v => 0 <= v <= 255) d.

Fixpoint zrange (fuel : nat) (start : Z) : list Z :=
  match fuel with
  | O => []
  | S fuel' => start :: zrange fuel' (start + 1)
  end.

(** The binary64 square root of [n] lies above the float of the integer
    below the exact root and at or below the float of the integer at or
    above it. *)
Definition root_between (n : Z) : bool :=
  let root := PrimFloat.sqrt (to_float n) in
  let c := Z.sqrt_up n in
  PrimFloat.leb root (to_float c)
  && ((c =? 0) || negb (PrimFloat.leb root (to_float (c - 1)))).

(** The conversion to float is monotone on the integers of [ts]. *)
Definition monotone_on (ts : list Z) : bool :=
  forallb (fun t =>
             forallb (fun t' =>
                        implb (t <=? t')
                              (PrimFloat.leb (to_float t) (to_float t')))
                     ts)
          ts.

(** An [ImageData] as the canvas builds it. *)
Definition well_formed (img : ImageData) : Prop :=
  0 <= width img /\ 0 <= height img /\
  Z.of_nat (length (data img)) = 4 * (width img * height img) /\
  bytes (data img).

(** The pixel in column [x] of row [y]. *)
Definition pixel_at (img : ImageData) (x y : Z) : option (Z * Z * Z * Z) :=
  pixel (data img) (Z.to_nat (y * width img + x)).

(** [t] is [s / 4] rounded to the nearest integer, halves upwards. *)
Definition rounded_quarter (s t : Z) : Prop := 4 * t - 2 <= s < 4 * t + 2.

(** Whether the loop makes pixel [k] of the buffer [d] transparent. *)
Definition matched (target : option Z * option Z * option Z)
    (tolerance : float) (d : list Z) (k : nat) : bool :=
  let '(tR, tG, tB) := target in
  sqrt_le (distance_sq (d !! (4 * k)%nat) (d !! (4 * k + 1)%nat)
             (d !! (4 * k + 2)%nat) tR tG tB) tolerance.

(** The buffer after the first [n] iterations, read at index [j]. *)
Definition spec_at (target : option Z * option Z * option Z)
    (tolerance : float) (n : nat) (d : list Z) (j : nat) : option Z :=
  if ((j mod 4 =? 3) && (j / 4 <? n))%nat && matched target tolerance d (j / 4)
  then (fun _ => 0) <$> d !! j else d !! j.

End ImageUtils.


(* ================================================================== *)
(** ** JavaScript values, strings and objects                          *)
(* ================================================================== *)

Module JS.

Local Open Scope string_scope.

(** The values an option bag of this program holds. *)
Inductive Value :=
  | VUndefined
  | VBool (b : bool)
  | VStr (s : string)
  | VArr (l : list string).

#[global] Instance Value_eq_dec : EqDecision Value.
Proof. solve_decision. Defined.

(** A JavaScript object literal: keys to values. A key may be present with
    the value [undefined]. *)
Abbreviation Obj := (gmap string Value).

(** [o.k] : a missing key reads as [undefined]. *)
Definition get (o : Obj) (k : string) : Value := default VUndefined (o !! k).

(** [{ ...a, ...b }] : the keys of [b] win. *)
Definition spread (a b : Obj) : Obj := b ∪ a.

(** Truthiness: [undefined], [false] and the empty string are falsy, an
    array never is. *)
Definition truthy (v : Value) : bool :=
  match v with
  | VUndefined => false
  | VBool b => b
  | VStr s => negb (String.eqb s EmptyString)
  | VArr _ => true
  end.

(** Reading a field at its TypeScript type; [None] is [undefined]. *)
Definition get_str (o : Obj) (k : string) : option string :=
  match get o k with VStr s => Some s | _ => None end.

Definition get_bool (o : Obj) (k : string) : option bool :=
  match get o k with VBool b => Some b | _ => None end.

Definition get_arr (o : Obj) (k : string) : option (list string) :=
  match get o k with VArr l => Some l | _ => None end.

(** Truthiness of an optional string: [undefined] and [''] are falsy. *)
Definition truthy_str (s : option string) : bool :=
  match s with
  | Some s => negb (String.eqb s EmptyString)
  | None => false
  end.

(** [s.startsWith(p)] *)
Definition startsWith (s p : string) : bool := String.prefix p s.

(** [s.includes(sub)] *)
Definition includes (s sub : string) : bool :=
  match String.index 0 sub s with Some _ => true | None => false end.

(** [list.includes(s)] for an array literal of strings. *)
Definition mem (s : string) (l : list string) : bool :=
  existsb (String.eqb s) l.

(** Whether the byte [c] has the value [n]. *)
Definition byte_is (c : Ascii.ascii) (n : nat) : bool :=
  (Ascii.nat_of_ascii c =? n)%nat.

Definition byte_in (c : Ascii.ascii) (lo hi : nat) : bool :=
  let n := Ascii.nat_of_ascii c in ((lo <=? n) && (n <=? hi))%nat.

(** The white space and line terminators that [trim] removes, by the
    length of their UTF-8 text. One byte: TAB, LF, VT, FF, CR and the
    space. *)
Definition is_space (c : Ascii.ascii) : bool :=
  byte_in c 9 13 || byte_is c 32.

(** Two bytes: U+00A0, the no-break space. *)
Definition is_space2 (c1 c2 : Ascii.ascii) : bool :=
  byte_is c1 194 && byte_is c2 160.

(** Three bytes: U+1680; U+2000 to U+200A, U+2028, U+2029 and U+202F;
    U+205F; U+3000; U+FEFF, the byte order mark. *)
Definition is_space3 (c1 c2 c3 : Ascii.ascii) : bool :=
  (byte_is c1 225 && byte_is c2 154 && byte_is c3 128)
  || (byte_is c1 226 && byte_is c2 128
      && (byte_in c3 128 138 || byte_in c3 168 169 || byte_is c3 175))
  || (byte_is c1 226 && byte_is c2 129 && byte_is c3 159)
  || (byte_is c1 227 && byte_is c2 128 && byte_is c3 128)
  || (byte_is c1 239 && byte_is c2 187 && byte_is c3 191).

(** [s.trim() === ''] : the string holds nothing but such characters. *)
Fixpoint blank (s : string) : bool :=
  match s with
  | EmptyString => true
  | String c1 rest1 =>
      if is_space c1 then blank rest1
      else
        match rest1 with
        | EmptyString => false
        | String c2 rest2 =>
            if is_space2 c1 c2 then blank rest2
            else
              match rest2 with
              | EmptyString => false
              | String c3 rest3 => is_space3 c1 c2 c3 && blank rest3
              end
        end
  end.

(** [s.length] : the number of UTF-16 code units. A character of one to
    three bytes is one unit, a character of four bytes (lead byte 240 or
    above) is a surrogate pair; the bytes 128 to 191 continue a
    character. *)
Fixpoint utf16_length (s : string) : nat :=
  match s with
  | EmptyString => 0
  | String c rest =>
      ((if byte_in c 128 191 then 0 else if byte_in c 240 255 then 2 else 1)
       + utf16_length rest)%nat
  end.

Fixpoint has_dot (s : string) : bool :=
  match s with
  | EmptyString => false
  | String c rest => Ascii.eqb c "."%char || has_dot rest
  end.

(** [s.replace(/\.[^.]+$/, repl)] : the match, if any, starts at the last
    dot of [s] and needs at least one character after it. *)
Fixpoint replace_ext (s repl : string) : string :=
  match s with
  | EmptyString => EmptyString
  | String c rest =>
      if Ascii.eqb c "."%char && negb (has_dot rest)
         && negb (String.eqb rest EmptyString)
      then repl
      else String c (replace_ext rest repl)
  end.

(** [s.replace('.', '')] : the first dot is removed. *)
Fixpoint remove_first_dot (s : string) : string :=
  match s with
  | EmptyString => EmptyString
  | String c rest =>
      if Ascii.eqb c "."%char then rest else String c (remove_first_dot rest)
  end.

(** [a || b] on optional strings. *)
Definition or_else (a : option string) (b : string) : string :=
  match a with
  | Some s => if String.eqb s EmptyString then b else s
  | None => b
  end.

End JS.

(* ================================================================== *)
(** ** Effects: the world, the trace and the exception monad           *)
(* ================================================================== *)

Module Effects.

Import JS.
Local Open Scope string_scope.

(** The outcome of a call: a value, or an exception with its message. *)
Inductive Result (A : Type) :=
  | Ok (a : A)
  | Throw (message : string).
Arguments Ok {A} a.
Arguments Throw {A} message.

(** The fields of a request body. *)
Inductive Json :=
  | JStr (s : string)
  | JNum (q : Q)
  | JBool (b : bool)
  | JArr (l : list string).

Definition Body := list (string * Json).

(** The argument of [generateImage] as [generateReferenceImages] builds
    it. *)
Record ImageArgs := mkImageArgs {
  img_provider : string;
  img_prompt : string;
  img_outputPath : string;
  img_size : option string;
  img_image_size : option string
}.

(** [JSON.parse(result)] and the read of [savedPaths]: the text does not
    parse to an object, or it does and [savedPaths] is absent or an
    array. *)
Inductive ImageResult :=
  | Malformed (message : string)
  | SavedPaths (paths : option (list string)).

(** [response.error], when truthy: its truthy [message], if any, and its
    [JSON.stringify]. *)
Record ErrorField := mkErrorField {
  error_message : option string;
  error_json : string
}.

(** The parsed response of a FAL.ai endpoint, as far as the dispatchers
    read it. [detail] holds [JSON.stringify(response.detail)] of a truthy
    [detail]. *)
Record Response := mkResponse {
  error : option ErrorField;
  detail : option string;
  model_mesh_url : option string;
  model_url : option string;
  timings_inference : option Q
}.

(** What the program does to the outside, in the order it does it. *)
Inductive Event :=
  | EvLog (text : string)
  | EvWarn (text : string)
  | EvGenerateImage (args : ImageArgs)
  | EvHttp (url method : string) (headers : list (string * string)) (body : Body)
  | EvDownload (url path : string)
  | EvStat (path : string)
  | EvUnlink (path : string).

Definition Trace := list Event.

(** The collaborators of the orchestration layer. An oracle that acts on
    the outside receives the trace so far, so that two calls with the same
    arguments may answer differently. *)
Record World := mkWorld {
  (** [process.env.FAL_AI_API_KEY] *)
  FAL_AI_API_KEY : option string;
  (** [readFileSync(path).toString('base64')] *)
  readFileBase64 : string -> Result string;
  (** [generateImage] of [providers/imageHelpers], with the parse of its
      result *)
  generateImage : Trace -> ImageArgs -> Result ImageResult;
  (** [makeHTTPRequest(url, method, headers, body)] *)
  makeHTTPRequest :
    Trace -> string -> string -> list (string * string) -> Body -> Result Response;
  (** [mkdirSync] of the directory and [curl -s -L -o path url] *)
  curlDownload : Trace -> string -> string -> Result unit;
  (** [statSync(path).size] *)
  statSize : Trace -> string -> Result Z;
  (** [unlinkSync(path)] *)
  unlinkSync : Trace -> string -> Result unit;
  (** [path.extname], [toLowerCase] and [toUpperCase] of the platform *)
  path_extname : string -> string;
  toLowerCase : string -> string;
  toUpperCase : string -> string
}.


(** A computation reads the world, extends the trace and returns or
    throws. *)
Definition M (A : Type) : Type := Trace -> Result A * Trace.

Definition ret {A} (a : A) : M A := fun tr => (Ok a, tr).

Definition throw {A} (message : string) : M A := fun tr => (Throw message, tr).

Definition bind {A B} (m : M A) (k : A -> M B) : M B :=
  fun tr =>
    match m tr with
    | (Ok a, tr') => k a tr'
    | (Throw e, tr') => (Throw e, tr')
    end.

(** [try { m } catch (error) { handler(error.message) }] *)
Definition try_catch {A} (m : M A) (handler : string -> M A) : M A :=
  fun tr =>
    match m tr with
    | (Ok a, tr') => (Ok a, tr')
    | (Throw e, tr') => handler e tr'
    end.

Definition emit (ev : Event) : M unit := fun tr => (Ok tt, (tr ++ [ev])%list).

(** An effect: the event is recorded, the oracle answers from the trace
    before the call. *)
Definition perform {A} (ev : Event) (oracle : Trace -> Result A) : M A :=
  fun tr => (oracle tr, (tr ++ [ev])%list).

Definition lift {A} (r : Result A) : M A := fun tr => (r, tr).

(** A computation only ever appends to the trace, and what it appends
    satisfies [P]. *)
Definition adds {A} (P : Trace -> Prop) (m : M A) : Prop :=
  forall tr, exists suffix, snd (m tr) = (tr ++ suffix)%list /\ P suffix.

(** Properties of a trace that hold of nothing and of a concatenation. *)
Class Additive (P : Trace -> Prop) : Prop := {
  additive_nil : P [];
  additive_app : forall a b, P a -> P b -> P (a ++ b)%list
}.

(** Properties that the events of a dispatcher satisfy. *)
Class AllowsDispatch (P : Trace -> Prop) : Prop := {
  allows_http : forall url method headers body,
    P [EvHttp url method headers body];
  allows_download : forall url path, P [EvDownload url path];
  allows_stat : forall path, P [EvStat path]
}.

Definition anything (_ : Trace) : Prop := True.

Declare Scope monad_scope.
Delimit Scope monad_scope with monad.
Notation "x <- m ;; k" := (bind m (fun x => k))
  (at level 100, m at level 99, k at level 200, right associativity,
   format "'[v' x  <-  m  ;; '/' k ']'") : monad_scope.
Notation "m ;; k" := (bind m (fun _ => k))
  (at level 100, k at level 200, right associativity,
   format "'[v' m  ;; '/' k ']'") : monad_scope.

End Effects.

(* ================================================================== *)
(** ** utils/model3dUtils.ts : the FAL.ai dispatchers                  *)
(* ================================================================== *)

Module Model3dUtils.

Import JS Effects.
Local Open Scope string_scope.
Local Open Scope monad_scope.

(** [model_info] of a result; the vertex and face counts are never set. *)
Record ModelInfo := mkModelInfo {
  file_size : Z;
  format : string
}.

Record Model3DGenerationResult := mkResult {
  provider : string;
  model : string;
  variant : string;
  savedPaths : list string;
  prompt_used : option string;
  input_images : list string;
  generation_time : option Q;
  model_info : ModelInfo;
  parameters : Body;
  auto_generated_references : option (list string);
  reference_model_used : option string;
  reference_views_generated : option (list string)
}.

(** The argument of the single-image dispatchers. *)
Record SingleArgs := mkSingleArgs {
  s_prompt : option string;
  s_imagePath : string;
  s_outputPath : string;
  s_format : option string;
  s_texture_size : option Z;
  s_textured_mesh : option bool
}.

(** The argument of the multi-image dispatchers. *)
Record MultiArgs := mkMultiArgs {
  m_prompt : option string;
  m_imagePaths : list string;
  m_outputPath : string;
  m_format : option string;
  m_texture_size : option Z;
  m_multiimage_algo : option string
}.

Section WithWorld.

Variable w : World.

(** [getFalAIKey] of [utils/imageUtils.ts] *)
Definition getFalAIKey : M string :=
  if truthy_str (FAL_AI_API_KEY w)
  then ret (default EmptyString (FAL_AI_API_KEY w))
  else throw "FAL_AI_API_KEY environment variable is required".

(** [encodeImageToBase64] of [utils/imageUtils.ts] *)
Definition encodeImageToBase64 (imagePath : string) : M string :=
  match readFileBase64 w imagePath with
  | Ok base64 => ret base64
  | Throw e => throw ("Failed to read image file " ++ imagePath ++ ": " ++ e)
  end.

(** [convertPathsToBase64URIs]: every entry is read as a file. *)
Fixpoint convertPathsToBase64URIs_from (uris paths : list string)
    : M (list string) :=
  match paths with
  | [] => ret uris
  | imagePath :: rest =>
      uri <- try_catch
               (base64Data <- encodeImageToBase64 imagePath ;;
                ret ("data:image/png;base64," ++ base64Data))
               (fun e => throw ("Failed to convert image " ++ imagePath
                                ++ " to base64 URI: " ++ e)) ;;
      convertPathsToBase64URIs_from (uris ++ [uri])%list rest
  end.

Definition convertPathsToBase64URIs (paths : list string) : M (list string) :=
  convertPathsToBase64URIs_from [] paths.

(** The conversion written inline in the dispatchers: a reference that
    starts with [data:] is kept, any other is read as a file. *)
Definition toImageUri (path : string) : M string :=
  if startsWith path "data:" then ret path
  else base64 <- encodeImageToBase64 path ;;
       ret ("data:image/png;base64," ++ base64).

(** [await Promise.all(args.imagePaths.map(async (path) => ...))]: the
    uris in the order of the paths, or the error of the first path that
    fails. The callbacks read their files when [map] calls them and leave
    no trace. *)
Fixpoint toImageUris (paths : list string) : M (list string) :=
  match paths with
  | [] => ret []
  | path :: rest =>
      uri <- toImageUri path ;;
      uris <- toImageUris rest ;;
      ret (uri :: uris)
  end.

(** [u] is what the inline conversion of the dispatchers makes of the
    reference [p]. *)
Definition converted (p u : string) : Prop :=
  (startsWith p "data:" = true /\ u = p) \/
  (startsWith p "data:" = false /\
   exists base64, readFileBase64 w p = Ok base64 /\
                  u = "data:image/png;base64," ++ base64).

(** [u] is the png data uri of the content of the file [p]. *)
Definition encoded (p u : string) : Prop :=
  exists base64, readFileBase64 w p = Ok base64 /\
                 u = "data:image/png;base64," ++ base64.

(** [downloadAndSave3DModel] *)
Definition downloadAndSave3DModel (modelUrl outputPath : string) : M string :=
  try_catch
    (perform (EvDownload modelUrl outputPath)
             (fun tr => curlDownload w tr modelUrl outputPath) ;;
     ret outputPath)
    (fun e => throw ("Failed to download and save 3D model to "
                     ++ outputPath ++ ": " ++ e)).

(** [getModel3DInfo] *)
Definition getModel3DInfo (modelPath : string) : M ModelInfo :=
  try_catch
    (fileSize <- perform (EvStat modelPath)
                         (fun tr => statSize w tr modelPath) ;;
     let ext := toLowerCase w (path_extname w modelPath) in
     ret {| file_size := fileSize;
            format := toUpperCase w (remove_first_dot ext) |})
    (fun e => throw ("Failed to get 3D model info for "
                     ++ modelPath ++ ": " ++ e)).

Definition headers_for (apiKey : string) : list (string * string) :=
  [ ("Authorization", "Key " ++ apiKey); ("Content-Type", "application/json") ].

Definition post (endpoint : string) (headers : list (string * string))
    (body : Body) : M Response :=
  perform (EvHttp endpoint "POST" headers body)
          (fun tr => makeHTTPRequest w tr endpoint "POST" headers body).

(** [response.error || response.detail] *)
Definition has_error (response : Response) : bool :=
  match error response, detail response with
  | None, None => false
  | _, _ => true
  end.

(** [response.error?.message || JSON.stringify(response.detail || response.error)] *)
Definition error_text (response : Response) : string :=
  or_else (e ← error response; error_message e)
          (match detail response, error response with
           | Some d, _ => d
           | None, Some e => error_json e
           | None, None => "undefined"
           end).

Definition texture_size_or_default (t : option Z) : Q :=
  match t with
  | Some n => if (n =? 0)%Z then 1024 else inject_Z n
  | None => 1024
  end.

(** The download block shared by the dispatchers: [url] is the field of
    the response that names the mesh. *)
Definition save_mesh (url : option string) (outputPath missing : string)
    : M (list string) :=
  if truthy_str url
  then modelPath <- downloadAndSave3DModel (default EmptyString url) outputPath ;;
       ret [modelPath]
  else throw missing.

Definition trellisGenerate3DSingle (args : SingleArgs)
    : M Model3DGenerationResult :=
  apiKey <- getFalAIKey ;;
  imageUri <- toImageUri (s_imagePath args) ;;
  let body : Body :=
    [ ("image_url", JStr imageUri);
      ("texture_size", JNum (texture_size_or_default (s_texture_size args)));
      ("ss_guidance_strength", JNum 7.5);
      ("ss_sampling_steps", JNum 12);
      ("slat_guidance_strength", JNum 3);
      ("slat_sampling_steps", JNum 12);
      ("mesh_simplify", JNum 0.95) ] in
  response <- post "https://fal.run/fal-ai/trellis" (headers_for apiKey) body ;;
  if has_error response
  then throw ("Trellis API error: " ++ error_text response)
  else
    savedPaths <- save_mesh (model_mesh_url response) (s_outputPath args)
                    "No model mesh in Trellis response" ;;
    modelInfo <- getModel3DInfo (s_outputPath args) ;;
    ret {| provider := "FAL.ai"; model := "trellis"; variant := "single";
           savedPaths := savedPaths;
           prompt_used := s_prompt args;
           input_images := [s_imagePath args];
           generation_time := timings_inference response;
           model_info := modelInfo;
           parameters := body;
           auto_generated_references := None;
           reference_model_used := None;
           reference_views_generated := None |}.

Definition trellisGenerate3DMulti (args : MultiArgs)
    : M Model3DGenerationResult :=
  apiKey <- getFalAIKey ;;
  imageUris <- toImageUris (m_imagePaths args) ;;
  let body : Body :=
    [ ("image_urls", JArr imageUris);
      ("texture_size", JNum (texture_size_or_default (m_texture_size args)));
      ("ss_guidance_strength", JNum 7.5);
      ("ss_sampling_steps", JNum 12);
      ("slat_guidance_strength", JNum 3);
      ("slat_sampling_steps", JNum 12);
      ("mesh_simplify", JNum 0.95);
      ("multiimage_algo", JStr (or_else (m_multiimage_algo args) "stochastic")) ] in
  response <- post "https://fal.run/fal-ai/trellis/multi" (headers_for apiKey) body ;;
  if has_error response
  then throw ("Trellis Multi API error: " ++ error_text response)
  else
    savedPaths <- save_mesh (model_mesh_url response) (m_outputPath args)
                    "No model mesh in Trellis Multi response" ;;
    modelInfo <- getModel3DInfo (m_outputPath args) ;;
    ret {| provider := "FAL.ai"; model := "trellis"; variant := "multi";
           savedPaths := savedPaths;
           prompt_used := m_prompt args;
           input_images := m_imagePaths args;
           generation_time := timings_inference response;
           model_info := modelInfo;
           parameters := body;
           auto_generated_references := None;
           reference_model_used := None;
           reference_views_generated := None |}.

Definition hunyuan3DGenerateSingle (args : SingleArgs)
    : M Model3DGenerationResult :=
  apiKey <- getFalAIKey ;;
  imageUri <- toImageUri (s_imagePath args) ;;
  let body : Body :=
    [ ("input_image_url", JStr imageUri);
      ("num_inference_steps", JNum 50);
      ("guidance_scale", JNum 7.5);
      ("octree_resolution", JNum 256);
      ("textured_mesh", JBool (default true (s_textured_mesh args))) ] in
  response <- post "https://fal.run/fal-ai/hunyuan3d/v2" (headers_for apiKey) body ;;
  if has_error response
  then throw ("Hunyuan3D API error: " ++ error_text response)
  else
    savedPaths <- save_mesh (model_mesh_url response) (s_outputPath args)
                    "No model mesh in Hunyuan3D response" ;;
    modelInfo <- getModel3DInfo (s_outputPath args) ;;
    ret {| provider := "FAL.ai"; model := "hunyuan3d-2.0"; variant := "single";
           savedPaths := savedPaths;
           prompt_used := s_prompt args;
           input_images := [s_imagePath args];
           generation_time := timings_inference response;
           model_info := modelInfo;
           parameters := body;
           auto_generated_references := None;
           reference_model_used := None;
           reference_views_generated := None |}.

(** The message of the length check of the two multi-view dispatchers. *)
Definition insufficient_views (name : string) (n : nat) : string :=
  name ++ " requires at least 3 images (front, back, left views). Only "
       ++ pretty n ++ " images provided.".

(** The body of the two multi-view dispatchers: the first three uris, by
    position. An index past the end reads [undefined] and the field is
    left out of the JSON text; the length check excludes it. *)
Definition multi_view_body (imageUris : list string) (fmt : option string)
    : Body :=
  (from_option (fun u => [("front_image_url", JStr u)]) [] (imageUris !! 0%nat)
   ++ from_option (fun u => [("back_image_url", JStr u)]) [] (imageUris !! 1%nat)
   ++ from_option (fun u => [("left_image_url", JStr u)]) [] (imageUris !! 2%nat)
   ++ [("format", JStr (or_else fmt "glb"))])%list.

Definition hunyuan3DGenerateMulti (args : MultiArgs)
    : M Model3DGenerationResult :=
  apiKey <- getFalAIKey ;;
  if (length (m_imagePaths args) <? 3)%nat
  then throw (insufficient_views "Hunyuan3D Multi" (length (m_imagePaths args)))
  else
    imageUris <- toImageUris (m_imagePaths args) ;;
    let body := multi_view_body imageUris (m_format args) in
    response <- post "https://fal.run/fal-ai/hunyuan3d/v2/multi-view"
                     (headers_for apiKey) body ;;
    if has_error response
    then throw ("Hunyuan3D Multi API error: " ++ error_text response)
    else
      savedPaths <- save_mesh (model_url response) (m_outputPath args)
                      "No model URL in Hunyuan3D Multi response" ;;
      modelInfo <- getModel3DInfo (m_outputPath args) ;;
      ret {| provider := "FAL.ai"; model := "hunyuan3d-2.0"; variant := "multi";
             savedPaths := savedPaths;
             prompt_used := m_prompt args;
             input_images := m_imagePaths args;
             generation_time := timings_inference response;
             model_info := modelInfo;
             parameters := body;
             auto_generated_references := None;
             reference_model_used := None;
             reference_views_generated := None |}.

Definition hunyuan3DGenerateSingleTurbo (args : SingleArgs)
    : M Model3DGenerationResult :=
  apiKey <- getFalAIKey ;;
  imageUri <- toImageUri (s_imagePath args) ;;
  let body : Body :=
    [ ("image_url", JStr imageUri);
      ("format", JStr (or_else (s_format args) "glb")) ] in
  response <- post "https://fal.run/fal-ai/hunyuan3d/v2/turbo"
                   (headers_for apiKey) body ;;
  if has_error response
  then throw ("Hunyuan3D Turbo API error: " ++ error_text response)
  else
    savedPaths <- save_mesh (model_url response) (s_outputPath args)
                    "No model URL in Hunyuan3D Turbo response" ;;
    modelInfo <- getModel3DInfo (s_outputPath args) ;;
    ret {| provider := "FAL.ai"; model := "hunyuan3d-2.0";
           variant := "single-turbo";
           savedPaths := savedPaths;
           prompt_used := s_prompt args;
           input_images := [s_imagePath args];
           generation_time := timings_inference response;
           model_info := modelInfo;
           parameters := body;
           auto_generated_references := None;
           reference_model_used := None;
           reference_views_generated := None |}.

Definition hunyuan3DGenerateMultiTurbo (args : MultiArgs)
    : M Model3DGenerationResult :=
  apiKey <- getFalAIKey ;;
  if (length (m_imagePaths args) <? 3)%nat
  then throw (insufficient_views "Hunyuan3D Multi Turbo"
                                 (length (m_imagePaths args)))
  else
    imageUris <- toImageUris (m_imagePaths args) ;;
    let body := multi_view_body imageUris (m_format args) in
    response <- post "https://fal.run/fal-ai/hunyuan3d/v2/multi-view/turbo"
                     (headers_for apiKey) body ;;
    if has_error response
    then throw ("Hunyuan3D Multi Turbo API error: " ++ error_text response)
    else
      savedPaths <- save_mesh (model_url response) (m_outputPath args)
                      "No model URL in Hunyuan3D Multi Turbo response" ;;
      modelInfo <- getModel3DInfo (m_outputPath args) ;;
      ret {| provider := "FAL.ai"; model := "hunyuan3d-2.0";
             variant := "multi-turbo";
             savedPaths := savedPaths;
             prompt_used := m_prompt args;
             input_images := m_imagePaths args;
             generation_time := timings_inference response;
             model_info := modelInfo;
             parameters := body;
             auto_generated_references := None;
             reference_model_used := None;
             reference_views_generated := None |}.

End WithWorld.

End Model3dUtils.

(* ================================================================== *)
(** ** providers/model3dHelpers.ts : the orchestration helpers         *)
(* ================================================================== *)

Module Model3dHelpers.

Import JS Effects Model3dUtils.
Local Open Scope string_scope.
Local Open Scope monad_scope.

(** The [switch (view)] of [generateReferenceImages]. *)
Definition view_clause (view : string) : string :=
  if String.eqb view "front"
  then ", front-facing view showing main features and proportions"
  else if String.eqb view "back"
  then ", rear view showing back details and construction"
  else if String.eqb view "top"
  then ", overhead view showing top layout and proportions"
  else if String.eqb view "left"
  then ", left side profile showing side details and proportions"
  else if String.eqb view "right"
  then ", right side profile showing opposite side details"
  else EmptyString.

Definition view_prompt (prompt view : string) : string :=
  (prompt ++ ", " ++ view ++ " view, ")
  ++ "technical reference image, clean white background, "
  ++ "professional 3D modeling reference, consistent lighting, "
  ++ "detailed but clear, suitable for 3D reconstruction"
  ++ view_clause view.

(** The argument of [generateImage] for one view. *)
Definition image_args (prompt outputBasePath view model : string) : ImageArgs :=
  {| img_provider := model;
     img_prompt := view_prompt prompt view;
     img_outputPath := replace_ext outputBasePath ("_ref_" ++ view ++ ".png");
     img_size := if String.eqb model "openai" then Some "1024x1024" else None;
     img_image_size := if String.eqb model "falai" then Some "square_hd" else None |}.

(** [selectModelVariant] *)
Definition selectModelVariant (model : string) (inputImageCount : nat)
    (preferTurbo : bool) : string :=
  if String.eqb model "trellis"
  then (if (inputImageCount <=? 1)%nat then "single" else "multi")
  else if preferTurbo
  then (if (inputImageCount <=? 1)%nat then "single-turbo" else "multi-turbo")
  else (if (inputImageCount <=? 1)%nat then "single" else "multi").

(** The variants by arity and speed. *)
Definition is_single_variant (v : string) : bool :=
  mem v ["single"; "single-turbo"].

Definition is_multi_variant (v : string) : bool :=
  mem v ["multi"; "multi-turbo"].

Definition is_turbo_variant (v : string) : bool := includes v "turbo".

(** The views handed to [generateReferenceImages] by [generate3DModel]
    (line 127): [(variant && variant.includes('multi')) ? referenceViews : ['front']] *)
Definition views_to_generate (variant : option string)
    (referenceViews : list string) : list string :=
  if truthy_str variant && includes (default EmptyString variant) "multi"
  then referenceViews
  else ["front"].

(** The variant used for the dispatch (line 144):
    [variant || selectModelVariant(model, finalInputPaths.length)] *)
Definition actual_variant (variant : option string) (model : string)
    (inputImageCount : nat) : string :=
  or_else variant (selectModelVariant model inputImageCount false).

(** [String(v)], for a template literal. *)
Definition to_string (v : Value) : string :=
  match v with
  | VUndefined => "undefined"
  | VBool true => "true"
  | VBool false => "false"
  | VStr s => s
  | VArr l => String.concat "," l
  end.

Definition baseDefaults : Obj :=
  {[ "format" := VStr "glb";
     "autoGenerateReferences" := VBool true;
     "referenceModel" := VStr "gemini";
     "referenceViews" := VArr ["front"; "back"; "top"];
     "cleanupReferences" := VBool true ]}.

(** [getDefault3DOptions] *)
Definition getDefault3DOptions (model : Value) : Result Obj :=
  match model with
  | VStr "trellis" =>
      Ok (spread baseDefaults
            {[ "model" := VStr "trellis"; "variant" := VStr "multi" ]})
  | VStr "hunyuan3d" =>
      Ok (spread baseDefaults
            {[ "model" := VStr "hunyuan3d"; "variant" := VStr "multi" ]})
  | _ => Throw ("No default options available for model: " ++ to_string model)
  end.

(** [merge3DWithDefaults] *)
Definition merge3DWithDefaults (options : Obj) : Result Obj :=
  match getDefault3DOptions (get options "model") with
  | Ok defaults => Ok (spread defaults options)
  | Throw e => Throw e
  end.

(** [list.includes(v)] for an array literal of strings and any value. *)
Definition one_of (v : Value) (l : list string) : bool :=
  match v with
  | VStr s => mem s l
  | _ => false
  end.

(** [(!v || v.length === 0)] *)
Definition absent_or_empty (v : Value) : bool :=
  match v with
  | VUndefined => true
  | VBool b => negb b
  | VStr s => String.eqb s EmptyString
  | VArr l => (length l =? 0)%nat
  end.

(** [validate3DModelOptions]: the checks in the order of the source, the
    first violation thrown. A call of a string method on a value that is
    not a string is a [TypeError]. *)
Definition validate3DModelOptions (options : Obj) : Result unit :=
  let outputPath := get options "outputPath" in
  let variant := get options "variant" in
  let fmt := get options "format" in
  match outputPath with
  | VBool true | VArr _ => Throw "options.outputPath.trim is not a function"
  | VUndefined | VBool false =>
      Throw "Output path is required and cannot be empty"
  | VStr path =>
      if blank path
      then Throw "Output path is required and cannot be empty"
      else if negb (one_of (get options "model") ["trellis"; "hunyuan3d"])
      then Throw "Model must be one of: trellis, hunyuan3d"
      else if truthy variant
              && negb (one_of variant
                         ["single"; "multi"; "single-turbo"; "multi-turbo"])
      then Throw "Variant must be one of: single, multi, single-turbo, multi-turbo"
      else if truthy fmt && negb (one_of fmt ["glb"; "gltf"])
      then Throw "Format must be one of: glb, gltf"
      else
        match
          (if one_of (get options "model") ["trellis"]
           then match variant with
                | VStr v => Ok (includes v "turbo")
                | VUndefined => Ok false
                | _ => Throw "options.variant?.includes is not a function"
                end
           else Ok false)
        with
        | Throw e => Throw e
        | Ok true => Throw "Trellis model does not support turbo variants"
        | Ok false =>
            if absent_or_empty (get options "inputImagePaths")
               && negb (truthy (get options "prompt"))
            then Throw "Either input images or a prompt is required for 3D model generation"
            else Ok tt
        end
  end.

(** The paths an answer of [generateImage] adds to [referencePaths]:
    those of a parsed result with a [savedPaths] array, none for an
    exception, for a text that does not parse or for a result without
    [savedPaths]. *)
Definition saved_paths (answer : Result ImageResult) : list string :=
  match answer with
  | Ok (SavedPaths (Some paths)) => paths
  | _ => []
  end.

(** The calls of [generateImage] recorded in a trace, in order. *)
Definition image_calls (tr : Trace) : list ImageArgs :=
  omap (fun ev => match ev with EvGenerateImage a => Some a | _ => None end) tr.

(** The calls of [unlinkSync] recorded in a trace, in order. *)
Definition unlink_calls (tr : Trace) : list string :=
  omap (fun ev => match ev with EvUnlink p => Some p | _ => None end) tr.

(** The warnings written to the console, in order. *)
Definition warnings (tr : Trace) : list string :=
  omap (fun ev => match ev with EvWarn t => Some t | _ => None end) tr.

(** The warning of [generateReferenceImages] for the answer to the call
    for [view], if it is a failure. *)
Definition reference_warning (view : string) (answer : Result ImageResult)
    : list string :=
  match answer with
  | Throw e | Ok (Malformed e) =>
      ["Failed to generate " ++ view ++ " reference image: " ++ e]
  | Ok (SavedPaths _) => []
  end.

(** The warning of the [finally] clause for the answer to the deletion of
    [refPath], if it is a failure. *)
Definition cleanup_warning (refPath : string) (answer : Result unit)
    : list string :=
  match answer with
  | Throw e => ["Failed to cleanup reference image " ++ refPath ++ ": " ++ e]
  | Ok _ => []
  end.

Definition no_image_calls (tr : Trace) : Prop := image_calls tr = [].

Definition no_unlink_calls (tr : Trace) : Prop := unlink_calls tr = [].

(** The requests and downloads recorded in a trace. *)
Definition network_calls (tr : Trace) : list Event :=
  List.filter (fun ev => match ev with
                         | EvHttp _ _ _ _ | EvDownload _ _
                         | EvGenerateImage _ => true
                         | _ => false
                         end) tr.

Section WithWorld.

Variable w : World.

(** One iteration of the loop of [generateReferenceImages]: the [try]
    block and its [catch]. *)
Definition reference_step (prompt outputBasePath model : string)
    (referencePaths : list string) (view : string) : M (list string) :=
  let args := image_args prompt outputBasePath view model in
  try_catch
    (parsedResult <- perform (EvGenerateImage args)
                             (fun tr => generateImage w tr args) ;;
     match parsedResult with
     | Malformed e => throw e
     | SavedPaths (Some paths) =>
         if (0 <? length paths)%nat
         then ret (referencePaths ++ paths)%list
         else ret referencePaths
     | SavedPaths None => ret referencePaths
     end)
    (fun e =>
       emit (EvWarn ("Failed to generate " ++ view ++ " reference image: " ++ e)) ;;
       ret referencePaths).

Fixpoint generateReferenceImages_from (prompt outputBasePath model : string)
    (referencePaths views : list string) : M (list string) :=
  match views with
  | [] => ret referencePaths
  | view :: rest =>
      paths <- reference_step prompt outputBasePath model referencePaths view ;;
      generateReferenceImages_from prompt outputBasePath model paths rest
  end.

(** [generateReferenceImages]; the callers of this module pass the views
    and the image model. *)
Definition generateReferenceImages (prompt outputBasePath : string)
    (views : list string) (model : string) : M (list string) :=
  generateReferenceImages_from prompt outputBasePath model [] views.

(** The locals that [generate3DModel] destructures from its options, with
    their defaults. Every field is read at its TypeScript type; a value
    of another type is outside the interface and reads as [undefined]. *)
Record Locals := mkLocals {
  prompt : option string;
  inputImagePaths : list string;
  outputPath : string;
  l_model : string;
  l_variant : option string;
  l_format : string;
  autoGenerateReferences : bool;
  referenceModel : string;
  referenceViews : list string;
  cleanupReferences : bool
}.

Definition destructure (options : Obj) : Locals :=
  {| prompt := get_str options "prompt";
     inputImagePaths := default [] (get_arr options "inputImagePaths");
     outputPath := default EmptyString (get_str options "outputPath");
     l_model := default EmptyString (get_str options "model");
     l_variant := get_str options "variant";
     l_format := default "glb" (get_str options "format");
     autoGenerateReferences :=
       default true (get_bool options "autoGenerateReferences");
     referenceModel := default "gemini" (get_str options "referenceModel");
     referenceViews :=
       default ["front"; "back"; "top"] (get_arr options "referenceViews");
     cleanupReferences := default true (get_bool options "cleanupReferences") |}.

(** Lines 211-216: the provenance fields. *)
Definition add_reference_metadata (l : Locals) (generatedReferences : list string)
    (result : Model3DGenerationResult) : Model3DGenerationResult :=
  if (0 <? length generatedReferences)%nat
  then {| provider := provider result; model := model result;
          variant := variant result; savedPaths := savedPaths result;
          prompt_used := prompt_used result;
          input_images := input_images result;
          generation_time := generation_time result;
          model_info := model_info result;
          parameters := parameters result;
          auto_generated_references := Some generatedReferences;
          reference_model_used := Some (referenceModel l);
          reference_views_generated := Some (referenceViews l) |}
  else result.

(** Lines 138-218: from the check of the input images to the [return]. *)
Definition dispatch (l : Locals) (finalInputPaths generatedReferences : list string)
    : M Model3DGenerationResult :=
  match finalInputPaths with
  | [] => throw "At least one input image is required for 3D model generation"
  | first :: _ =>
      let actualVariant :=
        actual_variant (l_variant l) (l_model l) (length finalInputPaths) in
      let single :=
        {| s_prompt := prompt l; s_imagePath := first;
           s_outputPath := outputPath l; s_format := Some (l_format l);
           s_texture_size := None; s_textured_mesh := None |} in
      let multi :=
        {| m_prompt := prompt l; m_imagePaths := finalInputPaths;
           m_outputPath := outputPath l; m_format := Some (l_format l);
           m_texture_size := None; m_multiimage_algo := None |} in
      result <-
        (if String.eqb (l_model l) "trellis"
         then (if String.eqb actualVariant "single"
               then trellisGenerate3DSingle w single
               else trellisGenerate3DMulti w multi)
         else if String.eqb (l_model l) "hunyuan3d"
         then (if String.eqb actualVariant "single"
               then hunyuan3DGenerateSingle w single
               else if String.eqb actualVariant "multi"
               then hunyuan3DGenerateMulti w multi
               else if String.eqb actualVariant "single-turbo"
               then hunyuan3DGenerateSingleTurbo w single
               else if String.eqb actualVariant "multi-turbo"
               then hunyuan3DGenerateMultiTurbo w multi
               else throw ("Unsupported Hunyuan3D variant: " ++ actualVariant))
         else throw ("Unsupported 3D model: " ++ l_model l)) ;;
      ret (add_reference_metadata l generatedReferences result)
  end.

(** The [try] block of [generate3DModel]. [generatedReferences] is assigned
    inside the block and read by the [finally] clause: the block hands its
    last value over with its outcome. *)
Definition generate3DModel_try (l : Locals)
    : Trace -> list string * (Result Model3DGenerationResult * Trace) :=
  fun tr0 =>
    if (length (inputImagePaths l) =? 0)%nat && truthy_str (prompt l)
       && autoGenerateReferences l
    then
      match
        (emit (EvLog "No input images provided, generating reference images automatically...") ;;
         generateReferenceImages (default EmptyString (prompt l))
           (replace_ext (outputPath l) EmptyString)
           (views_to_generate (l_variant l) (referenceViews l))
           (referenceModel l)) tr0
      with
      | (Ok generatedReferences, tr) =>
          (generatedReferences,
           if (length generatedReferences =? 0)%nat
           then (Throw "Failed to generate reference images automatically", tr)
           else dispatch l generatedReferences generatedReferences tr)
      | (Throw e, tr) => ([], (Throw e, tr))
      end
    else ([], dispatch l (inputImagePaths l) [] tr0).

(** The loop of the [finally] clause. *)
Fixpoint cleanup_each (refs : list string) : M unit :=
  match refs with
  | [] => ret tt
  | refPath :: rest =>
      try_catch
        (perform (EvUnlink refPath) (fun tr => unlinkSync w tr refPath))
        (fun e => emit (EvWarn ("Failed to cleanup reference image "
                                ++ refPath ++ ": " ++ e))) ;;
      cleanup_each rest
  end.

(** The [finally] clause. *)
Definition cleanup (cleanupRefs : bool) (generatedReferences : list string)
    : M unit :=
  if cleanupRefs && (0 <? length generatedReferences)%nat
  then cleanup_each generatedReferences
  else ret tt.

(** [generate3DModel]: the outcome of the [try] block, after the [finally]
    clause has run. *)
Definition generate3DModel (options : Obj) : M Model3DGenerationResult :=
  let l := destructure options in
  fun tr0 =>
    let '(generatedReferences, (outcome, tr1)) := generate3DModel_try l tr0 in
    let '(_, tr2) := cleanup (cleanupReferences l) generatedReferences tr1 in
    (outcome, tr2).

(** The object literal of [generate3DModelSmart]:
    [{ prompt, outputPath, model, variant: 'multi', ...options }] *)
Definition smart_request (prompt outputPath model : string) (options : Obj) : Obj :=
  spread {[ "prompt" := VStr prompt; "outputPath" := VStr outputPath;
            "model" := VStr model; "variant" := VStr "multi" ]}
         options.

(** [generate3DModelSmart] *)
Definition generate3DModelSmart (prompt outputPath model : string)
    (options : Obj) : M Model3DGenerationResult :=
  fullOptions <- lift (merge3DWithDefaults
                         (smart_request prompt outputPath model options)) ;;
  lift (validate3DModelOptions fullOptions) ;;
  generate3DModel fullOptions.

End WithWorld.

End Model3dHelpers.

(* ================================================================== *)
(** ** Concrete worlds and requests                                    *)
(* ================================================================== *)

Module Scenarios.

Import JS Effects Model3dUtils Model3dHelpers.
Local Open Scope string_scope.

(** A response that names a mesh and carries no error. *)
Definition mesh_response : Response :=
  {| error := None; detail := None;
     model_mesh_url := Some "https://cdn.example/mesh.glb";
     model_url := Some "https://cdn.example/model.glb";
     timings_inference := None |}.

(** Every collaborator answers; an image generation saves one file at the
    path it was asked for, except for the views named in [failing]. *)
Definition world_with (key : option string) (failing : list string) : World :=
  {| FAL_AI_API_KEY := key;
     readFileBase64 :=
       fun path =>
         if startsWith path "data:"
         then Throw "ENOENT: no such file or directory"
         else Ok "QUJD";
     generateImage :=
       fun _ args =>
         if existsb (fun view => includes (img_prompt args)
                                   (", " ++ view ++ " view, ")) failing
         then Throw "Generation failed"
         else Ok (SavedPaths (Some [img_outputPath args]));
     makeHTTPRequest := fun _ _ _ _ _ => Ok mesh_response;
     curlDownload := fun _ _ _ => Ok tt;
     statSize := fun _ _ => Ok 2048%Z;
     unlinkSync := fun _ _ => Ok tt;
     path_extname := fun _ => ".glb";
     toLowerCase := fun s => s;
     toUpperCase := fun _ => "GLB" |}.

Definition online : World := world_with (Some "fal-key") [].

Definition no_credential : World := world_with None [].

(** An image generation that saves two files for one view. *)
Definition two_files_per_view : World :=
  {| FAL_AI_API_KEY := Some "fal-key";
     readFileBase64 := fun _ => Ok "QUJD";
     generateImage :=
       fun _ args =>
         Ok (SavedPaths (Some [img_outputPath args ++ "_0.png";
                               img_outputPath args ++ "_1.png"]));
     makeHTTPRequest := fun _ _ _ _ _ => Ok mesh_response;
     curlDownload := fun _ _ _ => Ok tt;
     statSize := fun _ _ => Ok 2048%Z;
     unlinkSync := fun _ _ => Ok tt;
     path_extname := fun _ => ".glb";
     toLowerCase := fun s => s;
     toUpperCase := fun _ => "GLB" |}.

Definition multi_args (paths : list string) : MultiArgs :=
  {| m_prompt := None; m_imagePaths := paths; m_outputPath := "out/model.glb";
     m_format := None; m_texture_size := None; m_multiimage_algo := None |}.

End Scenarios.

(* ================================================================== *)
(** ** utils/model3dUtils.ts : the world dispatcher and the protocol   *)
(* ================================================================== *)

Module Dispatchers.

Import JS Effects Model3dUtils.
Local Open Scope string_scope.
Local Open Scope monad_scope.

(** The argument of [hunyuanWorldGenerate3D]. *)
Record WorldArgs := mkWorldArgs {
  w_prompt : option string;
  w_imagePath : string;
  w_outputPath : string;
  w_format : option string;
  w_camera_distance : option Q;
  w_fov : option Q;
  w_num_inference_steps : option Q;
  w_guidance_scale : option Q;
  w_seed : option Q
}.

(** [n || d] on optional numbers: [undefined] and zero are falsy. *)
Definition number_or_else (n : option Q) (d : Q) : Q :=
  match n with
  | Some q => if Qeq_bool q 0 then d else q
  | None => d
  end.

Section WithWorld.

Variable w : World.

(** [hunyuanWorldGenerate3D]; a [seed] that is [undefined] is left out of
    the JSON text of the body. *)
Definition hunyuanWorldGenerate3D (args : WorldArgs)
    : M Model3DGenerationResult :=
  apiKey <- getFalAIKey w ;;
  imageUri <- toImageUri w (w_imagePath args) ;;
  let body : Body :=
    ([ ("image_url", JStr imageUri);
       ("camera_distance", JNum (number_or_else (w_camera_distance args) 2.5));
       ("fov", JNum (number_or_else (w_fov args) 40));
       ("num_inference_steps",
        JNum (number_or_else (w_num_inference_steps args) 50));
       ("guidance_scale", JNum (number_or_else (w_guidance_scale args) 7.5)) ]
     ++ from_option (fun seed => [("seed", JNum seed)]) [] (w_seed args))%list in
  response <- post w "https://fal.run/fal-ai/hunyuan_world/image-to-world"
                   (headers_for apiKey) body ;;
  if has_error response
  then throw ("Hunyuan World API error: " ++ error_text response)
  else
    savedPaths <- save_mesh w (model_url response) (w_outputPath args)
                    "No model URL in Hunyuan World response" ;;
    modelInfo <- getModel3DInfo w (w_outputPath args) ;;
    ret {| provider := "FAL.ai"; model := "hunyuan-world"; variant := "single";
           savedPaths := savedPaths;
           prompt_used := w_prompt args;
           input_images := [w_imagePath args];
           generation_time := timings_inference response;
           model_info := modelInfo;
           parameters := body;
           auto_generated_references := None;
           reference_model_used := None;
           reference_views_generated := None |}.

End WithWorld.

(** [AVAILABLE_VARIANTS]: the variants of each model of [Model3DModel],
    nothing for any other key. *)
Definition AVAILABLE_VARIANTS (model : string) : option (list string) :=
  if String.eqb model "trellis" then Some ["single"; "multi"]
  else if String.eqb model "hunyuan3d"
  then Some ["single"; "multi"; "single-turbo"; "multi-turbo"]
  else if String.eqb model "hunyuan-world" then Some ["single"]
  else None.

(** What a call of a dispatcher adds to the trace, with its outcome: a
    request to [endpoint] with the credential [key], then the download of
    the mesh to [outputPath], then the size of that file, in this order
    and each at most once; the call returns only after all three. *)
Inductive dispatched (endpoint key outputPath : string)
    : Result Model3DGenerationResult -> Trace -> Prop :=
  | stopped_before_request e :
      dispatched endpoint key outputPath (Throw e) []
  | stopped_after_request e body :
      dispatched endpoint key outputPath (Throw e)
        [EvHttp endpoint "POST" (headers_for key) body]
  | stopped_after_download e body url :
      dispatched endpoint key outputPath (Throw e)
        [EvHttp endpoint "POST" (headers_for key) body;
         EvDownload url outputPath]
  | stopped_after_stat e body url :
      dispatched endpoint key outputPath (Throw e)
        [EvHttp endpoint "POST" (headers_for key) body;
         EvDownload url outputPath; EvStat outputPath]
  | returned result body url :
      provider result = "FAL.ai" ->
      savedPaths result = [outputPath] ->
      parameters result = body ->
      auto_generated_references result = None ->
      dispatched endpoint key outputPath (Ok result)
        [EvHttp endpoint "POST" (headers_for key) body;
         EvDownload url outputPath; EvStat outputPath].

(** The requests recorded in a trace: their addresses, in order. *)
Definition http_urls (tr : Trace) : list string :=
  omap (fun ev => match ev with EvHttp url _ _ _ => Some url | _ => None end) tr.

(** No request and no deletion. *)
Definition quiet (tr : Trace) : Prop :=
  http_urls tr = [] /\ Model3dHelpers.unlink_calls tr = [].

(** A computation that follows the protocol from any trace. *)
Definition follows_protocol (m : M Model3DGenerationResult)
    (endpoint key outputPath : string) : Prop :=
  forall tr, exists outcome suffix,
    m tr = (outcome, (tr ++ suffix)%list) /\
    dispatched endpoint key outputPath outcome suffix.

(** A reference the conversion of the dispatchers accepts: a data uri or
    the name of a file that can be read. *)
Definition readable (w : World) (path : string) : Prop :=
  startsWith path "data:" = true \/
  exists base64, readFileBase64 w path = Ok base64.

End Dispatchers.

(* ================================================================== *)
(** ** More concrete worlds                                            *)
(* ================================================================== *)

Module MoreScenarios.

Import JS Effects Model3dUtils Model3dHelpers Scenarios.
Local Open Scope string_scope.

(** The world [online] without the file [missing]. *)
Definition without_file (missing : string) : World :=
  {| FAL_AI_API_KEY := Some "fal-key";
     readFileBase64 :=
       fun path =>
         if String.eqb path missing
         then Throw "ENOENT: no such file or directory"
         else Ok "QUJD";
     generateImage := generateImage online;
     makeHTTPRequest := makeHTTPRequest online;
     curlDownload := curlDownload online;
     statSize := statSize online;
     unlinkSync := unlinkSync online;
     path_extname := path_extname online;
     toLowerCase := toLowerCase online;
     toUpperCase := toUpperCase online |}.

(** The world [online] with an image service that always fails. *)
Definition no_image_service : World :=
  {| FAL_AI_API_KEY := Some "fal-key";
     readFileBase64 := readFileBase64 online;
     generateImage := fun _ _ => Throw "Generation failed";
     makeHTTPRequest := makeHTTPRequest online;
     curlDownload := curlDownload online;
     statSize := statSize online;
     unlinkSync := unlinkSync online;
     path_extname := path_extname online;
     toLowerCase := toLowerCase online;
     toUpperCase := toUpperCase online |}.

(** The world [online] where every file is empty. *)
Definition empty_files : World :=
  {| FAL_AI_API_KEY := Some "fal-key";
     readFileBase64 := fun _ => Ok EmptyString;
     generateImage := generateImage online;
     makeHTTPRequest := makeHTTPRequest online;
     curlDownload := curlDownload online;
     statSize := statSize online;
     unlinkSync := unlinkSync online;
     path_extname := path_extname online;
     toLowerCase := toLowerCase online;
     toUpperCase := toUpperCase online |}.

Definition single_args (path : string) : SingleArgs :=
  {| s_prompt := None; s_imagePath := path; s_outputPath := "out/model.glb";
     s_format := None; s_texture_size := None; s_textured_mesh := None |}.

End MoreScenarios.

(* ================================================================== *)
(** ** Data uris: the validator and the prefix that is stripped        *)
(* ================================================================== *)

Module DataUri.

Import JS.
Local Open Scope string_scope.

(** [s] without the prefix [p], when it starts with it. *)
Fixpoint strip_prefix (p s : string) : option string :=
  match p, s with
  | EmptyString, _ => Some s
  | String a p', String b s' =>
      if Ascii.eqb a b then strip_prefix p' s' else None
  | String _ _, EmptyString => None
  end.

(** The longest prefix of [s] made of characters of a class, and the
    rest: what a greedy [[class]*] takes when the character that follows
    it in the pattern is not of the class. *)
Fixpoint span (class : ascii -> bool) (s : string) : string * string :=
  match s with
  | EmptyString => (EmptyString, EmptyString)
  | String c rest =>
      if class c
      then let '(taken, others) := span class rest in (String c taken, others)
      else (EmptyString, s)
  end.

Definition between (lo hi c : ascii) : bool :=
  (nat_of_ascii lo <=? nat_of_ascii c)%nat
  && (nat_of_ascii c <=? nat_of_ascii hi)%nat.

(** [[A-Za-z0-9+/]] *)
Definition base64_char (c : ascii) : bool :=
  between "A"%char "Z"%char c || between "a"%char "z"%char c
  || between "0"%char "9"%char c
  || Ascii.eqb c "+"%char || Ascii.eqb c "/"%char.

(** [[a-z]] *)
Definition lower_char (c : ascii) : bool := between "a"%char "z"%char c.

(** [([A-Za-z0-9+/]+={0,2})$] : at least one character of the alphabet,
    then at most two [=], then the end. *)
Definition base64_payload (s : string) : bool :=
  let '(body, padding) := span base64_char s in
  negb (String.eqb body EmptyString) && mem padding [EmptyString; "="; "=="].

(** [validateBase64ImageURI]: the test of
    [/^data:image\/(png|jpg|jpeg|webp);base64,([A-Za-z0-9+/]+={0,2})$/]. *)
Definition validateBase64ImageURI (uri : string) : bool :=
  match strip_prefix "data:image/" uri with
  | Some rest =>
      existsb (fun subtype =>
                 match strip_prefix (subtype ++ ";base64,") rest with
                 | Some payload => base64_payload payload
                 | None => false
                 end)
              ["png"; "jpg"; "jpeg"; "webp"]
  | None => false
  end.

(** [base64Data.replace(/^data:image\/[a-z]+;base64,/, '')] of
    [saveBase64Image]. *)
Definition strip_data_url (base64Data : string) : string :=
  match strip_prefix "data:image/" base64Data with
  | Some rest =>
      let '(subtype, after) := span lower_char rest in
      if String.eqb subtype EmptyString then base64Data
      else match strip_prefix ";base64," after with
           | Some base64Clean => base64Clean
           | None => base64Data
           end
  | None => base64Data
  end.

(** Every character of [s] is of the class. *)
Fixpoint all_chars (class : ascii -> bool) (s : string) : bool :=
  match s with
  | EmptyString => true
  | String c rest => class c && all_chars class rest
  end.

End DataUri.

(* ================================================================== *)
(** ** utils/imageUtils.ts : processes, files and the two-step image   *)
(* ================================================================== *)

Module System.

Import JS DataUri.
Import Effects(Result, Ok, Throw, Body, Response).
Local Open Scope string_scope.

(** A [Buffer]: its bytes. *)
Definition Buffer := string.

(** The generation options that [generateTransparentImage] hands on. *)
Record GenerationOptions := mkGenerationOptions {
  size : option string;
  quality : option string;
  style : option string;
  image_size : option string;
  num_inference_steps : option Q;
  guidance_scale : option Q
}.

(** What the functions of this file do to the machine, in order. *)
Inductive Call :=
  | Exec (file : string) (args : list string)
  | Mkdir (dir : string)
  | ReadFile (path : string)
  | WriteFile (path : string) (content : Buffer)
  | Unlink (path : string)
  | Warn (text : string)
  | GenerateImage (provider prompt outputPath : string)
                  (options : GenerationOptions).

Definition Calls := list Call.

(** The machine: node's modules and the image provider. An oracle that
    acts on the machine receives the calls made so far. *)
Record Host := mkHost {
  (** [Date.now()] *)
  Date_now : Calls -> Z;
  (** [JSON.stringify(body)] and [JSON.parse(stdout)] *)
  JSON_stringify : Body -> string;
  JSON_parse : string -> Result Response;
  (** the [stdout] of [execFileAsync(file, args)] *)
  execFile : Calls -> string -> list string -> Result string;
  (** [path.dirname] *)
  path_dirname : string -> string;
  (** [mkdirSync(dir, { recursive: true })] *)
  fs_mkdirSync : Calls -> string -> Result unit;
  fs_readFileSync : Calls -> string -> Result Buffer;
  fs_writeFileSync : Calls -> string -> Buffer -> Result unit;
  fs_unlinkSync : Calls -> string -> Result unit;
  (** [Buffer.from(text, 'base64')] *)
  Buffer_from_base64 : string -> Buffer;
  (** [loadImage], [createCanvas], [drawImage] and [getImageData] *)
  canvas_getImageData : Buffer -> Result ImageUtils.ImageData;
  (** [putImageData] and [canvas.toBuffer('image/png')] *)
  canvas_toBuffer : ImageUtils.ImageData -> Result Buffer;
  (** [generateImage] of [providers/imageHelpers] *)
  generateImage :
    Calls -> string -> string -> string -> GenerationOptions -> Result string
}.

(** A computation extends the calls and returns or throws. *)
Definition IO (A : Type) : Type := Calls -> Result A * Calls.

Definition ret {A} (a : A) : IO A := fun tr => (Ok a, tr).

Definition throw {A} (message : string) : IO A := fun tr => (Throw message, tr).

Definition bind {A B} (m : IO A) (k : A -> IO B) : IO B :=
  fun tr =>
    match m tr with
    | (Ok a, tr') => k a tr'
    | (Throw e, tr') => (Throw e, tr')
    end.

(** [try { m } catch (error) { handler(error.message) }] *)
Definition try_catch {A} (m : IO A) (handler : string -> IO A) : IO A :=
  fun tr =>
    match m tr with
    | (Ok a, tr') => (Ok a, tr')
    | (Throw e, tr') => handler e tr'
    end.

(** A call: it is recorded, the oracle answers from the calls before. *)
Definition perform {A} (call : Call) (oracle : Calls -> Result A) : IO A :=
  fun tr => (oracle tr, (tr ++ [call])%list).

Definition lift {A} (r : Result A) : IO A := fun tr => (r, tr).

(** [console.warn(text)] *)
Definition warn (text : string) : IO unit :=
  fun tr => (Ok tt, (tr ++ [Warn text])%list).

Declare Scope io_scope.
Delimit Scope io_scope with io.
Notation "x <- m ;; k" := (bind m (fun x => k))
  (at level 100, m at level 99, k at level 200, right associativity) : io_scope.
Notation "m ;; k" := (bind m (fun _ => k))
  (at level 100, k at level 200, right associativity) : io_scope.
Local Open Scope io_scope.

Section WithHost.

Variable h : Host.

Definition curl (args : list string) : IO string :=
  perform (Exec "curl" args) (fun tr => execFile h tr "curl" args).

Definition mkdir (dir : string) : IO unit :=
  perform (Mkdir dir) (fun tr => fs_mkdirSync h tr dir).

Definition readFile (path : string) : IO Buffer :=
  perform (ReadFile path) (fun tr => fs_readFileSync h tr path).

Definition writeFile (path : string) (content : Buffer) : IO unit :=
  perform (WriteFile path content) (fun tr => fs_writeFileSync h tr path content).

(** [try { unlinkSync(path) } catch (cleanupError) { console.warn(label, cleanupError) }] *)
Definition unlink_quietly (path label : string) : IO unit :=
  try_catch (perform (Unlink path) (fun tr => fs_unlinkSync h tr path))
            (fun e => warn (label ++ " " ++ e)).

(** The arguments of curl before the body: the method, the address and
    one [-H] per header, in the order of the headers. *)
Definition curl_args (url method : string) (headers : list (string * string))
    : list string :=
  (["-s"; "-X"; method; url]
   ++ concat ((fun '(key, value) => ["-H"; (key ++ ": " ++ value)%string])
              <$> headers))%list.

(** The common end of [makeHTTPRequest]: one run of curl, its output
    parsed, any failure wrapped. *)
Definition request (args : list string) : IO Response :=
  try_catch
    (stdout <- curl args ;; lift (JSON_parse h stdout))
    (fun e => throw ("HTTP request failed: " ++ e)).

(** [makeHTTPRequest]; [body] is [None] for a body that is absent or
    falsy, and an object otherwise. *)
Definition makeHTTPRequest (url method : string)
    (headers : list (string * string)) (body : option Body) : IO Response :=
  let args := curl_args url method headers in
  match body with
  | Some b =>
      if negb (String.eqb method "GET")
      then
        let bodyStr := JSON_stringify h b in
        if (50000 <? Z.of_nat (utf16_length bodyStr))%Z
        then
          fun tr =>
            let tempFile :=
              "/tmp/fal_request_" ++ pretty (Date_now h tr) ++ ".json" in
            (writeFile tempFile bodyStr ;;
             let args := (args ++ ["-d"; ("@" ++ tempFile)%string])%list in
             try_catch
               (stdout <- curl args ;;
                unlink_quietly tempFile "Failed to cleanup temp file:" ;;
                lift (JSON_parse h stdout))
               (fun e =>
                  unlink_quietly tempFile "Failed to cleanup temp file:" ;;
                  throw e)) tr
        else request (args ++ ["-d"; bodyStr])%list
      else request args
  | None => request args
  end.

(** [downloadAndSaveImage] *)
Definition downloadAndSaveImage (imageUrl outputPath : string) : IO string :=
  try_catch
    (mkdir (path_dirname h outputPath) ;;
     curl ["-s"; "-o"; outputPath; imageUrl] ;;
     ret outputPath)
    (fun e => throw ("Failed to download and save image to "
                     ++ outputPath ++ ": " ++ e)).

(** [saveBase64Image] *)
Definition saveBase64Image (base64Data outputPath : string) : IO string :=
  try_catch
    (mkdir (path_dirname h outputPath) ;;
     let base64Clean := strip_data_url base64Data in
     let imageBuffer := Buffer_from_base64 h base64Clean in
     writeFile outputPath imageBuffer ;;
     ret outputPath)
    (fun e => throw ("Failed to save base64 image to "
                     ++ outputPath ++ ": " ++ e)).

(** [convertImagePixelsToTransparent], from the buffer of the file to the
    buffer of the result: the pixel loop of [ImageUtils] between the
    decoding and the encoding of the canvas. *)
Definition convertImagePixelsToTransparent (imageBuffer : Buffer)
    (backgroundColor : ImageUtils.BackgroundColor) (tolerance : float)
    : Result Buffer :=
  match
    match canvas_getImageData h imageBuffer with
    | Ok imageData =>
        canvas_toBuffer h
          (ImageUtils.convertImagePixelsToTransparent
             imageData backgroundColor tolerance)
    | Throw e => Throw e
    end
  with
  | Ok buffer => Ok buffer
  | Throw e => Throw ("Failed to convert image pixels: " ++ e)
  end.

(** The options of [convertToTransparentBackground]. *)
Record TransparencyOptions := mkTransparencyOptions {
  backgroundColor : option ImageUtils.BackgroundColor;
  tolerance : option float;
  blur : option float
}.

(** [convertToTransparentBackground]; [blur] is read and not used. *)
Definition convertToTransparentBackground (inputPath outputPath : string)
    (options : TransparencyOptions) : IO string :=
  try_catch
    (let background := default ImageUtils.auto (backgroundColor options) in
     let tol := default 30%float (tolerance options) in
     mkdir (path_dirname h outputPath) ;;
     imageBuffer <- readFile inputPath ;;
     transparentBuffer <-
       lift (convertImagePixelsToTransparent imageBuffer background tol) ;;
     writeFile outputPath transparentBuffer ;;
     ret outputPath)
    (fun e => throw ("Failed to convert image to transparent background: " ++ e)).

(** The name of a background in a template literal. *)
Definition background_name (b : ImageUtils.BackgroundColor) : string :=
  match b with
  | ImageUtils.white => "white"
  | ImageUtils.black => "black"
  | ImageUtils.auto => "auto"
  end.

(** [generateTransparentImage]: the image on a plain background at a
    temporary path, its conversion to the output path, the deletion of
    the temporary file. *)
Definition generateTransparentImage (prompt outputPath provider : string)
    (options : TransparencyOptions) (generationOptions : GenerationOptions)
    : IO string :=
  try_catch
    (let background := default ImageUtils.white (backgroundColor options) in
     let tol := default 30%float (tolerance options) in
     let blurred := default 1%float (blur options) in
     let transparentPrompt :=
       prompt ++ ", plain " ++ background_name background
       ++ " background, no shadows, isolated subject, professional product photography style" in
     let tempPath := replace_ext outputPath "_temp_solid.png" in
     perform (GenerateImage provider transparentPrompt tempPath generationOptions)
             (fun tr => generateImage h tr provider transparentPrompt tempPath
                          generationOptions) ;;
     finalPath <- convertToTransparentBackground tempPath outputPath
                    {| backgroundColor := Some background;
                       tolerance := Some tol;
                       blur := Some blurred |} ;;
     unlink_quietly tempPath "Failed to cleanup temporary file:" ;;
     ret finalPath)
    (fun e => throw ("Failed to generate transparent image: " ++ e)).

(** [checkTransparencySupportAvailable] *)
Definition checkTransparencySupportAvailable : IO bool := ret true.

End WithHost.

(** The files deleted, the files written and the processes started, in
    order. *)
Definition unlinked (tr : Calls) : list string :=
  omap (fun call => match call with Unlink p => Some p | _ => None end) tr.

Definition written (tr : Calls) : list (string * Buffer) :=
  omap (fun call => match call with WriteFile p c => Some (p, c) | _ => None end) tr.

Definition executed (tr : Calls) : list (string * list string) :=
  omap (fun call => match call with Exec f a => Some (f, a) | _ => None end) tr.

End System.

(* ================================================================== *)
(** ** Concrete machines                                               *)
(* ================================================================== *)

Module Machines.

Import JS Effects System.
Local Open Scope string_scope.

(** Every call succeeds; the generated image is one white pixel. *)
Definition workstation : Host :=
  {| Date_now := fun _ => 1700000000000%Z;
     JSON_stringify := fun _ => "{}";
     JSON_parse := fun _ => Ok Scenarios.mesh_response;
     execFile := fun _ _ _ => Ok "{}";
     path_dirname := fun _ => "out";
     fs_mkdirSync := fun _ _ => Ok tt;
     fs_readFileSync := fun _ _ => Ok "solid";
     fs_writeFileSync := fun _ _ _ => Ok tt;
     fs_unlinkSync := fun _ _ => Ok tt;
     Buffer_from_base64 := fun text => text;
     canvas_getImageData :=
       fun _ => Ok (ImageUtils.mkImageData 1 1 [255; 255; 255; 255]%Z);
     canvas_toBuffer :=
       fun imageData =>
         match ImageUtils.data imageData with
         | [_; _; _; 0%Z] => Ok "transparent"
         | _ => Ok "opaque"
         end;
     System.generateImage := fun _ _ _ _ _ => Ok "{}" |}.

(** The workstation with a disk that cannot be read. *)
Definition unreadable_disk : Host :=
  {| Date_now := Date_now workstation;
     JSON_stringify := JSON_stringify workstation;
     JSON_parse := JSON_parse workstation;
     execFile := execFile workstation;
     path_dirname := path_dirname workstation;
     fs_mkdirSync := fs_mkdirSync workstation;
     fs_readFileSync := fun _ _ => Throw "ENOENT: no such file or directory";
     fs_writeFileSync := fs_writeFileSync workstation;
     fs_unlinkSync := fs_unlinkSync workstation;
     Buffer_from_base64 := Buffer_from_base64 workstation;
     canvas_getImageData := canvas_getImageData workstation;
     canvas_toBuffer := canvas_toBuffer workstation;
     System.generateImage := System.generateImage workstation |}.

Definition no_options : TransparencyOptions :=
  {| backgroundColor := None; tolerance := None; blur := None |}.

Definition no_generation_options : GenerationOptions :=
  {| size := None; quality := None; style := None; image_size := None;
     num_inference_steps := None; guidance_scale := None |}.

End Machines.

(* ================================================================== *)
(** ** The unit tests of the repository, replayed on the model         *)
(* ================================================================== *)

Section UnitTests.

Import JS Effects Model3dUtils Model3dHelpers Scenarios.
Local Open Scope string_scope.

Example replace_ext_strips_extension :
  replace_ext "out/sword.glb" EmptyString = "out/sword"
  /\ replace_ext "test_object.png" "_ref_front.png" = "test_object_ref_front.png"
  /\ replace_ext "sword" "_ref_front.png" = "sword"
  /\ replace_ext "archive.tar.gz" EmptyString = "archive.tar"
  /\ replace_ext "trailing." "_x" = "trailing.".
Proof. repeat split. Qed.

Example blank_examples :
  blank EmptyString = true /\ blank "  " = true /\ blank "model.glb" = false.
Proof. repeat split. Qed.

(** [trim] on white space above U+007F, in UTF-8: the no-break space
    U+00A0, the byte order mark U+FEFF followed by a space, the line
    separator U+2028 and the ideographic space U+3000 are removed; the
    zero-width space U+200B and a letter after a no-break space stay. *)
Example blank_beyond_ascii :
  blank (String "194" (String "160" EmptyString)) = true
  /\ blank (String "239" (String "187" (String "191" " "))) = true
  /\ blank (String "226" (String "128" (String "168" EmptyString))) = true
  /\ blank (String "227" (String "128" (String "128" EmptyString))) = true
  /\ blank (String "226" (String "128" (String "139" EmptyString))) = false
  /\ blank (String "194" (String "160" "a")) = false.
Proof. repeat split. Qed.

(** [length] counts code units: one for a letter of one, two or three
    bytes (here U+00E9), two for a character of four bytes (U+1F600). *)
Example utf16_length_examples :
  utf16_length "model.glb" = 9%nat
  /\ utf16_length (String "195" (String "169" EmptyString)) = 1%nat
  /\ utf16_length
       (String "240" (String "159" (String "152" (String "128" EmptyString))))
     = 2%nat.
Proof. repeat split. Qed.

Example validate_no_break_space_output_path :
  validate3DModelOptions
    {[ "outputPath" := VStr (String "194" (String "160" EmptyString));
       "model" := VStr "trellis"; "prompt" := VStr "test model" ]}
  = Throw "Output path is required and cannot be empty".
Proof. vm_compute. reflexivity. Qed.

Example validate_valid_options :
  validate3DModelOptions
    {[ "outputPath" := VStr "model.glb"; "model" := VStr "trellis";
       "variant" := VStr "single"; "prompt" := VStr "test model" ]}
  = Ok tt.
Proof. vm_compute. reflexivity. Qed.

Example validate_missing_output_path :
  validate3DModelOptions
    {[ "outputPath" := VStr EmptyString; "model" := VStr "trellis" ]}
  = Throw "Output path is required and cannot be empty".
Proof. vm_compute. reflexivity. Qed.

Example validate_invalid_model :
  validate3DModelOptions
    {[ "outputPath" := VStr "model.glb"; "model" := VStr "invalid" ]}
  = Throw "Model must be one of: trellis, hunyuan3d".
Proof. vm_compute. reflexivity. Qed.

Example validate_invalid_variant :
  validate3DModelOptions
    {[ "outputPath" := VStr "model.glb"; "model" := VStr "trellis";
       "variant" := VStr "invalid" ]}
  = Throw "Variant must be one of: single, multi, single-turbo, multi-turbo".
Proof. vm_compute. reflexivity. Qed.

Example validate_turbo_with_trellis :
  validate3DModelOptions
    {[ "outputPath" := VStr "model.glb"; "model" := VStr "trellis";
       "variant" := VStr "single-turbo" ]}
  = Throw "Trellis model does not support turbo variants".
Proof. vm_compute. reflexivity. Qed.

Example validate_no_images_no_prompt :
  validate3DModelOptions
    {[ "outputPath" := VStr "model.glb"; "model" := VStr "trellis";
       "inputImagePaths" := VArr [] ]}
  = Throw "Either input images or a prompt is required for 3D model generation".
Proof. vm_compute. reflexivity. Qed.

Example getDefault3DOptions_trellis :
  getDefault3DOptions (VStr "trellis")
  = Ok {[ "format" := VStr "glb"; "autoGenerateReferences" := VBool true;
          "referenceModel" := VStr "gemini";
          "referenceViews" := VArr ["front"; "back"; "top"];
          "cleanupReferences" := VBool true;
          "model" := VStr "trellis"; "variant" := VStr "multi" ]}.
Proof. vm_compute. reflexivity. Qed.

Example getDefault3DOptions_invalid :
  getDefault3DOptions (VStr "invalid")
  = Throw "No default options available for model: invalid".
Proof. reflexivity. Qed.

Example merge3DWithDefaults_unit_test :
  merge3DWithDefaults
    {[ "outputPath" := VStr "model.glb"; "model" := VStr "trellis";
       "variant" := VStr "single"; "prompt" := VStr "test model" ]}
  = Ok {[ "format" := VStr "glb"; "autoGenerateReferences" := VBool true;
          "referenceModel" := VStr "gemini";
          "referenceViews" := VArr ["front"; "back"; "top"];
          "cleanupReferences" := VBool true;
          "model" := VStr "trellis"; "variant" := VStr "single";
          "outputPath" := VStr "model.glb"; "prompt" := VStr "test model" ]}.
Proof. vm_compute. reflexivity. Qed.

Example selectModelVariant_unit_tests :
  selectModelVariant "trellis" 1 false = "single"
  /\ selectModelVariant "trellis" 3 false = "multi"
  /\ selectModelVariant "hunyuan3d" 1 false = "single"
  /\ selectModelVariant "hunyuan3d" 3 false = "multi"
  /\ selectModelVariant "hunyuan3d" 1 true = "single-turbo"
  /\ selectModelVariant "hunyuan3d" 3 true = "multi-turbo".
Proof. repeat split. Qed.

Example generateReferenceImages_three_views :
  generateReferenceImages online "test object" "test_object.png"
    ["front"; "back"; "top"] "gemini" []
  = (Ok ["test_object_ref_front.png"; "test_object_ref_back.png";
         "test_object_ref_top.png"],
     [ EvGenerateImage (image_args "test object" "test_object.png" "front" "gemini");
       EvGenerateImage (image_args "test object" "test_object.png" "back" "gemini");
       EvGenerateImage (image_args "test object" "test_object.png" "top" "gemini") ]).
Proof. reflexivity. Qed.

Example generateReferenceImages_openai_size :
  img_size (image_args "test object" "test_object.png" "front" "openai")
  = Some "1024x1024".
Proof. reflexivity. Qed.

End UnitTests.
Import ImageUtils.

(* ================================================================== *)
(** ** Properties of the transparency converter                        *)
(* ================================================================== *)

Section PixelLoop.
Local Open Scope nat_scope.
Variable target : option Z * option Z * option Z.
Variable tolerance : float.

Local Abbreviation matched := (matched target tolerance).
Local Abbreviation spec_at := (spec_at target tolerance).

Ltac divmod := zify; Z.to_euclidean_division_equations; lia.

Lemma pixel_step_matched d d' n :
  (forall j, d' !! j = spec_at n d j) ->
  pixel_step target tolerance d' (4 * n) =
  if matched d n then <[4 * n + 3 := 0%Z]> d' else d'.
Proof.
  intros H. unfold pixel_step, matched. destruct target as [[tR tG] tB].
  rewrite !H. unfold spec_at.
  replace ((4 * n) mod 4 =? 3) with false by (symmetry; apply Nat.eqb_neq; divmod).
  replace ((4 * n + 1) mod 4 =? 3) with false by (symmetry; apply Nat.eqb_neq; divmod).
  replace ((4 * n + 2) mod 4 =? 3) with false by (symmetry; apply Nat.eqb_neq; divmod).
  reflexivity.
Qed.

Lemma ltb_succ_other (q n : nat) : q <> n -> (q <? S n) = (q <? n).
Proof.
  intros H. destruct (Nat.ltb_spec q n), (Nat.ltb_spec q (S n)); try reflexivity; lia.
Qed.

Lemma fold_prefix_spec d n :
  forall j, fold_left (pixel_step target tolerance)
              ((fun k => 4 * k) <$> seq 0 n) d !! j = spec_at n d j.
Proof.
  induction n as [|n IH]; intros j.
  - cbn [seq fmap list_fmap fold_left]. unfold spec_at.
    rewrite andb_false_r. reflexivity.
  - rewrite seq_S, fmap_app, fold_left_app.
    cbn [fmap list_fmap fold_left Nat.add].
    rewrite (pixel_step_matched d _ n IH).
    destruct (matched d n) eqn:Hm.
    + destruct (decide (j = 4 * n + 3)) as [->|Hne].
      * unfold spec_at.
        replace ((4 * n + 3) mod 4 =? 3) with true by (symmetry; apply Nat.eqb_eq; divmod).
        replace ((4 * n + 3) / 4) with n by divmod.
        replace (n <? S n) with true by (symmetry; apply Nat.ltb_lt; lia).
        rewrite Hm. cbn [andb].
        destruct (d !! (4 * n + 3)) as [z|] eqn:Hd.
        -- rewrite list_lookup_insert_eq; [reflexivity|].
           apply lookup_lt_is_Some_1. rewrite IH. unfold spec_at. rewrite Hd.
           destruct (_ && _); cbn [fmap option_fmap option_map]; eauto.
        -- cbn [fmap option_fmap option_map]. apply lookup_ge_None. rewrite length_insert.
           apply lookup_ge_None. rewrite IH. unfold spec_at. rewrite Hd.
           destruct (_ && _); reflexivity.
      * rewrite list_lookup_insert_ne by lia. rewrite IH. unfold spec_at.
        destruct (j mod 4 =? 3) eqn:Hj; cbn [andb]; [|reflexivity].
        apply Nat.eqb_eq in Hj.
        rewrite ltb_succ_other by divmod. reflexivity.
    + rewrite IH. unfold spec_at.
      destruct (j mod 4 =? 3) eqn:Hj; cbn [andb]; [|reflexivity].
      destruct (decide (j / 4 = n)) as [->|Hne].
      * rewrite Hm, !andb_false_r. reflexivity.
      * rewrite ltb_succ_other by assumption. reflexivity.
Qed.

Lemma pixel_loop_lookup d j :
  pixel_loop target tolerance d !! j =
  if (j mod 4 =? 3) && matched d (j / 4) then ((fun _ => 0%Z) <$> d !! j) else d !! j.
Proof.
  unfold pixel_loop, loop_indices. rewrite fold_prefix_spec. unfold spec_at.
  destruct (d !! j) eqn:Hd.
  - apply lookup_lt_Some in Hd.
    replace (j / 4 <? (length d + 3) / 4) with true
      by (symmetry; apply Nat.ltb_lt; divmod).
    rewrite andb_true_r. reflexivity.
  - cbn. destruct (_ && _), (_ && _); reflexivity.
Qed.

End PixelLoop.

Section Transparency.
Local Open Scope Z_scope.

Lemma sum_squares_nonneg (x y z : Z) : 0 <= x * x + y * y + z * z.
Proof. nia. Qed.

Lemma zrange_In fuel : forall start n,
  start <= n < start + Z.of_nat fuel -> In n (zrange fuel start).
Proof.
  induction fuel as [|fuel IH]; intros start n Hn; [lia|].
  cbn [zrange]. destruct (Z.eq_dec start n) as [->|Hne]; [left; reflexivity|].
  right. apply IH. lia.
Qed.

(** The order of the floats is transitive. *)
Lemma SFleb_trans a b c :
  SFleb a b = true -> SFleb b c = true -> SFleb a c = true.
Proof.
  unfold SFleb, SFcompare.
  destruct a as [[]|[]| |[] ma ea], b as [[]|[]| |[] mb eb],
           c as [[]|[]| |[] mc ec];
    try discriminate; try reflexivity;
    change (Pos.compare_cont Eq ?x ?y) with (Pos.compare x y);
    destruct (Z.compare_spec ea eb), (Z.compare_spec eb ec),
             (Z.compare_spec ea ec);
    try discriminate; try reflexivity; try lia; subst;
    destruct (Pos.compare_spec ma mb), (Pos.compare_spec mb mc),
             (Pos.compare_spec ma mc);
    cbn; try discriminate; try reflexivity; try lia.
Qed.

Lemma float_leb_trans (x y z : float) :
  PrimFloat.leb x y = true -> PrimFloat.leb y z = true ->
  PrimFloat.leb x z = true.
Proof. rewrite !FloatAxioms.leb_spec. apply SFleb_trans. Qed.

(** Every squared distance between two colours of bytes: its binary64
    root against the two integers around the exact root, computed. *)
Lemma roots_between_computed :
  forallb root_between (zrange (Z.to_nat 195076) 0) = true.
Proof. vm_compute. reflexivity. Qed.

(** The integers up to the root of the largest distance, computed. *)
Lemma floats_monotone_computed :
  monotone_on (zrange (Z.to_nat 443) 0) = true.
Proof. vm_compute. reflexivity. Qed.

Lemma to_float_monotone (t t' : Z) :
  0 <= t -> t <= t' -> t' <= 442 ->
  PrimFloat.leb (to_float t) (to_float t') = true.
Proof.
  intros H0 Hle Hmax. pose proof floats_monotone_computed as Hm.
  unfold monotone_on in Hm. rewrite forallb_forall in Hm.
  assert (Hin : In t (zrange (Z.to_nat 443) 0)) by (apply zrange_In; lia).
  specialize (Hm t Hin). rewrite forallb_forall in Hm.
  assert (Hin' : In t' (zrange (Z.to_nat 443) 0)) by (apply zrange_In; lia).
  specialize (Hm t' Hin').
  replace (t <=? t') with true in Hm by (symmetry; apply Z.leb_le; exact Hle).
  exact Hm.
Qed.

(** On the squared distances of bytes and the integer tolerances up to
    255 the comparison of the engine is the comparison of the integers
    [n] and [t * t]. *)
Lemma sqrt_le_integer (n t : Z) :
  0 <= n <= 195075 -> 0 <= t <= 255 ->
  sqrt_le (Some n) (to_float t) = (n <=? t * t).
Proof.
  intros Hn Ht. unfold sqrt_le.
  pose proof roots_between_computed as Hroots.
  rewrite forallb_forall in Hroots.
  assert (Hin : In n (zrange (Z.to_nat 195076) 0)) by (apply zrange_In; lia).
  specialize (Hroots n Hin). unfold root_between in Hroots.
  apply andb_true_iff in Hroots as [Hup Hdown].
  set (c := Z.sqrt_up n) in *.
  assert (Hc : 0 <= c) by apply Z.sqrt_up_nonneg.
  assert (Hspec : n = 0 /\ c = 0 \/
                  0 < n /\ (c - 1) * (c - 1) < n <= c * c /\ 1 <= c <= 442).
  { destruct (Z.eq_dec n 0) as [->|Hne]; [left; split; reflexivity|].
    right. pose proof (Z.sqrt_up_spec n ltac:(lia)) as Hs. fold c in Hs.
    replace (Z.pred c) with (c - 1) in Hs by lia.
    split; [lia|]. split; [exact Hs|].
    split; [nia|]. destruct (Z_le_gt_dec c 442) as [Hle|Hgt]; [exact Hle|].
    exfalso. assert (442 * 442 <= (c - 1) * (c - 1)) by nia. lia. }
  destruct (Z.leb_spec n (t * t)) as [Hle|Hgt].
  - assert (Hct : c <= t) by (destruct Hspec as [[_ ->]|(_ & Hs & _)]; nia).
    apply (float_leb_trans _ (to_float c)); [exact Hup|].
    apply to_float_monotone; lia.
  - destruct Hspec as [[-> _]|(Hpos & Hs & Hc1)]; [nia|].
    assert (Htc : t <= c - 1) by nia.
    replace (c =? 0) with false in Hdown by (symmetry; apply Z.eqb_neq; lia).
    cbn [orb] in Hdown. apply negb_true_iff in Hdown.
    apply not_true_is_false. intros Habs.
    rewrite (float_leb_trans _ (to_float t) (to_float (c - 1)) Habs) in Hdown;
      [discriminate|].
    apply to_float_monotone; lia.
Qed.

(** The comparison of the integers is the comparison of the real square
    root with the tolerance. *)
Lemma integer_le_real (n tol : Z) :
  0 <= n -> 0 <= tol ->
  (n <=? tol * tol) = true <-> (sqrt (IZR n) <= IZR tol)%R.
Proof.
  intros Hn Ht. rewrite Z.leb_le. split.
  - intros Hle.
    rewrite <- (sqrt_square (IZR tol)) by (apply IZR_le; exact Ht).
    apply sqrt_le_1_alt. rewrite <- mult_IZR. apply IZR_le. exact Hle.
  - intros H.
    apply le_IZR. rewrite mult_IZR.
    rewrite <- (sqrt_sqrt (IZR n)) by (apply IZR_le; exact Hn).
    apply Rmult_le_compat; try apply sqrt_pos; exact H.
Qed.

Lemma sqrt_le_real (n tol : Z) :
  0 <= n <= 195075 -> 0 <= tol <= 255 ->
  sqrt_le (Some n) (to_float tol) = true <-> (sqrt (IZR n) <= IZR tol)%R.
Proof.
  intros Hn Ht. rewrite sqrt_le_integer by assumption.
  apply integer_le_real; lia.
Qed.

Lemma square_bound (x : Z) : -255 <= x <= 255 -> 0 <= x * x <= 65025.
Proof.
  intros Hx. split; [apply Z.square_nonneg|].
  assert (0 <= (255 - x) * (255 + x)) by (apply Z.mul_nonneg_nonneg; lia).
  replace (x * x) with (65025 - (255 - x) * (255 + x)) by ring. lia.
Qed.

Lemma distance_sq_bound (r g b tR tG tB : Z) :
  0 <= r <= 255 -> 0 <= g <= 255 -> 0 <= b <= 255 ->
  0 <= tR <= 255 -> 0 <= tG <= 255 -> 0 <= tB <= 255 ->
  0 <= (r - tR) * (r - tR) + (g - tG) * (g - tG) + (b - tB) * (b - tB)
    <= 195075.
Proof.
  intros.
  pose proof (square_bound (r - tR)). pose proof (square_bound (g - tG)).
  pose proof (square_bound (b - tB)). lia.
Qed.

Lemma bytes_lookup d i v : bytes d -> d !! i = Some v -> 0 <= v <= 255.
Proof.
  unfold bytes. rewrite Forall_lookup. intros H Hv. exact (H i v Hv).
Qed.

Lemma matched_euclid tR tG tB tol d k r g b a :
  bytes d -> 0 <= tol <= 255 ->
  0 <= tR <= 255 -> 0 <= tG <= 255 -> 0 <= tB <= 255 ->
  pixel d k = Some (r, g, b, a) ->
  matched (Some tR, Some tG, Some tB) (to_float tol) d k = true
  <-> (euclid r g b tR tG tB <= IZR tol)%R.
Proof.
  unfold pixel, matched. intros Hbytes Htol HtR HtG HtB H.
  destruct (d !! (4 * k)%nat) as [r'|] eqn:Hr; [|discriminate].
  destruct (d !! (4 * k + 1)%nat) as [g'|] eqn:Hg; [|discriminate].
  destruct (d !! (4 * k + 2)%nat) as [b'|] eqn:Hb; [|discriminate].
  destruct (d !! (4 * k + 3)%nat) as [a'|]; [|discriminate].
  injection H as -> -> -> ->.
  cbn [distance_sq pow2_diff add_nan]. unfold euclid.
  apply sqrt_le_real; [|exact Htol].
  apply distance_sq_bound; eauto using bytes_lookup.
Qed.

Lemma pixel_after_loop target tol d k r g b a :
  pixel d k = Some (r, g, b, a) ->
  pixel (pixel_loop target tol d) k =
  Some (r, g, b, if matched target tol d k then 0 else a).
Proof.
  unfold pixel. intros H.
  destruct (d !! (4 * k)%nat) as [r'|] eqn:Hr; [|discriminate].
  destruct (d !! (4 * k + 1)%nat) as [g'|] eqn:Hg; [|discriminate].
  destruct (d !! (4 * k + 2)%nat) as [b'|] eqn:Hb; [|discriminate].
  destruct (d !! (4 * k + 3)%nat) as [a'|] eqn:Ha; [|discriminate].
  injection H as -> -> -> ->.
  rewrite !pixel_loop_lookup, Hr, Hg, Hb, Ha.
  replace ((4 * k) mod 4 =? 3)%nat with false
    by (symmetry; apply Nat.eqb_neq; zify; Z.to_euclidean_division_equations; lia).
  replace ((4 * k + 1) mod 4 =? 3)%nat with false
    by (symmetry; apply Nat.eqb_neq; zify; Z.to_euclidean_division_equations; lia).
  replace ((4 * k + 2) mod 4 =? 3)%nat with false
    by (symmetry; apply Nat.eqb_neq; zify; Z.to_euclidean_division_equations; lia).
  replace ((4 * k + 3) mod 4 =? 3)%nat with true
    by (symmetry; apply Nat.eqb_eq; zify; Z.to_euclidean_division_equations; lia).
  replace ((4 * k + 3) / 4)%nat with k
    by (zify; Z.to_euclidean_division_equations; lia).
  cbn [andb]. destruct (matched target tol d k); reflexivity.
Qed.

Lemma pixel_of_alpha d j x :
  (j mod 4 = 3)%nat -> d !! j = Some x ->
  exists r g b, pixel d (j / 4) = Some (r, g, b, x).
Proof.
  intros Hj Hx. unfold pixel.
  assert (Hlt := lookup_lt_Some _ _ _ Hx).
  assert (E : (4 * (j / 4) + 3)%nat = j)
    by (zify; Z.to_euclidean_division_equations; lia).
  destruct (lookup_lt_is_Some_2 d (4 * (j / 4))%nat) as [r Hr]; [lia|].
  destruct (lookup_lt_is_Some_2 d (4 * (j / 4) + 1)%nat) as [g Hg]; [lia|].
  destruct (lookup_lt_is_Some_2 d (4 * (j / 4) + 2)%nat) as [b Hb]; [lia|].
  rewrite Hr, Hg, Hb, E, Hx. eauto.
Qed.

Lemma pixel_loop_length target tol d :
  length (pixel_loop target tol d) = length d.
Proof.
  apply Nat.le_antisymm.
  - apply Nat.nlt_ge. intros Hlt.
    destruct (lookup_lt_is_Some_2 (pixel_loop target tol d) (length d) Hlt) as [x Hx].
    rewrite pixel_loop_lookup in Hx.
    rewrite (lookup_ge_None_2 d (length d)) in Hx by lia.
    destruct (_ && _); discriminate.
  - apply Nat.nlt_ge. intros Hlt.
    destruct (lookup_lt_is_Some_2 d (length (pixel_loop target tol d)) Hlt) as [x Hx].
    assert (Hn : pixel_loop target tol d !! length (pixel_loop target tol d) = None)
      by (apply lookup_ge_None_2; lia).
    rewrite pixel_loop_lookup, Hx in Hn.
    destruct (_ && _); discriminate.
Qed.

End Transparency.

Section TargetColour.
Local Open Scope Z_scope.

Lemma round_quarter_rounded (s : Z) : rounded_quarter s ((s + 2) / 4).
Proof. unfold rounded_quarter. Z.to_euclidean_division_equations. lia. Qed.

Lemma corner_in_range img x y :
  well_formed img -> 0 <= x < width img -> 0 <= y < height img ->
  exists r g b a,
    pixel_at img x y = Some (r, g, b, a) /\
    read (data img) ((y * width img + x) * 4) = Some r /\
    read (data img) ((y * width img + x) * 4 + 1) = Some g /\
    read (data img) ((y * width img + x) * 4 + 2) = Some b.
Proof.
  intros (Hw & Hh & Hlen & _) Hx Hy.
  set (k := y * width img + x).
  assert (Hk : 0 <= k) by (unfold k; nia).
  assert (Hk' : k < width img * height img) by (unfold k; nia).
  unfold pixel_at, pixel. fold k.
  destruct (lookup_lt_is_Some_2 (data img) (4 * Z.to_nat k)%nat) as [r Hr]; [lia|].
  destruct (lookup_lt_is_Some_2 (data img) (4 * Z.to_nat k + 1)%nat) as [g Hg]; [lia|].
  destruct (lookup_lt_is_Some_2 (data img) (4 * Z.to_nat k + 2)%nat) as [b Hb]; [lia|].
  destruct (lookup_lt_is_Some_2 (data img) (4 * Z.to_nat k + 3)%nat) as [a Ha]; [lia|].
  exists r, g, b, a. rewrite Hr, Hg, Hb, Ha. split; [reflexivity|].
  unfold read.
  replace (k * 4 <? 0) with false by (symmetry; apply Z.ltb_ge; lia).
  replace (k * 4 + 1 <? 0) with false by (symmetry; apply Z.ltb_ge; lia).
  replace (k * 4 + 2 <? 0) with false by (symmetry; apply Z.ltb_ge; lia).
  replace (Z.to_nat (k * 4)) with (4 * Z.to_nat k)%nat by lia.
  replace (Z.to_nat (k * 4 + 1)) with (4 * Z.to_nat k + 1)%nat by lia.
  replace (Z.to_nat (k * 4 + 2)) with (4 * Z.to_nat k + 2)%nat by lia.
  auto.
Qed.

(** C7. The target colour is (255,255,255) for [white] and (0,0,0) for
    [black]; for [auto] on a canvas image with at least one pixel it is,
    channel by channel, the sum of the four corner pixels (top-left,
    top-right, bottom-left, bottom-right) divided by four and rounded to
    the nearest integer; on a 1x1 image the four samples are the one
    pixel and the target is its colour. *)
Theorem target_color_by_mode (img : ImageData) :
  target_color img white = (Some 255, Some 255, Some 255) /\
  target_color img black = (Some 0, Some 0, Some 0) /\
  (well_formed img -> 1 <= width img -> 1 <= height img ->
   exists r1 g1 b1 a1 r2 g2 b2 a2 r3 g3 b3 a3 r4 g4 b4 a4 tR tG tB,
     pixel_at img 0 0 = Some (r1, g1, b1, a1) /\
     pixel_at img (width img - 1) 0 = Some (r2, g2, b2, a2) /\
     pixel_at img 0 (height img - 1) = Some (r3, g3, b3, a3) /\
     pixel_at img (width img - 1) (height img - 1) = Some (r4, g4, b4, a4) /\
     target_color img auto = (Some tR, Some tG, Some tB) /\
     rounded_quarter (r1 + r2 + r3 + r4) tR /\
     rounded_quarter (g1 + g2 + g3 + g4) tG /\
     rounded_quarter (b1 + b2 + b3 + b4) tB) /\
  (forall r g b a, width img = 1 -> height img = 1 -> data img = [r; g; b; a] ->
     target_color img auto = (Some r, Some g, Some b)).
Proof.
  split; [reflexivity|]. split; [reflexivity|]. split.
  - intros Hwf Hw Hh.
    destruct (corner_in_range img 0 0 Hwf) as (r1 & g1 & b1 & a1 & P1 & R1 & G1 & B1); [lia..|].
    destruct (corner_in_range img (width img - 1) 0 Hwf)
      as (r2 & g2 & b2 & a2 & P2 & R2 & G2 & B2); [lia..|].
    destruct (corner_in_range img 0 (height img - 1) Hwf)
      as (r3 & g3 & b3 & a3 & P3 & R3 & G3 & B3); [lia..|].
    destruct (corner_in_range img (width img - 1) (height img - 1) Hwf)
      as (r4 & g4 & b4 & a4 & P4 & R4 & G4 & B4); [lia..|].
    exists r1, g1, b1, a1, r2, g2, b2, a2, r3, g3, b3, a3, r4, g4, b4, a4.
    exists ((r1 + r2 + r3 + r4 + 2) / 4), ((g1 + g2 + g3 + g4 + 2) / 4),
           ((b1 + b2 + b3 + b4 + 2) / 4).
    repeat (split; [assumption|]).
    split; [|repeat split; apply round_quarter_rounded].
    unfold target_color, corner_totals, corners.
    cbn [fold_left add_corner].
    rewrite R1, G1, B1, R2, G2, B2, R3, G3, B3, R4, G4, B4.
    cbn [add_nan round_quarter fmap option_fmap option_map].
    replace (0 + r1) with r1 by lia. replace (0 + g1) with g1 by lia.
    replace (0 + b1) with b1 by lia. reflexivity.
  - intros r g b a Hw Hh Hd. unfold target_color, corner_totals, corners.
    rewrite Hw, Hh, Hd. cbv -[Z.add Z.div].
    f_equal; [f_equal|]; f_equal; Z.to_euclidean_division_equations; lia.
Qed.

(** A 1x1 image: the target is the colour of its pixel. A 2x2 image: the
    four corners are its four pixels, and a quarter of 10, of 2 and of 255
    round to 3, 1 and 64. *)
Lemma target_color_by_mode_witness :
  target_color (mkImageData 1 1 [12; 34; 56; 255]) auto
  = (Some 12, Some 34, Some 56)
  /\ exists tR tG tB,
       target_color
         (mkImageData 2 2 [1; 0; 0; 255;  2; 0; 0; 255;
                           3; 1; 0; 255;  4; 1; 255; 255]) auto
       = (Some tR, Some tG, Some tB)
       /\ rounded_quarter 10 tR /\ rounded_quarter 2 tG
       /\ rounded_quarter 255 tB.
Proof.
  split.
  - exact (proj2 (proj2 (proj2
      (target_color_by_mode (mkImageData 1 1 [12; 34; 56; 255]))))
      12 34 56 255 eq_refl eq_refl eq_refl).
  - destruct (proj1 (proj2 (proj2
      (target_color_by_mode
         (mkImageData 2 2 [1; 0; 0; 255;  2; 0; 0; 255;
                           3; 1; 0; 255;  4; 1; 255; 255])))))
      as (r1 & g1 & b1 & a1 & r2 & g2 & b2 & a2 & r3 & g3 & b3 & a3
          & r4 & g4 & b4 & a4 & tR & tG & tB
          & P1 & P2 & P3 & P4 & Ht & HR & HG & HB).
    + unfold well_formed, bytes. cbn [width height data length].
      repeat split; try lia. repeat constructor; lia.
    + cbn [width]. lia.
    + cbn [height]. lia.
    + injection P1 as <- <- <- <-. injection P2 as <- <- <- <-.
      injection P3 as <- <- <- <-. injection P4 as <- <- <- <-.
      exists tR, tG, tB. auto.
Defined.

End TargetColour.

Section TransparencyClaims.
Local Open Scope Z_scope.

Lemma read_byte d i v : bytes d -> read d i = Some v -> 0 <= v <= 255.
Proof.
  unfold read. destruct (i <? 0); [discriminate|]. apply bytes_lookup.
Qed.

Lemma round_quarter_byte s : 0 <= s <= 1020 -> 0 <= (s + 2) / 4 <= 255.
Proof. intros Hs. Z.to_euclidean_division_equations. lia. Qed.

(** The target colour of an image of bytes is a colour of bytes. *)
Lemma target_color_bytes img bg tR tG tB :
  bytes (data img) ->
  target_color img bg = (Some tR, Some tG, Some tB) ->
  0 <= tR <= 255 /\ 0 <= tG <= 255 /\ 0 <= tB <= 255.
Proof.
  intros Hbytes. destruct bg; cbn [target_color].
  - intros H. injection H as <- <- <-. lia.
  - intros H. injection H as <- <- <-. lia.
  - unfold corner_totals, corners. cbn [fold_left add_corner].
    repeat match goal with
           | |- context [read (data img) ?i] =>
               let E := fresh "E" in
               destruct (read (data img) i) as [?v|] eqn:E;
               [apply (read_byte _ _ _ Hbytes) in E|]
           end;
      cbn [add_nan round_quarter fmap option_fmap option_map];
      try discriminate.
    intros H. injection H as <- <- <-.
    repeat split; apply round_quarter_byte; lia.
Qed.

(** The target of the [auto] mode in terms of the four corner pixels. *)
Lemma target_color_auto img :
  well_formed img -> 1 <= width img -> 1 <= height img ->
  exists r1 g1 b1 a1 r2 g2 b2 a2 r3 g3 b3 a3 r4 g4 b4 a4,
    pixel_at img 0 0 = Some (r1, g1, b1, a1) /\
    pixel_at img (width img - 1) 0 = Some (r2, g2, b2, a2) /\
    pixel_at img 0 (height img - 1) = Some (r3, g3, b3, a3) /\
    pixel_at img (width img - 1) (height img - 1) = Some (r4, g4, b4, a4) /\
    target_color img auto
    = (Some ((r1 + r2 + r3 + r4 + 2) / 4), Some ((g1 + g2 + g3 + g4 + 2) / 4),
       Some ((b1 + b2 + b3 + b4 + 2) / 4)).
Proof.
  intros Hwf Hw Hh.
  destruct (corner_in_range img 0 0 Hwf)
    as (r1 & g1 & b1 & a1 & P1 & R1 & G1 & B1); [lia..|].
  destruct (corner_in_range img (width img - 1) 0 Hwf)
    as (r2 & g2 & b2 & a2 & P2 & R2 & G2 & B2); [lia..|].
  destruct (corner_in_range img 0 (height img - 1) Hwf)
    as (r3 & g3 & b3 & a3 & P3 & R3 & G3 & B3); [lia..|].
  destruct (corner_in_range img (width img - 1) (height img - 1) Hwf)
    as (r4 & g4 & b4 & a4 & P4 & R4 & G4 & B4); [lia..|].
  exists r1, g1, b1, a1, r2, g2, b2, a2, r3, g3, b3, a3, r4, g4, b4, a4.
  repeat (split; [assumption|]).
  unfold target_color, corner_totals, corners.
  cbn [fold_left add_corner].
  rewrite R1, G1, B1, R2, G2, B2, R3, G3, B3, R4, G4, B4.
  cbn [add_nan round_quarter fmap option_fmap option_map].
  replace (0 + r1) with r1 by lia. replace (0 + g1) with g1 by lia.
  replace (0 + b1) with b1 by lia. reflexivity.
Qed.

(** What the loop compares for a pixel that is in the buffer. *)
Lemma matched_pixel tR tG tB tol d k r g b a :
  pixel d k = Some (r, g, b, a) ->
  matched (Some tR, Some tG, Some tB) tol d k
  = sqrt_le (Some (squared_distance r g b tR tG tB)) tol.
Proof.
  unfold pixel, matched. intros H.
  destruct (d !! (4 * k)%nat) as [r'|]; [|discriminate].
  destruct (d !! (4 * k + 1)%nat) as [g'|]; [|discriminate].
  destruct (d !! (4 * k + 2)%nat) as [b'|]; [|discriminate].
  destruct (d !! (4 * k + 3)%nat) as [a'|]; [|discriminate].
  injection H as -> -> -> ->. reflexivity.
Qed.

Lemma pixel_in_output target tol d k r g b a :
  pixel (pixel_loop target tol d) k = Some (r, g, b, a) ->
  exists a0, pixel d k = Some (r, g, b, a0) /\
             a = if matched target tol d k then 0 else a0.
Proof.
  intros Hout.
  destruct (pixel d k) as [[[[r0 g0] b0] a0]|] eqn:Hin.
  - rewrite (pixel_after_loop _ _ _ _ _ _ _ _ Hin) in Hout.
    injection Hout as <- <- <- <-. eauto.
  - exfalso. unfold pixel in Hin, Hout.
    rewrite !pixel_loop_lookup in Hout.
    destruct (d !! (4 * k)%nat); [|destruct (_ && _); discriminate].
    destruct (d !! (4 * k + 1)%nat);
      [|destruct (_ && _), (_ && _); discriminate].
    destruct (d !! (4 * k + 2)%nat);
      [|destruct (_ && _), (_ && _), (_ && _); discriminate].
    destruct (d !! (4 * k + 3)%nat); [discriminate|].
    destruct (_ && _), (_ && _), (_ && _), (_ && _); discriminate.
Qed.

Lemma squares_zero (x y z : Z) : x * x + y * y + z * z = 0 -> x = 0 /\ y = 0 /\ z = 0.
Proof.
  intros H.
  pose proof (Z.square_nonneg x) as Sx. pose proof (Z.square_nonneg y) as Sy.
  pose proof (Z.square_nonneg z) as Sz.
  assert (Ex : x * x = 0) by lia. assert (Ey : y * y = 0) by lia.
  assert (Ez : z * z = 0) by lia.
  apply Z.mul_eq_0 in Ex, Ey, Ez. lia.
Qed.

(** C1, as stated, fails for a tolerance that is not an integer. The
    nearest double to the square root of 3 lies below it; with that
    double as tolerance (it is between 0 and 255) and the background
    [black], the pixel (1, 1, 1), whose Euclidean distance to the target
    is the square root of 3 and so above the tolerance, is made
    transparent: the engine compares the rounded root. *)
Lemma convert_tolerance_against_rounded_root :
  let tolerance := 0x1.bb67ae8584caap+0%float in
  let img := mkImageData 1 1 [1; 1; 1; 255] in
  (0 <= float_value tolerance <= 255)%R /\
  target_color img black = (Some 0, Some 0, Some 0) /\
  pixel (data img) 0 = Some (1, 1, 1, 255) /\
  (float_value tolerance < euclid 1 1 1 0 0 0)%R /\
  pixel (data (convertImagePixelsToTransparent img black tolerance)) 0
  = Some (1, 1, 1, 0).
Proof.
  cbv zeta.
  assert (E : float_value 0x1.bb67ae8584caap+0%float
              = (IZR 7800463371553962 / IZR (2 ^ 52))%R).
  { unfold float_value.
    replace (Prim2SF 0x1.bb67ae8584caap+0%float)
      with (S754_finite false 7800463371553962 (-52))
      by (vm_compute; reflexivity).
    unfold powerRZ.
    replace (IZR (2 ^ 52)) with (2 ^ Pos.to_nat 52)%R
      by (rewrite pow_IZR; reflexivity).
    unfold Rdiv. ring. }
  assert (Hpos : (0 < IZR (2 ^ 52))%R) by (apply IZR_lt; reflexivity).
  assert (Hval : (0 <= IZR 7800463371553962 / IZR (2 ^ 52))%R).
  { apply Rmult_le_pos; [apply IZR_le; discriminate|].
    left. apply Rinv_0_lt_compat, Hpos. }
  rewrite E.
  split; [split|split; [reflexivity|split; [reflexivity|split]]].
  - exact Hval.
  - apply (Rmult_le_reg_r (IZR (2 ^ 52))); [exact Hpos|].
    unfold Rdiv. rewrite Rmult_assoc, Rinv_l, Rmult_1_r by lra.
    rewrite <- mult_IZR. apply IZR_le. discriminate.
  - unfold euclid.
    replace ((1 - 0) * (1 - 0) + (1 - 0) * (1 - 0) + (1 - 0) * (1 - 0)) with 3
      by reflexivity.
    rewrite <- (sqrt_square (IZR 7800463371553962 / IZR (2 ^ 52))) by exact Hval.
    apply sqrt_lt_1_alt. split; [apply Rmult_le_pos; exact Hval|].
    apply (Rmult_lt_reg_r (IZR (2 ^ 52) * IZR (2 ^ 52)));
      [apply Rmult_lt_0_compat; exact Hpos|].
    replace (IZR 7800463371553962 / IZR (2 ^ 52)
             * (IZR 7800463371553962 / IZR (2 ^ 52))
             * (IZR (2 ^ 52) * IZR (2 ^ 52)))%R
      with (IZR 7800463371553962 * IZR 7800463371553962)%R
      by (field; lra).
    rewrite <- !mult_IZR. apply IZR_lt. reflexivity.
  - vm_compute. reflexivity.
Qed.

(** C1, amended. For a canvas image with at least one pixel, a
    background mode and any number as tolerance, the converter keeps the
    dimensions, the length of the buffer and every colour byte. The
    target is (255,255,255) for [white], (0,0,0) for [black] and the
    rounded average of the four corner pixels for [auto]; the alpha byte
    of a pixel becomes 0 when the binary64 square root of its squared
    distance to the target is at most the tolerance, and keeps its value
    otherwise. For an integer tolerance between 0 and 255 that is exactly
    when the Euclidean distance is at most the tolerance; then an image
    whose pixels are all within the tolerance comes out fully
    transparent, and with tolerance 0 an image without a pixel of
    exactly the target colour comes out unchanged. *)
Theorem convert_alpha_exactly_within_tolerance
    (img : ImageData) (bg : BackgroundColor) (tolerance : float) :
  well_formed img -> 1 <= width img -> 1 <= height img ->
  exists tR tG tB,
    match bg with
    | white => (tR, tG, tB) = (255, 255, 255)
    | black => (tR, tG, tB) = (0, 0, 0)
    | auto =>
        exists r1 g1 b1 a1 r2 g2 b2 a2 r3 g3 b3 a3 r4 g4 b4 a4,
          pixel_at img 0 0 = Some (r1, g1, b1, a1) /\
          pixel_at img (width img - 1) 0 = Some (r2, g2, b2, a2) /\
          pixel_at img 0 (height img - 1) = Some (r3, g3, b3, a3) /\
          pixel_at img (width img - 1) (height img - 1)
          = Some (r4, g4, b4, a4) /\
          rounded_quarter (r1 + r2 + r3 + r4) tR /\
          rounded_quarter (g1 + g2 + g3 + g4) tG /\
          rounded_quarter (b1 + b2 + b3 + b4) tB
    end /\
    let out := convertImagePixelsToTransparent img bg tolerance in
    (width out = width img /\ height out = height img /\
     length (data out) = length (data img)) /\
    (forall j : nat, (j mod 4)%nat <> 3%nat -> data out !! j = data img !! j) /\
    (forall k r g b a, pixel (data img) k = Some (r, g, b, a) ->
       pixel (data out) k
       = Some (r, g, b,
               if sqrt_le (Some (squared_distance r g b tR tG tB)) tolerance
               then 0 else a)) /\
    (forall t : Z, 0 <= t <= 255 -> tolerance = to_float t ->
       (forall k r g b a, pixel (data img) k = Some (r, g, b, a) ->
          ((euclid r g b tR tG tB <= IZR t)%R ->
             pixel (data out) k = Some (r, g, b, 0)) /\
          (~ (euclid r g b tR tG tB <= IZR t)%R ->
             pixel (data out) k = Some (r, g, b, a))) /\
       ((forall k r g b a, pixel (data img) k = Some (r, g, b, a) ->
           (euclid r g b tR tG tB <= IZR t)%R) ->
        forall k r g b a, pixel (data out) k = Some (r, g, b, a) -> a = 0) /\
       (t = 0 ->
        (forall k r g b a, pixel (data img) k = Some (r, g, b, a) ->
           (r, g, b) <> (tR, tG, tB)) ->
        data out = data img)).
Proof.
  intros Hwf Hw Hh.
  assert (Htarget : exists tR tG tB,
    target_color img bg = (Some tR, Some tG, Some tB) /\
    match bg with
    | white => (tR, tG, tB) = (255, 255, 255)
    | black => (tR, tG, tB) = (0, 0, 0)
    | auto =>
        exists r1 g1 b1 a1 r2 g2 b2 a2 r3 g3 b3 a3 r4 g4 b4 a4,
          pixel_at img 0 0 = Some (r1, g1, b1, a1) /\
          pixel_at img (width img - 1) 0 = Some (r2, g2, b2, a2) /\
          pixel_at img 0 (height img - 1) = Some (r3, g3, b3, a3) /\
          pixel_at img (width img - 1) (height img - 1)
          = Some (r4, g4, b4, a4) /\
          rounded_quarter (r1 + r2 + r3 + r4) tR /\
          rounded_quarter (g1 + g2 + g3 + g4) tG /\
          rounded_quarter (b1 + b2 + b3 + b4) tB
    end).
  { destruct bg.
    - exists 255, 255, 255. split; reflexivity.
    - exists 0, 0, 0. split; reflexivity.
    - destruct (target_color_auto img Hwf Hw Hh)
        as (r1 & g1 & b1 & a1 & r2 & g2 & b2 & a2 & r3 & g3 & b3 & a3
            & r4 & g4 & b4 & a4 & P1 & P2 & P3 & P4 & Ht).
      eexists _, _, _. split; [exact Ht|].
      exists r1, g1, b1, a1, r2, g2, b2, a2, r3, g3, b3, a3, r4, g4, b4, a4.
      repeat (split; [assumption|]).
      repeat split; apply round_quarter_rounded. }
  destruct Htarget as (tR & tG & tB & Ht & Hmode).
  exists tR, tG, tB. split; [exact Hmode|]. clear Hmode.
  destruct Hwf as (_ & _ & _ & Hbytes).
  destruct (target_color_bytes _ _ _ _ _ Hbytes Ht) as (HtR & HtG & HtB).
  cbv zeta. unfold convertImagePixelsToTransparent.
  cbn [width height data]. rewrite Ht.
  split; [split; [reflexivity | split; [reflexivity | apply pixel_loop_length]] |].
  split.
  { intros j Hj. rewrite pixel_loop_lookup.
    replace (j mod 4 =? 3)%nat with false
      by (symmetry; apply Nat.eqb_neq; exact Hj).
    reflexivity. }
  split.
  { intros k r g b a Hp.
    rewrite (pixel_after_loop _ _ _ _ _ _ _ _ Hp).
    rewrite (matched_pixel _ _ _ _ _ _ _ _ _ _ Hp). reflexivity. }
  intros t Htol ->.
  pose proof (fun k r g b a =>
                matched_euclid tR tG tB t (data img) k r g b a
                  Hbytes Htol HtR HtG HtB) as Hmatched.
  assert (Hpix : forall k r g b a, pixel (data img) k = Some (r, g, b, a) ->
     ((euclid r g b tR tG tB <= IZR t)%R ->
        pixel (pixel_loop (Some tR, Some tG, Some tB) (to_float t) (data img)) k
        = Some (r, g, b, 0)) /\
     (~ (euclid r g b tR tG tB <= IZR t)%R ->
        pixel (pixel_loop (Some tR, Some tG, Some tB) (to_float t) (data img)) k
        = Some (r, g, b, a))).
  { intros k r g b a Hp.
    rewrite (pixel_after_loop _ _ _ _ _ _ _ _ Hp).
    pose proof (Hmatched _ _ _ _ _ Hp) as Hm.
    destruct (matched _ _ _ _); split; intros H; try reflexivity.
    - exfalso. apply H, Hm. reflexivity.
    - apply Hm in H. discriminate. }
  split; [exact Hpix | split].
  - intros Hall k r g b a Hout.
    apply pixel_in_output in Hout as (a0 & Hin & ->).
    replace (matched (Some tR, Some tG, Some tB) (to_float t) (data img) k)
      with true; [reflexivity|].
    symmetry. apply (Hmatched _ _ _ _ _ Hin), (Hall _ _ _ _ _ Hin).
  - intros Hzero Hne. apply list_eq. intros j. rewrite pixel_loop_lookup.
    destruct (j mod 4 =? 3)%nat eqn:Hj; [|reflexivity].
    apply Nat.eqb_eq in Hj. cbn [andb].
    destruct (data img !! j) as [x|] eqn:Hx; [|destruct (matched _ _ _ _); reflexivity].
    destruct (pixel_of_alpha _ _ _ Hj Hx) as (r & g & b & Hp).
    pose proof (Hmatched _ _ _ _ _ Hp) as Hm.
    destruct (matched _ _ _ _); [|reflexivity].
    exfalso. apply (Hne _ _ _ _ _ Hp).
    assert (He : (euclid r g b tR tG tB <= 0)%R)
      by (rewrite Hzero in Hm; apply Hm; reflexivity).
    unfold euclid in He.
    assert (Hz : sqrt (IZR ((r - tR) * (r - tR) + (g - tG) * (g - tG)
                            + (b - tB) * (b - tB))) = 0%R).
    { apply Rle_antisym; [exact He | apply sqrt_pos]. }
    apply sqrt_eq_0 in Hz; [|apply IZR_le, sum_squares_nonneg].
    apply eq_IZR, squares_zero in Hz.
    assert (r = tR) by lia. assert (g = tG) by lia. assert (b = tB) by lia.
    congruence.
Qed.

(** A two-pixel image on a white background with the default tolerance:
    the white pixel becomes transparent, the coloured one is kept. *)
Lemma convert_alpha_exactly_within_tolerance_witness :
  pixel (data (convertImagePixelsToTransparent
                 (mkImageData 2 1 [255; 255; 255; 255; 10; 20; 30; 255])
                 white 30)) 0
  = Some (255, 255, 255, 0)
  /\ pixel (data (convertImagePixelsToTransparent
                    (mkImageData 2 1 [255; 255; 255; 255; 10; 20; 30; 255])
                    white 30)) 1
     = Some (10, 20, 30, 255).
Proof.
  destruct (convert_alpha_exactly_within_tolerance
              (mkImageData 2 1 [255; 255; 255; 255; 10; 20; 30; 255])
              white 30)
    as (tR & tG & tB & Hmode & _ & _ & Hpix & _).
  - unfold well_formed, bytes. cbn [width height data length].
    repeat split; try lia. repeat constructor; lia.
  - cbn [width]. lia.
  - cbn [height]. lia.
  - injection Hmode as -> -> ->. split.
    + rewrite (Hpix 0%nat 255 255 255 255 eq_refl). vm_compute. reflexivity.
    + rewrite (Hpix 1%nat 10 20 30 255 eq_refl). vm_compute. reflexivity.
Defined.

(** With a [NaN] target (corner samples outside the buffer) no pixel
    matches and the buffer is returned as it was. *)
Lemma convert_nan_target img bg tol tR tG tB :
  target_color img bg = (tR, tG, tB) ->
  tR = None \/ tG = None \/ tB = None ->
  data (convertImagePixelsToTransparent img bg tol) = data img.
Proof.
  intros Ht Hnan. unfold convertImagePixelsToTransparent. cbn [data].
  rewrite Ht. apply list_eq. intros j. rewrite pixel_loop_lookup.
  replace (matched (tR, tG, tB) tol (data img) (j / 4)) with false.
  - rewrite andb_false_r. reflexivity.
  - assert (Hp : forall c, pow2_diff c None = None) by (intros [c|]; reflexivity).
    assert (Ha : forall x, add_nan x None = None) by (intros [x|]; reflexivity).
    unfold matched, distance_sq.
    destruct Hnan as [->| [->| ->]]; rewrite Hp, ?Ha; reflexivity.
Qed.

End TransparencyClaims.


(* ================================================================== *)
(** ** Properties of the variant selector and of the option merge      *)
(* ================================================================== *)

Import JS Effects Model3dUtils Model3dHelpers.

Section Selector.
Local Open Scope string_scope.

(** C2. For every model and image count, [selectModelVariant] returns a
    single-image variant exactly when the count is at most 1 and a
    multi-image variant exactly when it is above 1; for hunyuan3d the
    turbo flag selects the turbo variant of that arity, and for trellis no
    turbo variant is ever returned. *)
Theorem selectModelVariant_arity_and_speed
    (model : string) (n : nat) (preferFast : bool) :
  let v := selectModelVariant model n preferFast in
  (is_single_variant v = true <-> (n <= 1)%nat) /\
  (is_multi_variant v = true <-> (1 < n)%nat) /\
  selectModelVariant "hunyuan3d" n true
    = (if (n <=? 1)%nat then "single-turbo" else "multi-turbo") /\
  selectModelVariant "hunyuan3d" n false
    = (if (n <=? 1)%nat then "single" else "multi") /\
  is_turbo_variant (selectModelVariant "trellis" n preferFast) = false.
Proof.
  unfold selectModelVariant.
  destruct (String.eqb model "trellis"), preferFast;
    destruct (Nat.leb_spec n 1); cbn;
    repeat split; intros; try reflexivity; try lia; try discriminate.
Qed.

End Selector.

Section Merge.
Local Open Scope string_scope.

(** C6. For a model that has defaults, [merge3DWithDefaults] returns an
    object in which every key of the user options has the user's value,
    every key absent from the user options has what the defaults of the
    model give it, and a key absent from both is absent. *)
Theorem merge3DWithDefaults_user_wins (options : Obj) (m : string) :
  get options "model" = VStr m ->
  m = "trellis" \/ m = "hunyuan3d" ->
  exists defaults merged,
    getDefault3DOptions (VStr m) = Ok defaults /\
    merge3DWithDefaults options = Ok merged /\
    (forall k v, options !! k = Some v -> merged !! k = Some v) /\
    (forall k, options !! k = None -> merged !! k = defaults !! k) /\
    (forall k, options !! k = None -> defaults !! k = None ->
               merged !! k = None).
Proof.
  intros Hm Hfam. unfold merge3DWithDefaults. rewrite Hm.
  assert (exists defaults, getDefault3DOptions (VStr m) = Ok defaults)
    as [defaults Hd] by (destruct Hfam as [-> | ->]; eexists; reflexivity).
  exists defaults, (spread defaults options). rewrite Hd.
  split; [reflexivity|]. split; [reflexivity|]. unfold spread.
  split; [|split].
  - intros k v Hk. apply lookup_union_Some_l. exact Hk.
  - intros k Hk. apply lookup_union_r. exact Hk.
  - intros k Hk Hdk. rewrite lookup_union_r by exact Hk. exact Hdk.
Qed.

(** The options of the unit test: the user's variant is kept, the format
    comes from the defaults. *)
Lemma merge3DWithDefaults_user_wins_witness :
  exists merged,
    merge3DWithDefaults
      {[ "outputPath" := VStr "model.glb"; "model" := VStr "trellis";
         "variant" := VStr "single"; "prompt" := VStr "test model" ]}
    = Ok merged /\
    merged !! "variant" = Some (VStr "single") /\
    merged !! "format" = Some (VStr "glb") /\
    merged !! "quality" = None.
Proof.
  destruct (merge3DWithDefaults_user_wins
              {[ "outputPath" := VStr "model.glb"; "model" := VStr "trellis";
                 "variant" := VStr "single"; "prompt" := VStr "test model" ]}
              "trellis")
    as (defaults & merged & Hd & Hmerge & Huser & Hdef & Hnone).
  - vm_compute. reflexivity.
  - left. reflexivity.
  - exists merged. split; [exact Hmerge|].
    injection Hd as <-.
    split; [apply Huser; vm_compute; reflexivity|].
    split; [rewrite Hdef by (vm_compute; reflexivity); vm_compute; reflexivity|].
    apply Hnone; vm_compute; reflexivity.
Defined.

End Merge.

(* ================================================================== *)
(** ** Properties of the dispatchers                                   *)
(* ================================================================== *)

Section TraceExtension.
Context (P : Trace -> Prop) `{!Additive P}.

Lemma adds_ret {A} (a : A) : adds P (ret a).
Proof. intros tr. exists []. cbn. rewrite app_nil_r. split; [reflexivity | apply additive_nil]. Qed.

Lemma adds_throw {A} e : adds P (@throw A e).
Proof. intros tr. exists []. cbn. rewrite app_nil_r. split; [reflexivity | apply additive_nil]. Qed.

Lemma adds_lift {A} (r : Result A) : adds P (lift r).
Proof. intros tr. exists []. cbn. rewrite app_nil_r. split; [reflexivity | apply additive_nil]. Qed.

Lemma adds_emit ev : P [ev] -> adds P (emit ev).
Proof. intros H tr. exists [ev]. split; [reflexivity | exact H]. Qed.

Lemma adds_perform {A} ev (oracle : Trace -> Result A) :
  P [ev] -> adds P (perform ev oracle).
Proof. intros H tr. exists [ev]. split; [reflexivity | exact H]. Qed.

Lemma adds_bind {A B} (m : M A) (k : A -> M B) :
  adds P m -> (forall a, adds P (k a)) -> adds P (bind m k).
Proof.
  intros Hm Hk tr. unfold bind. destruct (Hm tr) as (s1 & H1 & P1).
  destruct (m tr) as [[a|e] tr1]; cbn in H1; subst tr1.
  - destruct (Hk a (tr ++ s1)) as (s2 & H2 & P2). exists (s1 ++ s2).
    rewrite H2, app_assoc. split; [reflexivity | apply additive_app; assumption].
  - exists s1. split; [reflexivity | exact P1].
Qed.

Lemma adds_try_catch {A} (m : M A) (h : string -> M A) :
  adds P m -> (forall e, adds P (h e)) -> adds P (try_catch m h).
Proof.
  intros Hm Hh tr. unfold try_catch. destruct (Hm tr) as (s1 & H1 & P1).
  destruct (m tr) as [[a|e] tr1]; cbn in H1; subst tr1.
  - exists s1. split; [reflexivity | exact P1].
  - destruct (Hh e (tr ++ s1)) as (s2 & H2 & P2). exists (s1 ++ s2).
    rewrite H2, app_assoc. split; [reflexivity | apply additive_app; assumption].
Qed.

End TraceExtension.

Lemma bind_ok {A B} (m : M A) (k : A -> M B) tr a tr' :
  m tr = (Ok a, tr') -> bind m k tr = k a tr'.
Proof. unfold bind. intros ->. reflexivity. Qed.

#[export] Instance anything_additive : Additive anything.
Proof. split; intros; exact I. Qed.

#[export] Instance anything_allows_dispatch : AllowsDispatch anything.
Proof. split; intros; exact I. Qed.

#[export] Instance no_image_calls_additive : Additive no_image_calls.
Proof.
  split; unfold no_image_calls, image_calls; [reflexivity|].
  intros a b Ha Hb. rewrite omap_app, Ha, Hb. reflexivity.
Qed.

#[export] Instance no_image_calls_allows_dispatch : AllowsDispatch no_image_calls.
Proof. split; intros; reflexivity. Qed.

#[export] Instance no_unlink_calls_additive : Additive no_unlink_calls.
Proof.
  split; unfold no_unlink_calls, unlink_calls; [reflexivity|].
  intros a b Ha Hb. rewrite omap_app, Ha, Hb. reflexivity.
Qed.

#[export] Instance no_unlink_calls_allows_dispatch : AllowsDispatch no_unlink_calls.
Proof. split; intros; reflexivity. Qed.

Create HintDb adds discriminated.
#[export] Hint Resolve adds_ret adds_throw adds_lift : adds.

(** The side condition of an effect: its event satisfies the property. *)
Ltac allowed_event :=
  first [ apply allows_http | apply allows_download | apply allows_stat
        | reflexivity | exact I ].

(** Goals [adds P m] for a computation written with the combinators. *)
Ltac adds_step :=
  match goal with
  | |- forall _, _ => intro
  | |- adds _ (bind _ _) => apply adds_bind; [solve [typeclasses eauto] | |]
  | |- adds _ (try_catch _ _) => apply adds_try_catch; [solve [typeclasses eauto] | |]
  | |- adds _ (emit _) => apply adds_emit; allowed_event
  | |- adds _ (perform _ _) => apply adds_perform; allowed_event
  | |- adds _ (if ?b then _ else _) => destruct b
  | |- adds _ (match ?x with _ => _ end) => destruct x
  | |- adds _ _ => solve [auto with adds typeclass_instances]
  end.
Ltac solve_adds := repeat adds_step.

Section Dispatchers.
Local Open Scope string_scope.
Local Open Scope list_scope.
Context (P : Trace -> Prop) `{!Additive P} `{!AllowsDispatch P}.
Variable w : World.

Lemma adds_getFalAIKey : adds P (getFalAIKey w).
Proof. unfold getFalAIKey. solve_adds. Qed.

Lemma adds_encodeImageToBase64 p : adds P (encodeImageToBase64 w p).
Proof. unfold encodeImageToBase64. solve_adds. Qed.

Lemma adds_toImageUri p : adds P (toImageUri w p).
Proof.
  unfold toImageUri. solve_adds; auto using adds_encodeImageToBase64.
Qed.

Lemma adds_toImageUris ps : adds P (toImageUris w ps).
Proof.
  induction ps as [|p ps IH]; cbn [toImageUris]; solve_adds;
    auto using adds_toImageUri.
Qed.

Lemma adds_save_mesh url out missing : adds P (save_mesh w url out missing).
Proof. unfold save_mesh, downloadAndSave3DModel. solve_adds. Qed.

Lemma adds_getModel3DInfo p : adds P (getModel3DInfo w p).
Proof. unfold getModel3DInfo. solve_adds. Qed.

Lemma adds_post e h b : adds P (post w e h b).
Proof. unfold post. solve_adds. Qed.

End Dispatchers.

#[export] Hint Resolve adds_getFalAIKey adds_encodeImageToBase64
  adds_toImageUri adds_toImageUris adds_save_mesh
  adds_getModel3DInfo adds_post : adds.

Section DispatcherTraces.
Context (P : Trace -> Prop) `{!Additive P} `{!AllowsDispatch P}.
Variable w : World.

Lemma adds_trellisGenerate3DSingle a : adds P (trellisGenerate3DSingle w a).
Proof. unfold trellisGenerate3DSingle. solve_adds. Qed.

Lemma adds_trellisGenerate3DMulti a : adds P (trellisGenerate3DMulti w a).
Proof. unfold trellisGenerate3DMulti. solve_adds. Qed.

Lemma adds_hunyuan3DGenerateSingle a : adds P (hunyuan3DGenerateSingle w a).
Proof. unfold hunyuan3DGenerateSingle. solve_adds. Qed.

Lemma adds_hunyuan3DGenerateMulti a : adds P (hunyuan3DGenerateMulti w a).
Proof. unfold hunyuan3DGenerateMulti. solve_adds. Qed.

Lemma adds_hunyuan3DGenerateSingleTurbo a :
  adds P (hunyuan3DGenerateSingleTurbo w a).
Proof. unfold hunyuan3DGenerateSingleTurbo. solve_adds. Qed.

Lemma adds_hunyuan3DGenerateMultiTurbo a :
  adds P (hunyuan3DGenerateMultiTurbo w a).
Proof. unfold hunyuan3DGenerateMultiTurbo. solve_adds. Qed.

End DispatcherTraces.

#[export] Hint Resolve adds_trellisGenerate3DSingle
  adds_trellisGenerate3DMulti adds_hunyuan3DGenerateSingle
  adds_hunyuan3DGenerateMulti adds_hunyuan3DGenerateSingleTurbo
  adds_hunyuan3DGenerateMultiTurbo : adds.

Section Conversion.
Local Open Scope string_scope.
Local Open Scope list_scope.
Variable w : World.

Local Abbreviation converted := (converted w).
Local Abbreviation encoded := (encoded w).

Lemma encodeImageToBase64_ok p tr b tr' :
  encodeImageToBase64 w p tr = (Ok b, tr') ->
  tr' = tr /\ readFileBase64 w p = Ok b.
Proof.
  unfold encodeImageToBase64. destruct (readFileBase64 w p); cbn; intros H;
    inversion H; subst; auto.
Qed.

Lemma toImageUri_ok p tr u tr' :
  toImageUri w p tr = (Ok u, tr') -> tr' = tr /\ converted p u.
Proof.
  unfold toImageUri, converted.
  destruct (startsWith p "data:") eqn:Hs; cbn.
  - intros H. inversion H; subst. auto.
  - unfold bind. destruct (encodeImageToBase64 w p tr) as [[b|e] tr1] eqn:He;
      cbn; intros H; inversion H; subst.
    apply encodeImageToBase64_ok in He as [-> Hb]. eauto 8.
Qed.

Lemma toImageUris_ok ps : forall tr us tr',
  toImageUris w ps tr = (Ok us, tr') -> tr' = tr /\ Forall2 converted ps us.
Proof.
  induction ps as [|p ps IH]; intros tr us tr'; cbn [toImageUris].
  - cbn. intros H. inversion H; subst. auto.
  - unfold bind at 1.
    destruct (toImageUri w p tr) as [[u|e] tr1] eqn:Hu; [|discriminate].
    apply toImageUri_ok in Hu as [-> Hc].
    unfold bind at 1.
    destruct (toImageUris w ps tr) as [[us'|e] tr2] eqn:Hus; [|discriminate].
    apply IH in Hus as [-> HF]. cbn. intros H. inversion H; subst. auto.
Qed.

Lemma convertPathsToBase64URIs_from_ok ps : forall acc tr us tr',
  convertPathsToBase64URIs_from w acc ps tr = (Ok us, tr') ->
  tr' = tr /\ exists us', us = (acc ++ us')%list /\ Forall2 encoded ps us'.
Proof.
  induction ps as [|p ps IH]; intros acc tr us tr';
    cbn [convertPathsToBase64URIs_from].
  - cbn. intros H. inversion H; subst. split; [reflexivity|].
    exists []. rewrite app_nil_r. auto.
  - unfold bind at 1, try_catch, bind at 1.
    destruct (encodeImageToBase64 w p tr) as [[b|e] tr1] eqn:He; cbn;
      [|discriminate].
    apply encodeImageToBase64_ok in He as [-> Hb].
    intros H. apply IH in H as (-> & us' & -> & HF). split; [reflexivity|].
    exists (("data:image/png;base64," +:+ b) :: us').
    rewrite <- app_assoc. split; [reflexivity|].
    constructor; [|exact HF]. exists b. auto.
Qed.

End Conversion.

Import Scenarios.

Section ConversionClaims.
Local Open Scope string_scope.
Local Open Scope list_scope.




End ConversionClaims.

Section MultiView.
Local Open Scope string_scope.
Local Open Scope list_scope.

(** C3, as stated, fails where the credential is missing: the dispatcher
    resolves the credential before it counts the images, and with two
    images and no [FAL_AI_API_KEY] the error is the one of the credential,
    not the one of the views. No network call is made either way. *)
Lemma hunyuan_multi_without_credential :
  hunyuan3DGenerateMulti no_credential (multi_args ["a.png"; "b.png"]) []
  = (Throw "FAL_AI_API_KEY environment variable is required", [])
  /\ fst (hunyuan3DGenerateMulti no_credential (multi_args ["a.png"; "b.png"]) [])
     <> Throw (insufficient_views "Hunyuan3D Multi" 2).
Proof. split; [reflexivity | discriminate]. Qed.

(** After a [post] the trace starts with the request, whatever follows. *)
Lemma post_then_extends {A} w endpoint headers body (k : Response -> M A) tr :
  (forall r, adds anything (k r)) ->
  exists suffix,
    snd ((response <- post w endpoint headers body ;; k response)%monad tr)
    = (tr ++ EvHttp endpoint "POST" headers body :: suffix)%list.
Proof.
  intros Hk. unfold bind, post, perform.
  destruct (makeHTTPRequest w tr endpoint "POST" headers body) as [r|e].
  - destruct (Hk r (tr ++ [EvHttp endpoint "POST" headers body])%list) as (s & Hs & _).
    exists s. rewrite Hs, <- app_assoc. reflexivity.
  - exists []. reflexivity.
Qed.

(** C3, amended. With fewer than three images the two multi-view
    dispatchers of Hunyuan3D throw before anything is sent, the trace
    unchanged: the error that names the three required images when the
    credential is set, the error of the missing credential otherwise. With
    the credential and three or more images whose conversion succeeds, the
    request that is sent carries the uris of the first three images as
    [front_image_url], [back_image_url] and [left_image_url], in that
    order. *)
Theorem hunyuan_multi_view_requires_three_images
    (w : World) (args : MultiArgs) (tr : Trace) :
  let n := length (m_imagePaths args) in
  (n < 3 ->
   includes (insufficient_views "Hunyuan3D Multi" n)
            "requires at least 3 images" = true /\
   includes (insufficient_views "Hunyuan3D Multi Turbo" n)
            "requires at least 3 images" = true /\
   (truthy_str (FAL_AI_API_KEY w) = true ->
    hunyuan3DGenerateMulti w args tr
      = (Throw (insufficient_views "Hunyuan3D Multi" n), tr) /\
    hunyuan3DGenerateMultiTurbo w args tr
      = (Throw (insufficient_views "Hunyuan3D Multi Turbo" n), tr)) /\
   (truthy_str (FAL_AI_API_KEY w) = false ->
    hunyuan3DGenerateMulti w args tr
      = (Throw "FAL_AI_API_KEY environment variable is required", tr) /\
    hunyuan3DGenerateMultiTurbo w args tr
      = (Throw "FAL_AI_API_KEY environment variable is required", tr))) /\
  (forall key uris,
     3 <= n ->
     FAL_AI_API_KEY w = Some key -> truthy_str (Some key) = true ->
     toImageUris w (m_imagePaths args) tr = (Ok uris, tr) ->
     exists p0 p1 p2 prest front back left urest,
       m_imagePaths args = p0 :: p1 :: p2 :: prest /\
       uris = front :: back :: left :: urest /\
       converted w p0 front /\ converted w p1 back /\ converted w p2 left /\
       let body := [ ("front_image_url", JStr front);
                     ("back_image_url", JStr back);
                     ("left_image_url", JStr left);
                     ("format", JStr (or_else (m_format args) "glb")) ] in
       (exists suffix,
          snd (hunyuan3DGenerateMulti w args tr)
          = (tr ++ EvHttp "https://fal.run/fal-ai/hunyuan3d/v2/multi-view"
                     "POST" (headers_for key) body :: suffix)%list) /\
       (exists suffix,
          snd (hunyuan3DGenerateMultiTurbo w args tr)
          = (tr ++ EvHttp "https://fal.run/fal-ai/hunyuan3d/v2/multi-view/turbo"
                     "POST" (headers_for key) body :: suffix)%list)).
Proof.
  intros n. subst n. split.
  - intros Hn. apply Nat.ltb_lt in Hn.
    split; [reflexivity|]. split; [reflexivity|].
    unfold hunyuan3DGenerateMulti, hunyuan3DGenerateMultiTurbo, bind, getFalAIKey.
    split; intros Hkey; rewrite Hkey; cbn [ret throw]; rewrite ?Hn; auto.
  - intros key uris Hn Hkey Htruthy Huris.
    destruct (toImageUris_ok _ _ _ _ _ Huris) as [_ HF].
    destruct (m_imagePaths args) as [|p0 [|p1 [|p2 prest]]] eqn:Hpaths;
      cbn [length] in Hn; try lia.
    inversion HF as [|? front ? l1 H0 HF1]; subst.
    inversion HF1 as [|? back ? l2 H1 HF2]; subst.
    inversion HF2 as [|? left ? urest H2 HF3]; subst.
    exists p0, p1, p2, prest, front, back, left, urest.
    repeat (split; [first [reflexivity | assumption]|]).
    cbv zeta.
    assert (Hk : getFalAIKey w tr = (Ok key, tr))
      by (unfold getFalAIKey; rewrite Hkey, Htruthy; reflexivity).
    unfold hunyuan3DGenerateMulti, hunyuan3DGenerateMultiTurbo.
    rewrite !(bind_ok _ _ _ _ _ Hk), Hpaths.
    cbn [length Nat.ltb Nat.leb].
    rewrite !(bind_ok _ _ _ _ _ Huris).
    split.
    + match goal with
      | |- context [bind (post w ?e ?h ?b) ?k] =>
          destruct (post_then_extends w e h b k tr) as [s Hs];
            [solve_adds | exists s; rewrite Hs; reflexivity]
      end.
    + match goal with
      | |- context [bind (post w ?e ?h ?b) ?k] =>
          destruct (post_then_extends w e h b k tr) as [s Hs];
            [solve_adds | exists s; rewrite Hs; reflexivity]
      end.
Qed.

(** Two images with the credential set, and four images. *)
Lemma hunyuan_multi_view_requires_three_images_witness :
  hunyuan3DGenerateMulti online (multi_args ["a.png"; "b.png"]) []
  = (Throw ("Hunyuan3D Multi requires at least 3 images "
            +:+ "(front, back, left views). Only 2 images provided."), [])
  /\ exists suffix,
       snd (hunyuan3DGenerateMulti online
              (multi_args ["f.png"; "b.png"; "data:image/png;base64,TEVGVA=="; "r.png"]) [])
       = EvHttp "https://fal.run/fal-ai/hunyuan3d/v2/multi-view" "POST"
           (headers_for "fal-key")
           [ ("front_image_url", JStr "data:image/png;base64,QUJD");
             ("back_image_url", JStr "data:image/png;base64,QUJD");
             ("left_image_url", JStr "data:image/png;base64,TEVGVA==");
             ("format", JStr "glb") ] :: suffix.
Proof.
  split.
  - refine (proj1 (proj1 (proj2 (proj2 (proj1
      (hunyuan_multi_view_requires_three_images online
         (multi_args ["a.png"; "b.png"]) []) _))) eq_refl)).
    cbn. lia.
  - destruct (proj2 (hunyuan_multi_view_requires_three_images online
         (multi_args ["f.png"; "b.png"; "data:image/png;base64,TEVGVA=="; "r.png"]) [])
         "fal-key" _ ltac:(cbn; lia) eq_refl eq_refl eq_refl)
      as (p0 & p1 & p2 & prest & front & back & left & urest
          & Hp & Hu & _ & _ & _ & Hm & _).
    injection Hu as <- <- <- <-. exact Hm.
Defined.

End MultiView.

(* ================================================================== *)
(** ** Properties of the reference image pipeline                      *)
(* ================================================================== *)

Section References.
Local Open Scope string_scope.
Local Open Scope list_scope.
Variable w : World.

Lemma image_calls_app (a b : Trace) :
  image_calls (a ++ b) = image_calls a ++ image_calls b.
Proof. unfold image_calls. apply omap_app. Qed.

Lemma warnings_app (a b : Trace) : warnings (a ++ b) = warnings a ++ warnings b.
Proof. unfold warnings. apply omap_app. Qed.

(** One view: the call is made, its paths are appended, nothing is
    thrown. *)
Lemma reference_step_run prompt base model acc view tr :
  let args := image_args prompt base view model in
  exists suffix,
    reference_step w prompt base model acc view tr
    = (Ok (acc ++ saved_paths (generateImage w tr args))%list,
       (tr ++ suffix)%list)
    /\ image_calls suffix = [args]
    /\ warnings suffix = reference_warning view (generateImage w tr args).
Proof.
  intros args. unfold reference_step, try_catch, bind, perform. fold args.
  destruct (generateImage w tr args) as [[e|[paths|]]|e]; cbn.
  - eexists [_; _]. rewrite <- app_assoc, app_nil_r. repeat split.
  - exists [EvGenerateImage args]. split; [|split; reflexivity].
    destruct paths; cbn; rewrite ?app_nil_r; reflexivity.
  - exists [EvGenerateImage args]. rewrite app_nil_r. repeat split.
  - eexists [_; _]. rewrite <- app_assoc, app_nil_r. repeat split.
Qed.

Lemma generateReferenceImages_from_run prompt base model views :
  forall acc tr,
  exists answers suffix,
    generateReferenceImages_from w prompt base model acc views tr
    = (Ok (acc ++ concat (saved_paths <$> answers))%list, (tr ++ suffix)%list)
    /\ Forall2 (fun view answer =>
                  exists tr_i,
                    answer = generateImage w tr_i
                               (image_args prompt base view model))
               views answers
    /\ image_calls suffix
       = (fun view => image_args prompt base view model) <$> views
    /\ warnings suffix = concat (zip_with reference_warning views answers).
Proof.
  induction views as [|view views IH]; intros acc tr;
    cbn [generateReferenceImages_from].
  - exists [], []. cbn. rewrite !app_nil_r. auto.
  - destruct (reference_step_run prompt base model acc view tr)
      as (s1 & Hstep & Hcalls1 & Hwarn1).
    rewrite (bind_ok _ _ _ _ _ Hstep).
    destruct (IH (acc ++ saved_paths (generateImage w tr
                      (image_args prompt base view model)))%list
                 (tr ++ s1)%list)
      as (answers & s2 & Hrun & HF & Hcalls2 & Hwarn2).
    exists (generateImage w tr (image_args prompt base view model) :: answers),
           (s1 ++ s2)%list.
    rewrite Hrun. cbn [fmap list_fmap concat zip_with].
    rewrite <- !app_assoc. split; [reflexivity|]. split; [|split].
    + constructor; [eauto | exact HF].
    + rewrite image_calls_app, Hcalls1, Hcalls2. reflexivity.
    + rewrite warnings_app, Hwarn1, Hwarn2. reflexivity.
Qed.

End References.

Section ReferenceClaims.
Local Open Scope string_scope.
Local Open Scope list_scope.

(** C4. [generateReferenceImages] never throws. It calls [generateImage]
    once for every view, in the order of the views, whatever the earlier
    calls answered, and returns the saved paths of the calls that
    succeeded, in that order; a failed call adds nothing and leaves one
    warning that names its view. For the views front, back, top with a
    failing back call and one file each for front and top the result is
    the front path followed by the top path. *)
Theorem generateReferenceImages_skips_failed_views
    (w : World) (prompt base : string) (views : list string)
    (model : string) (tr : Trace) :
  (exists answers suffix,
     generateReferenceImages w prompt base views model tr
     = (Ok (concat (saved_paths <$> answers)), (tr ++ suffix)%list)
     /\ Forall2 (fun view answer =>
                   exists tr_i,
                     answer = generateImage w tr_i
                                (image_args prompt base view model))
                views answers
     /\ image_calls suffix
        = (fun view => image_args prompt base view model) <$> views
     /\ warnings suffix = concat (zip_with reference_warning views answers)) /\
  (forall front_path top_path e,
     views = ["front"; "back"; "top"] ->
     (forall t, generateImage w t (image_args prompt base "front" model)
                = Ok (SavedPaths (Some [front_path]))) ->
     (forall t, generateImage w t (image_args prompt base "back" model)
                = Throw e) ->
     (forall t, generateImage w t (image_args prompt base "top" model)
                = Ok (SavedPaths (Some [top_path]))) ->
     fst (generateReferenceImages w prompt base views model tr)
     = Ok [front_path; top_path]).
Proof.
  split.
  - unfold generateReferenceImages.
    destruct (generateReferenceImages_from_run w prompt base model views [] tr)
      as (answers & suffix & H). eauto.
  - intros front_path top_path e -> Hfront Hback Htop.
    destruct (generateReferenceImages_from_run w prompt base model
                ["front"; "back"; "top"] [] tr)
      as (answers & suffix & Hrun & HF & _ & _).
    unfold generateReferenceImages. rewrite Hrun. cbn [fst app].
    inversion HF as [|? a1 ? l1 (t1 & H1) HF1]; subst.
    inversion HF1 as [|? a2 ? l2 (t2 & H2) HF2]; subst.
    inversion HF2 as [|? a3 ? l3 (t3 & H3) HF3]; subst.
    inversion HF3; subst.
    rewrite Hfront, Hback, Htop. reflexivity.
Qed.

(** The scenario of the unit test, in a world where the back view fails. *)
Lemma generateReferenceImages_skips_failed_views_witness :
  fst (generateReferenceImages (world_with None ["back"]) "test object"
         "test_object.png" ["front"; "back"; "top"] "gemini" [])
  = Ok ["test_object_ref_front.png"; "test_object_ref_top.png"].
Proof.
  apply (proj2 (generateReferenceImages_skips_failed_views
                  (world_with None ["back"]) "test object" "test_object.png"
                  ["front"; "back"; "top"] "gemini" [])
               "test_object_ref_front.png" "test_object_ref_top.png"
               "Generation failed" eq_refl);
    intros t; reflexivity.
Defined.

End ReferenceClaims.

(* ================================================================== *)
(** ** Properties of [generate3DModel] and [generate3DModelSmart]      *)
(* ================================================================== *)

Section GenerateTraces.
Local Open Scope string_scope.
Local Open Scope list_scope.
Variable w : World.

Lemma unlink_calls_app (a b : Trace) :
  unlink_calls (a ++ b) = unlink_calls a ++ unlink_calls b.
Proof. unfold unlink_calls. apply omap_app. Qed.

Lemma adds_dispatch P `{!Additive P} `{!AllowsDispatch P} l paths refs :
  adds P (dispatch w l paths refs).
Proof. unfold dispatch. solve_adds. Qed.

(** The [finally] clause tries to delete every reference, in order, emits
    nothing but deletions and warnings, one warning for every deletion
    that fails, and never throws. *)
Lemma cleanup_each_run refs : forall tr,
  exists suffix answers,
    cleanup_each w refs tr = (Ok tt, tr ++ suffix) /\
    unlink_calls suffix = refs /\
    image_calls suffix = [] /\
    network_calls suffix = [] /\
    Forall2 (fun refPath answer =>
               exists tr_i, answer = unlinkSync w tr_i refPath)
            refs answers /\
    warnings suffix = concat (zip_with cleanup_warning refs answers).
Proof.
  induction refs as [|p refs IH]; intros tr; cbn [cleanup_each].
  - exists [], []. cbn. rewrite app_nil_r. auto 7.
  - unfold bind at 1, try_catch, perform, emit.
    destruct (unlinkSync w tr p) as [[]|e] eqn:Hp.
    + destruct (IH (tr ++ [EvUnlink p])) as (s & ans & Hs & Hu & Hi & Hn & HF & Hw).
      exists (EvUnlink p :: s), (Ok tt :: ans). rewrite Hs, <- app_assoc.
      split; [reflexivity|].
      unfold unlink_calls, image_calls, network_calls, warnings in *.
      cbn [omap list_omap List.filter zip_with concat cleanup_warning app].
      rewrite Hu, Hi, Hn, Hw. repeat split.
      constructor; [exists tr; congruence | exact HF].
    + destruct (IH ((tr ++ [EvUnlink p]) ++
                    [EvWarn ("Failed to cleanup reference image " +:+ p
                             +:+ ": " +:+ e)]))
        as (s & ans & Hs & Hu & Hi & Hn & HF & Hw).
      eexists (EvUnlink p :: EvWarn _ :: s), (Throw e :: ans).
      rewrite Hs, <- !app_assoc.
      split; [reflexivity|].
      unfold unlink_calls, image_calls, network_calls, warnings in *.
      cbn [omap list_omap List.filter zip_with concat cleanup_warning app].
      rewrite Hu, Hi, Hn, Hw. repeat split.
      constructor; [exists tr; congruence | exact HF].
Qed.

Lemma adds_reference_step P `{!Additive P} prompt base model acc view :
  (forall a, P [EvGenerateImage a]) -> (forall t, P [EvWarn t]) ->
  adds P (reference_step w prompt base model acc view).
Proof.
  intros Hg Hw. unfold reference_step.
  apply adds_try_catch; [assumption | |].
  - apply adds_bind; [assumption | apply adds_perform, Hg |].
    intros [e|[paths|]]; solve_adds.
  - intros e. apply adds_bind; [assumption | apply adds_emit, Hw |].
    solve_adds.
Qed.

Lemma adds_generateReferenceImages_from P `{!Additive P} prompt base model views :
  (forall a, P [EvGenerateImage a]) -> (forall t, P [EvWarn t]) ->
  forall acc, adds P (generateReferenceImages_from w prompt base model acc views).
Proof.
  intros Hg Hw. induction views as [|view views IH]; intros acc;
    cbn [generateReferenceImages_from].
  - solve_adds.
  - apply adds_bind; [assumption | apply adds_reference_step; assumption | exact IH].
Qed.



End GenerateTraces.

Section ReferenceViews.
Local Open Scope string_scope.
Local Open Scope list_scope.

(** C5, as stated, fails when no variant is supplied: only the front view
    is synthesized, and if that one call saves two files the variant
    resolved afterwards is the multi-image one, although the requested
    views were front, back and top. *)
Lemma generate3DModel_front_only_yet_multi_resolved :
  let options : Obj :=
    {[ "prompt" := VStr "fantasy sword"; "outputPath" := VStr "sword.glb";
       "model" := VStr "trellis" ]} in
  let run := generate3DModel two_files_per_view options [] in
  referenceViews (destructure options) = ["front"; "back"; "top"] /\
  image_calls (snd run) = [image_args "fantasy sword" "sword" "front" "gemini"] /\
  actual_variant (l_variant (destructure options)) "trellis" 2 = "multi" /\
  exists result,
    fst run = Ok result /\ variant result = "multi" /\
    is_multi_variant (variant result) = true /\
    input_images result = ["sword_0.png"; "sword_1.png"].
Proof.
  cbv zeta. split; [vm_compute; reflexivity|].
  split; [vm_compute; reflexivity|].
  split; [vm_compute; reflexivity|].
  eexists. split; [vm_compute; reflexivity|].
  repeat split.
Qed.

Lemma mem_two (v a b : string) :
  mem v [a; b] = true -> v = a \/ v = b.
Proof.
  unfold mem. cbn [existsb]. rewrite orb_false_r, orb_true_iff, !String.eqb_eq.
  auto.
Qed.

(** C5, amended. In [generate3DModel], with no input image, a non-empty
    prompt and automatic references enabled, the image generation is
    called once per view, in order, for all requested views when the
    variant supplied with the options names a multi-image variant, and for
    the front view alone otherwise, also when no variant was supplied; a
    supplied variant is the variant used for the dispatch. No other image
    generation call is made. *)
Theorem generate3DModel_reference_views
    (w : World) (options : Obj) (tr : Trace) :
  let l := destructure options in
  inputImagePaths l = [] ->
  truthy_str (prompt l) = true ->
  autoGenerateReferences l = true ->
  let views := views_to_generate (l_variant l) (referenceViews l) in
  image_calls (snd (generate3DModel w options tr))
  = image_calls tr ++
    ((fun view => image_args (default EmptyString (prompt l))
                    (replace_ext (outputPath l) EmptyString) view (referenceModel l))
       <$> views) /\
  (forall v, l_variant l = Some v -> is_multi_variant v = true ->
     views = referenceViews l /\
     forall n, actual_variant (l_variant l) (l_model l) n = v) /\
  (forall v, l_variant l = Some v -> is_single_variant v = true ->
     views = ["front"] /\
     forall n, actual_variant (l_variant l) (l_model l) n = v) /\
  (truthy_str (l_variant l) = false -> views = ["front"]).
Proof.
  intros l Hin Hprompt Hauto views. split; [|split; [|split]].
  - unfold generate3DModel. fold l. unfold generate3DModel_try.
    rewrite Hin, Hprompt, Hauto. cbn [length Nat.eqb andb].
    unfold generateReferenceImages, bind at 1, emit.
    destruct (generateReferenceImages_from_run w (default EmptyString (prompt l))
                (replace_ext (outputPath l) EmptyString) (referenceModel l) views []
                (tr ++ [EvLog "No input images provided, generating reference images automatically..."]))
      as (answers & s1 & Hrun & _ & Hcalls & _).
    fold views. rewrite Hrun. cbn [app].
    set (refs := concat (saved_paths <$> answers)).
    assert (Hbody : exists s2,
      snd (if (length refs =? 0)%nat
           then (Throw "Failed to generate reference images automatically",
                 (tr ++ [EvLog "No input images provided, generating reference images automatically..."]) ++ s1)
           else dispatch w l refs refs
                  ((tr ++ [EvLog "No input images provided, generating reference images automatically..."]) ++ s1))
      = ((tr ++ [EvLog "No input images provided, generating reference images automatically..."]) ++ s1) ++ s2
      /\ image_calls s2 = []).
    { destruct (length refs =? 0)%nat.
      - exists []. rewrite app_nil_r. auto.
      - apply (adds_dispatch w no_image_calls). }
    destruct Hbody as (s2 & Hs2 & Hc2).
    destruct (if (length refs =? 0)%nat then _ else _) as [outcome tr1].
    cbn [snd] in Hs2. subst tr1.
    assert (Hclean : exists s3,
      snd (cleanup w (cleanupReferences l) refs
             (((tr ++ [EvLog "No input images provided, generating reference images automatically..."]) ++ s1) ++ s2))
      = (((tr ++ [EvLog "No input images provided, generating reference images automatically..."]) ++ s1) ++ s2) ++ s3
      /\ image_calls s3 = []).
    { unfold cleanup. destruct (_ && _).
      - destruct (cleanup_each_run w refs
          (((tr ++ [EvLog "No input images provided, generating reference images automatically..."]) ++ s1) ++ s2))
          as (s3 & ans & Hs3 & _ & Hi & _).
        exists s3. rewrite Hs3. auto.
      - exists []. cbn. rewrite app_nil_r. auto. }
    destruct Hclean as (s3 & Hs3 & Hc3).
    destruct (cleanup w _ _ _) as [r tr2]. cbn [snd] in Hs3 |- *. subst tr2.
    rewrite !image_calls_app, Hcalls, Hc2, Hc3, !app_nil_r. reflexivity.
  - intros v Hv Hm. subst views. rewrite Hv.
    apply mem_two in Hm as [-> | ->]; split; reflexivity.
  - intros v Hv Hs. subst views. rewrite Hv.
    apply mem_two in Hs as [-> | ->]; split; reflexivity.
  - intros Hv. subst views. unfold views_to_generate. rewrite Hv. reflexivity.
Qed.

(** A prompt and an explicit multi variant: the three default views; the
    same prompt without variant: the front view alone. *)
Lemma generate3DModel_reference_views_witness :
  image_calls (snd (generate3DModel online
     {[ "prompt" := VStr "fantasy sword"; "outputPath" := VStr "sword.glb";
        "model" := VStr "trellis"; "variant" := VStr "multi" ]} []))
  = [ image_args "fantasy sword" "sword" "front" "gemini";
      image_args "fantasy sword" "sword" "back" "gemini";
      image_args "fantasy sword" "sword" "top" "gemini" ].
Proof.
  refine (eq_trans (proj1 (generate3DModel_reference_views online
     {[ "prompt" := VStr "fantasy sword"; "outputPath" := VStr "sword.glb";
        "model" := VStr "trellis"; "variant" := VStr "multi" ]} [] _ _ _)) _);
    vm_compute; reflexivity.
Defined.

End ReferenceViews.

Section Cleanup.
Local Open Scope string_scope.
Local Open Scope list_scope.



End Cleanup.

Section SmartValidation.
Local Open Scope string_scope.
Local Open Scope list_scope.

(** C9, as stated, fails for a blank output path: the checks run in the
    order of the source, and the request for a turbo variant of trellis is
    rejected by the check of the output path, with its message. Nothing is
    sent either way. *)
Lemma generate3DModelSmart_blank_path_checked_first :
  generate3DModelSmart online "a sword" EmptyString "trellis"
    {[ "variant" := VStr "single-turbo" ]} []
  = (Throw "Output path is required and cannot be empty", [])
  /\ fst (generate3DModelSmart online "a sword" EmptyString "trellis"
            {[ "variant" := VStr "single-turbo" ]} [])
     <> Throw "Trellis model does not support turbo variants".
Proof. split; [vm_compute; reflexivity | vm_compute; discriminate]. Qed.

Lemma get_Some (o : Obj) k v : o !! k = Some v -> get o k = v.
Proof. unfold get. intros ->. reflexivity. Qed.

Lemma get_VStr (o : Obj) k s : get o k = VStr s -> o !! k = Some (VStr s).
Proof. unfold get. destruct (o !! k); cbn; congruence. Qed.

Lemma get_spread_present (a b : Obj) k v :
  b !! k = Some v -> get (spread a b) k = v.
Proof.
  intros H. apply get_Some. unfold spread. apply lookup_union_Some_l, H.
Qed.

Lemma get_spread_absent (a b : Obj) k :
  b !! k = None -> get (spread a b) k = get a k.
Proof.
  intros H. unfold get, spread. rewrite lookup_union_r by exact H. reflexivity.
Qed.

(** C9, amended. A request through [generate3DModelSmart] whose model is
    trellis and whose variant is one of the two turbo variants is rejected
    by the validation, before [generate3DModel] runs and with the trace
    unchanged: no network call, no image generation. The error is the one
    of the first check that fails: that of the output path when the path
    is missing or blank, that of the format when the path is not blank
    and a format other than glb and gltf is given, and that of the turbo
    variants in every other case. *)
Theorem generate3DModelSmart_rejects_trellis_turbo
    (w : World) (prompt outputPath model : string) (options : Obj)
    (v : string) (tr : Trace) :
  let request := smart_request prompt outputPath model options in
  get request "model" = VStr "trellis" ->
  get request "variant" = VStr v ->
  v = "single-turbo" \/ v = "multi-turbo" ->
  generate3DModelSmart w prompt outputPath model options tr
  = (Throw
       match get request "outputPath" with
       | VStr path =>
           if blank path
           then "Output path is required and cannot be empty"
           else if truthy (get request "format")
                   && negb (one_of (get request "format") ["glb"; "gltf"])
           then "Format must be one of: glb, gltf"
           else "Trellis model does not support turbo variants"
       | VUndefined | VBool false =>
           "Output path is required and cannot be empty"
       | VBool true | VArr _ => "options.outputPath.trim is not a function"
       end, tr).
Proof.
  intros request Hmodel Hvariant Hv.
  assert (Hdefaults : getDefault3DOptions (VStr "trellis")
            = Ok (spread baseDefaults
                    {[ "model" := VStr "trellis"; "variant" := VStr "multi" ]}))
    by reflexivity.
  set (defaults := spread baseDefaults
                     {[ "model" := VStr "trellis"; "variant" := VStr "multi" ]}) in *.
  assert (Hmerge : merge3DWithDefaults request = Ok (spread defaults request)).
  { unfold merge3DWithDefaults. rewrite Hmodel, Hdefaults. reflexivity. }
  assert (Hrun : generate3DModelSmart w prompt outputPath model options tr
                 = match validate3DModelOptions (spread defaults request) with
                   | Ok _ => generate3DModel w (spread defaults request) tr
                   | Throw e => (Throw e, tr)
                   end).
  { unfold generate3DModelSmart. fold request. rewrite Hmerge.
    unfold bind, lift. destruct (validate3DModelOptions _) as [[]|e]; reflexivity. }
  assert (Hm : get (spread defaults request) "model" = VStr "trellis")
    by (apply get_spread_present, get_VStr, Hmodel).
  assert (Hvar : get (spread defaults request) "variant" = VStr v)
    by (apply get_spread_present, get_VStr, Hvariant).
  assert (Hturbo : includes v "turbo" = true)
    by (destruct Hv as [-> | ->]; reflexivity).
  assert (Hlegal : one_of (VStr v)
            ["single"; "multi"; "single-turbo"; "multi-turbo"] = true)
    by (destruct Hv as [-> | ->]; reflexivity).
  assert (Hp : get (spread defaults request) "outputPath"
               = get request "outputPath").
  { unfold get, spread. rewrite lookup_union.
    destruct (request !! "outputPath"); reflexivity. }
  assert (Hf : truthy (get (spread defaults request) "format")
               && negb (one_of (get (spread defaults request) "format")
                          ["glb"; "gltf"])
               = truthy (get request "format")
                 && negb (one_of (get request "format") ["glb"; "gltf"])).
  { destruct (request !! "format") as [f|] eqn:Hformat.
    - rewrite (get_spread_present _ _ _ _ Hformat), (get_Some _ _ _ Hformat).
      reflexivity.
    - rewrite (get_spread_absent _ _ _ Hformat).
      unfold get at 3 4. rewrite Hformat. vm_compute. reflexivity. }
  rewrite Hrun. unfold validate3DModelOptions.
  rewrite Hp, Hm, Hvar, Hlegal, Hturbo, Hf. clear Hf.
  change (one_of (VStr "trellis") ["trellis"; "hunyuan3d"]) with true.
  change (one_of (VStr "trellis") ["trellis"]) with true.
  cbn [negb]. rewrite andb_false_r.
  destruct (get request "outputPath") as [|[]|path|]; try reflexivity.
  destruct (blank path); [reflexivity|].
  destruct (truthy _ && negb _); reflexivity.
Qed.

(** The request of the unit test, through [generate3DModelSmart]; the
    same request with a no-break space as output path, which [trim]
    removes. *)
Lemma generate3DModelSmart_rejects_trellis_turbo_witness :
  generate3DModelSmart online "a sword" "model.glb" "trellis"
    {[ "variant" := VStr "single-turbo" ]} []
  = (Throw "Trellis model does not support turbo variants", [])
  /\ generate3DModelSmart online "a sword"
       (String "194" (String "160" EmptyString)) "trellis"
       {[ "variant" := VStr "single-turbo" ]} []
     = (Throw "Output path is required and cannot be empty", []).
Proof.
  split.
  - refine (eq_trans (generate3DModelSmart_rejects_trellis_turbo online
       "a sword" "model.glb" "trellis" {[ "variant" := VStr "single-turbo" ]}
       "single-turbo" [] _ _ (or_introl eq_refl)) _);
      vm_compute; reflexivity.
  - refine (eq_trans (generate3DModelSmart_rejects_trellis_turbo online
       "a sword" (String "194" (String "160" EmptyString)) "trellis"
       {[ "variant" := VStr "single-turbo" ]}
       "single-turbo" [] _ _ (or_introl eq_refl)) _);
      vm_compute; reflexivity.
Defined.

End SmartValidation.

Import Dispatchers MoreScenarios DataUri.

(* ================================================================== *)
(** ** The transparency converter: monotonicity and invariants        *)
(* ================================================================== *)

Section PixelInvariants.
Local Open Scope Z_scope.

(** The comparison of the loop is monotone in the tolerance. *)
Lemma matched_monotone target (t1 t2 : float) d k :
  PrimFloat.leb t1 t2 = true ->
  matched target t1 d k = true -> matched target t2 d k = true.
Proof.
  intros Hle. unfold matched, sqrt_le. destruct target as [[tR tG] tB].
  destruct (distance_sq _ _ _ _ _ _) as [n|]; [|discriminate].
  intros Hm. exact (float_leb_trans _ _ _ Hm Hle).
Qed.

(** X2. A larger tolerance only removes more: for any two numbers
    [t1 <= t2] taken as tolerances, a pixel that comes out transparent
    with [t1] comes out transparent, with the same colour, with [t2],
    for every buffer and background mode. *)
Theorem convert_monotone_in_tolerance
    (img : ImageData) (bg : BackgroundColor) (t1 t2 : float) :
  PrimFloat.leb t1 t2 = true ->
  forall k r g b,
    pixel (data (convertImagePixelsToTransparent img bg t1)) k
    = Some (r, g, b, 0) ->
    pixel (data (convertImagePixelsToTransparent img bg t2)) k
    = Some (r, g, b, 0).
Proof.
  intros Hle k r g b.
  unfold convertImagePixelsToTransparent. cbn [data].
  intros Hout. apply pixel_in_output in Hout as (a0 & Hin & Ha).
  rewrite (pixel_after_loop _ _ _ _ _ _ _ _ Hin).
  destruct (matched (target_color img bg) t1 (data img) k) eqn:Hm.
  - rewrite (matched_monotone _ _ _ _ _ Hle Hm). reflexivity.
  - subst a0. destruct (matched _ t2 _ _); reflexivity.
Qed.

(** Three pixels on a white background, the second one slightly off
    white: transparent with tolerance 10 and so with tolerance 30. *)
Lemma convert_monotone_in_tolerance_witness :
  pixel (data (convertImagePixelsToTransparent
                 (mkImageData 3 1 [255; 255; 255; 255;  250; 250; 250; 255;
                                   10; 20; 30; 255]) white 30)) 1
  = Some (250, 250, 250, 0).
Proof.
  apply (convert_monotone_in_tolerance
           (mkImageData 3 1 [255; 255; 255; 255;  250; 250; 250; 255;
                             10; 20; 30; 255]) white 10 30).
  - reflexivity.
  - vm_compute. reflexivity.
Defined.




(** X4. On a canvas image with at least one pixel the target colour is a
    colour of bytes in every background mode: the four corner samples are
    inside the buffer and a rounded quarter of four bytes is a byte. The
    comparison of the loop never meets [NaN]. *)
Theorem target_color_is_a_colour (img : ImageData) (bg : BackgroundColor) :
  well_formed img -> 1 <= width img -> 1 <= height img ->
  exists tR tG tB,
    target_color img bg = (Some tR, Some tG, Some tB) /\
    0 <= tR <= 255 /\ 0 <= tG <= 255 /\ 0 <= tB <= 255.
Proof.
  intros Hwf Hw Hh.
  assert (Hdef : exists tR tG tB,
            target_color img bg = (Some tR, Some tG, Some tB)).
  { destruct bg; [cbn; eauto..|].
    destruct (corner_in_range img 0 0 Hwf)
      as (r1 & g1 & b1 & a1 & _ & R1 & G1 & B1); [lia..|].
    destruct (corner_in_range img (width img - 1) 0 Hwf)
      as (r2 & g2 & b2 & a2 & _ & R2 & G2 & B2); [lia..|].
    destruct (corner_in_range img 0 (height img - 1) Hwf)
      as (r3 & g3 & b3 & a3 & _ & R3 & G3 & B3); [lia..|].
    destruct (corner_in_range img (width img - 1) (height img - 1) Hwf)
      as (r4 & g4 & b4 & a4 & _ & R4 & G4 & B4); [lia..|].
    unfold target_color, corner_totals, corners.
    cbn [fold_left add_corner].
    rewrite R1, G1, B1, R2, G2, B2, R3, G3, B3, R4, G4, B4.
    cbn [add_nan round_quarter fmap option_fmap option_map]. eauto. }
  destruct Hdef as (tR & tG & tB & Ht). exists tR, tG, tB.
  split; [exact Ht|].
  destruct Hwf as (_ & _ & _ & Hbytes).
  exact (target_color_bytes _ _ _ _ _ Hbytes Ht).
Qed.

Lemma target_color_is_a_colour_witness :
  exists tR tG tB,
    target_color (mkImageData 2 1 [255; 254; 0; 255;  254; 253; 1; 255]) auto
    = (Some tR, Some tG, Some tB) /\
    0 <= tR <= 255 /\ 0 <= tG <= 255 /\ 0 <= tB <= 255.
Proof.
  apply target_color_is_a_colour.
  - unfold well_formed, bytes. cbn [width height data length].
    repeat split; try lia. repeat constructor; lia.
  - cbn [width]. lia.
  - cbn [height]. lia.
Defined.

End PixelInvariants.

(* ================================================================== *)
(** ** The dispatchers: protocol, credential and unreadable images     *)
(* ================================================================== *)

Section DispatcherProtocol.
Local Open Scope string_scope.
Local Open Scope list_scope.
Variable w : World.

Lemma encodeImageToBase64_trace p tr : snd (encodeImageToBase64 w p tr) = tr.
Proof. unfold encodeImageToBase64. destruct (readFileBase64 w p); reflexivity. Qed.

Lemma toImageUri_trace p tr : snd (toImageUri w p tr) = tr.
Proof.
  unfold toImageUri. destruct (startsWith p "data:"); [reflexivity|].
  unfold bind. pose proof (encodeImageToBase64_trace p tr) as H.
  destruct (encodeImageToBase64 w p tr) as [[b|e] tr1]; exact H.
Qed.

Lemma toImageUris_trace ps : forall tr, snd (toImageUris w ps tr) = tr.
Proof.
  induction ps as [|p ps IH]; intros tr; cbn [toImageUris]; [reflexivity|].
  unfold bind at 1. pose proof (toImageUri_trace p tr) as H.
  destruct (toImageUri w p tr) as [[u|e] tr1]; cbn [snd] in H; subst tr1;
    [|reflexivity].
  unfold bind at 1. specialize (IH tr).
  destruct (toImageUris w ps tr) as [[us|e] tr1]; exact IH.
Qed.

Lemma getFalAIKey_run tr :
  getFalAIKey w tr
  = (if truthy_str (FAL_AI_API_KEY w)
     then Ok (default EmptyString (FAL_AI_API_KEY w))
     else Throw "FAL_AI_API_KEY environment variable is required", tr).
Proof. unfold getFalAIKey. destruct (truthy_str _); reflexivity. Qed.

(** From the answer to the request to the end of a dispatcher. *)
Lemma finish_protocol endpoint key body label url out missing
    (mk : list string -> ModelInfo -> Model3DGenerationResult) response tr :
  (forall sp mi, provider (mk sp mi) = "FAL.ai" /\ savedPaths (mk sp mi) = sp /\
                 parameters (mk sp mi) = body /\
                 auto_generated_references (mk sp mi) = None) ->
  exists outcome suffix,
    (if has_error response
     then throw (label +:+ error_text response)
     else (savedPaths <- save_mesh w url out missing ;;
           modelInfo <- getModel3DInfo w out ;;
           ret (mk savedPaths modelInfo))%monad)
      (tr ++ [EvHttp endpoint "POST" (headers_for key) body])
    = (outcome, tr ++ suffix) /\
    dispatched endpoint key out outcome suffix.
Proof.
  intros Hmk. destruct (has_error response).
  { eexists _, [_]. split; [reflexivity | constructor]. }
  cbv beta iota delta [save_mesh downloadAndSave3DModel getModel3DInfo
                       try_catch bind perform ret throw].
  destruct (truthy_str url).
  2:{ eexists _, [_]. split; [reflexivity | constructor]. }
  destruct (curlDownload w _ _ _) as [[]|e].
  2:{ eexists _, [_; _]. rewrite <- !app_assoc. split; [reflexivity | constructor]. }
  destruct (statSize w _ _) as [size|e].
  2:{ eexists _, [_; _; _]. rewrite <- !app_assoc.
      split; [reflexivity | constructor]. }
  eexists _, [_; _; _]. rewrite <- !app_assoc. split; [reflexivity|].
  destruct (Hmk [out] {| file_size := size;
                         format := toUpperCase w (remove_first_dot
                                     (toLowerCase w (path_extname w out))) |})
    as (H1 & H2 & H3 & H4).
  econstructor; eassumption.
Qed.

Ltac stop_here :=
  eexists _, []; rewrite app_nil_r; split; [reflexivity | constructor].

(** The credential, the conversion of the images, the request and what
    follows it. *)
Ltac run_dispatcher :=
  intros tr; unfold bind at 1; rewrite getFalAIKey_run;
  destruct (truthy_str (FAL_AI_API_KEY w)); [|stop_here];
  try match goal with
      | |- context [(length ?l <? 3)%nat] =>
          destruct (length l <? 3)%nat; [stop_here|]
      end;
  unfold bind at 1;
  match goal with
  | |- context [toImageUri w ?p tr] =>
      let H := fresh in
      pose proof (toImageUri_trace p tr) as H;
      destruct (toImageUri w p tr) as [[?|?] ?]; cbn [snd] in H; subst
  | |- context [toImageUris w ?p tr] =>
      let H := fresh in
      pose proof (toImageUris_trace p tr) as H;
      destruct (toImageUris w p tr) as [[?|?] ?]; cbn [snd] in H; subst
  end; [|stop_here];
  unfold bind at 1, post, perform;
  destruct (makeHTTPRequest w _ _ _ _ _);
    [|eexists _, [_]; split; [reflexivity | constructor]];
  eapply finish_protocol; intros; repeat split.

Lemma trellisGenerate3DSingle_protocol a :
  follows_protocol (trellisGenerate3DSingle w a) "https://fal.run/fal-ai/trellis"
    (default EmptyString (FAL_AI_API_KEY w)) (s_outputPath a).
Proof. unfold trellisGenerate3DSingle. run_dispatcher. Qed.

Lemma trellisGenerate3DMulti_protocol a :
  follows_protocol (trellisGenerate3DMulti w a)
    "https://fal.run/fal-ai/trellis/multi"
    (default EmptyString (FAL_AI_API_KEY w)) (m_outputPath a).
Proof. unfold trellisGenerate3DMulti. run_dispatcher. Qed.

Lemma hunyuan3DGenerateSingle_protocol a :
  follows_protocol (hunyuan3DGenerateSingle w a)
    "https://fal.run/fal-ai/hunyuan3d/v2"
    (default EmptyString (FAL_AI_API_KEY w)) (s_outputPath a).
Proof. unfold hunyuan3DGenerateSingle. run_dispatcher. Qed.

Lemma hunyuan3DGenerateMulti_protocol a :
  follows_protocol (hunyuan3DGenerateMulti w a)
    "https://fal.run/fal-ai/hunyuan3d/v2/multi-view"
    (default EmptyString (FAL_AI_API_KEY w)) (m_outputPath a).
Proof. unfold hunyuan3DGenerateMulti. run_dispatcher. Qed.

Lemma hunyuan3DGenerateSingleTurbo_protocol a :
  follows_protocol (hunyuan3DGenerateSingleTurbo w a)
    "https://fal.run/fal-ai/hunyuan3d/v2/turbo"
    (default EmptyString (FAL_AI_API_KEY w)) (s_outputPath a).
Proof. unfold hunyuan3DGenerateSingleTurbo. run_dispatcher. Qed.

Lemma hunyuan3DGenerateMultiTurbo_protocol a :
  follows_protocol (hunyuan3DGenerateMultiTurbo w a)
    "https://fal.run/fal-ai/hunyuan3d/v2/multi-view/turbo"
    (default EmptyString (FAL_AI_API_KEY w)) (m_outputPath a).
Proof. unfold hunyuan3DGenerateMultiTurbo. run_dispatcher. Qed.

Lemma hunyuanWorldGenerate3D_protocol a :
  follows_protocol (hunyuanWorldGenerate3D w a)
    "https://fal.run/fal-ai/hunyuan_world/image-to-world"
    (default EmptyString (FAL_AI_API_KEY w)) (w_outputPath a).
Proof. unfold hunyuanWorldGenerate3D. run_dispatcher. Qed.

End DispatcherProtocol.

Section DispatcherClaims.
Local Open Scope string_scope.
Local Open Scope list_scope.

(** X5. Each of the seven dispatchers talks to the outside in one fixed
    order: at most one POST request, to its own endpoint and with the
    header [Authorization: Key <FAL_AI_API_KEY>]; a download only after
    the request, to the output path of the call; the size of that file
    only after the download. A dispatcher returns only after all three,
    and what it returns names FAL.ai as provider, the output path as the
    one saved path and, as parameters, the body that was sent. *)
Theorem dispatchers_follow_protocol (w : World) :
  let key := default EmptyString (FAL_AI_API_KEY w) in
  (forall a, follows_protocol (trellisGenerate3DSingle w a)
               "https://fal.run/fal-ai/trellis" key (s_outputPath a)) /\
  (forall a, follows_protocol (trellisGenerate3DMulti w a)
               "https://fal.run/fal-ai/trellis/multi" key (m_outputPath a)) /\
  (forall a, follows_protocol (hunyuan3DGenerateSingle w a)
               "https://fal.run/fal-ai/hunyuan3d/v2" key (s_outputPath a)) /\
  (forall a, follows_protocol (hunyuan3DGenerateMulti w a)
               "https://fal.run/fal-ai/hunyuan3d/v2/multi-view" key
               (m_outputPath a)) /\
  (forall a, follows_protocol (hunyuan3DGenerateSingleTurbo w a)
               "https://fal.run/fal-ai/hunyuan3d/v2/turbo" key
               (s_outputPath a)) /\
  (forall a, follows_protocol (hunyuan3DGenerateMultiTurbo w a)
               "https://fal.run/fal-ai/hunyuan3d/v2/multi-view/turbo" key
               (m_outputPath a)) /\
  (forall a, follows_protocol (hunyuanWorldGenerate3D w a)
               "https://fal.run/fal-ai/hunyuan_world/image-to-world" key
               (w_outputPath a)).
Proof.
  cbv zeta.
  auto 10 using trellisGenerate3DSingle_protocol, trellisGenerate3DMulti_protocol,
    hunyuan3DGenerateSingle_protocol, hunyuan3DGenerateMulti_protocol,
    hunyuan3DGenerateSingleTurbo_protocol, hunyuan3DGenerateMultiTurbo_protocol,
    hunyuanWorldGenerate3D_protocol.
Qed.

(** Without a credential nothing happens. *)
Lemma no_credential_stops (w : World) (tr : Trace) :
  truthy_str (FAL_AI_API_KEY w) = false ->
  let missing :=
    (@Throw Model3DGenerationResult
       "FAL_AI_API_KEY environment variable is required", tr) in
  (forall a, trellisGenerate3DSingle w a tr = missing) /\
  (forall a, trellisGenerate3DMulti w a tr = missing) /\
  (forall a, hunyuan3DGenerateSingle w a tr = missing) /\
  (forall a, hunyuan3DGenerateMulti w a tr = missing) /\
  (forall a, hunyuan3DGenerateSingleTurbo w a tr = missing) /\
  (forall a, hunyuan3DGenerateMultiTurbo w a tr = missing) /\
  (forall a, hunyuanWorldGenerate3D w a tr = missing).
Proof.
  intros Hkey missing. subst missing.
  unfold trellisGenerate3DSingle, trellisGenerate3DMulti,
    hunyuan3DGenerateSingle, hunyuan3DGenerateMulti,
    hunyuan3DGenerateSingleTurbo, hunyuan3DGenerateMultiTurbo,
    hunyuanWorldGenerate3D.
  repeat split; intros a; unfold bind at 1;
    rewrite getFalAIKey_run, Hkey; reflexivity.
Qed.

(** X6. Without a credential ([FAL_AI_API_KEY] unset or empty) every
    dispatcher throws the error of the missing variable and leaves the
    trace as it was, whatever its arguments. *)
Theorem dispatchers_require_credential (w : World) (tr : Trace) :
  truthy_str (FAL_AI_API_KEY w) = false ->
  let missing :=
    (@Throw Model3DGenerationResult
       "FAL_AI_API_KEY environment variable is required", tr) in
  (forall a, trellisGenerate3DSingle w a tr = missing) /\
  (forall a, trellisGenerate3DMulti w a tr = missing) /\
  (forall a, hunyuan3DGenerateSingle w a tr = missing) /\
  (forall a, hunyuan3DGenerateMulti w a tr = missing) /\
  (forall a, hunyuan3DGenerateSingleTurbo w a tr = missing) /\
  (forall a, hunyuan3DGenerateMultiTurbo w a tr = missing) /\
  (forall a, hunyuanWorldGenerate3D w a tr = missing).
Proof. exact (no_credential_stops w tr). Qed.

(** The variable set to the empty string, and a data uri as image. *)
Lemma dispatchers_require_credential_witness :
  hunyuan3DGenerateSingleTurbo (world_with (Some EmptyString) [])
    (single_args "data:image/png;base64,QUJD") []
  = (Throw "FAL_AI_API_KEY environment variable is required", []).
Proof.
  exact (proj1 (proj2 (proj2 (proj2 (proj2
    (dispatchers_require_credential (world_with (Some EmptyString) []) []
       eq_refl))))) _).
Defined.

Lemma toImageUri_readable w p tr :
  readable w p -> exists u, toImageUri w p tr = (Ok u, tr).
Proof.
  unfold readable, toImageUri, bind, encodeImageToBase64.
  destruct (startsWith p "data:"); [eauto|].
  intros [Hd | [b Hb]]; [discriminate|]. rewrite Hb. cbn. eauto.
Qed.

Lemma toImageUri_unreadable w p e tr :
  startsWith p "data:" = false -> readFileBase64 w p = Throw e ->
  toImageUri w p tr
  = (Throw ("Failed to read image file " +:+ p +:+ ": " +:+ e), tr).
Proof.
  intros Hs He. unfold toImageUri, bind, encodeImageToBase64.
  rewrite Hs, He. reflexivity.
Qed.

(** The conversion of a list stops at the first file it cannot read. *)
Lemma toImageUris_first_unreadable w good p rest e tr :
  Forall (readable w) good ->
  startsWith p "data:" = false -> readFileBase64 w p = Throw e ->
  toImageUris w (good ++ p :: rest) tr
  = (Throw ("Failed to read image file " +:+ p +:+ ": " +:+ e), tr).
Proof.
  intros Hgood Hs He. induction Hgood as [|q good Hq _ IH]; cbn [app toImageUris].
  - unfold bind at 1. rewrite (toImageUri_unreadable _ _ _ _ Hs He). reflexivity.
  - destruct (toImageUri_readable w q tr Hq) as [u Hu].
    rewrite (bind_ok _ _ _ _ _ Hu). unfold bind at 1. rewrite IH. reflexivity.
Qed.

(** X7. An image that is no data uri and cannot be read stops a
    dispatcher before anything is sent: the error names the file and the
    trace is unchanged. For the dispatchers that take a list this is the
    first such image of the list, also when it is the fourth or a later
    image of a Hunyuan3D multi-view call, which sends the first three
    only. *)
Theorem dispatchers_stop_at_unreadable_image
    (w : World) (p e : string) (tr : Trace) :
  truthy_str (FAL_AI_API_KEY w) = true ->
  startsWith p "data:" = false ->
  readFileBase64 w p = Throw e ->
  let unreadable :=
    (@Throw Model3DGenerationResult
       ("Failed to read image file " +:+ p +:+ ": " +:+ e), tr) in
  (forall a, s_imagePath a = p ->
     trellisGenerate3DSingle w a tr = unreadable /\
     hunyuan3DGenerateSingle w a tr = unreadable /\
     hunyuan3DGenerateSingleTurbo w a tr = unreadable) /\
  (forall a, w_imagePath a = p -> hunyuanWorldGenerate3D w a tr = unreadable) /\
  (forall a good rest,
     m_imagePaths a = good ++ p :: rest -> Forall (readable w) good ->
     trellisGenerate3DMulti w a tr = unreadable /\
     (3 <= length (m_imagePaths a) ->
      hunyuan3DGenerateMulti w a tr = unreadable /\
      hunyuan3DGenerateMultiTurbo w a tr = unreadable)).
Proof.
  intros Hkey Hs He unreadable. subst unreadable.
  unfold trellisGenerate3DSingle, trellisGenerate3DMulti,
    hunyuan3DGenerateSingle, hunyuan3DGenerateMulti,
    hunyuan3DGenerateSingleTurbo, hunyuan3DGenerateMultiTurbo,
    hunyuanWorldGenerate3D.
  split; [|split].
  - intros a <-. repeat split; unfold bind at 1;
      rewrite getFalAIKey_run, Hkey; unfold bind at 1;
      rewrite (toImageUri_unreadable _ _ _ _ Hs He); reflexivity.
  - intros a <-. unfold bind at 1.
    rewrite getFalAIKey_run, Hkey. unfold bind at 1.
    rewrite (toImageUri_unreadable _ _ _ _ Hs He). reflexivity.
  - intros a good rest Hpaths Hgood. split; [|intros Hlen; split];
      unfold bind at 1; rewrite getFalAIKey_run, Hkey;
      try (replace (length (m_imagePaths a) <? 3)%nat with false
             by (symmetry; apply Nat.ltb_ge; exact Hlen));
      unfold bind at 1; rewrite Hpaths;
      rewrite (toImageUris_first_unreadable _ _ _ _ _ _ Hgood Hs He);
      reflexivity.
Qed.

(** Four images for a multi-view call, the fourth one missing. *)
Lemma dispatchers_stop_at_unreadable_image_witness :
  hunyuan3DGenerateMulti (without_file "right.png")
    (multi_args ["front.png"; "back.png"; "left.png"; "right.png"]) []
  = (Throw ("Failed to read image file right.png: "
            +:+ "ENOENT: no such file or directory"), []).
Proof.
  refine (proj1 (proj2 (proj2 (proj2
    (dispatchers_stop_at_unreadable_image (without_file "right.png")
       "right.png" "ENOENT: no such file or directory" []
       eq_refl eq_refl eq_refl))
    (multi_args ["front.png"; "back.png"; "left.png"; "right.png"])
    ["front.png"; "back.png"; "left.png"] [] eq_refl _) _)).
  - repeat (constructor; [right; eexists; reflexivity|]). constructor.
  - cbn. lia.
Defined.

End DispatcherClaims.

(* ================================================================== *)
(** ** [generate3DModel]: routing, supplied images, failures           *)
(* ================================================================== *)

Section GenerateRouting.
Local Open Scope string_scope.
Local Open Scope list_scope.
Variable w : World.

Lemma http_urls_app (a b : Trace) : http_urls (a ++ b) = http_urls a ++ http_urls b.
Proof. unfold http_urls. apply omap_app. Qed.

(** With input images there is nothing to synthesize and nothing to
    delete: the call is the dispatch. *)
Lemma generate3DModel_with_inputs options tr :
  inputImagePaths (destructure options) <> [] ->
  generate3DModel w options tr
  = dispatch w (destructure options) (inputImagePaths (destructure options)) [] tr.
Proof.
  intros Hin. unfold generate3DModel, generate3DModel_try.
  destruct (inputImagePaths (destructure options)) as [|p ps] eqn:Hp;
    [congruence|].
  cbn [length Nat.eqb andb]. unfold cleanup. rewrite andb_false_r.
  destruct (dispatch w _ _ _ _) as [outcome tr1]. reflexivity.
Qed.

(** What the protocol says of the requests of a call. *)
Lemma dispatched_urls endpoint key out outcome suffix :
  dispatched endpoint key out outcome suffix ->
  (http_urls suffix = [] \/ http_urls suffix = [endpoint]) /\
  image_calls suffix = [] /\ unlink_calls suffix = [].
Proof. intros H. destruct H; cbn; auto. Qed.

(** The switch of lines 149-209: the dispatcher that is called, by its
    endpoint, or the error of the switch. *)
Ltac route D P :=
  lazymatch goal with
  | Hrun : forall m endpoint, follows_protocol m endpoint _ _ -> _
    |- context [D ?w ?a ?tr] =>
      let o := fresh "o" in let s := fresh "s" in
      let Hr := fresh "Hr" in let Hd := fresh "Hd" in
      destruct (Hrun (D w a) _ (P a)) as (o & s & Hr & Hd);
      eexists _, o, s; split; [exact Hr|]; split; [exact Hd | reflexivity]
  end.

Lemma dispatch_run l first rest refs tr :
  let paths := first :: rest in
  let v := actual_variant (l_variant l) (l_model l) (length paths) in
  let key := default EmptyString (FAL_AI_API_KEY w) in
  exists endpoint outcome suffix,
    dispatch w l paths refs tr
    = (match outcome with
       | Ok r => Ok (add_reference_metadata l refs r)
       | Throw e => Throw e
       end, tr ++ suffix) /\
    dispatched endpoint key (outputPath l) outcome suffix /\
    (if String.eqb (l_model l) "trellis"
     then endpoint = (if String.eqb v "single"
                      then "https://fal.run/fal-ai/trellis"
                      else "https://fal.run/fal-ai/trellis/multi")
     else if String.eqb (l_model l) "hunyuan3d"
     then (if String.eqb v "single"
           then endpoint = "https://fal.run/fal-ai/hunyuan3d/v2"
           else if String.eqb v "multi"
           then endpoint = "https://fal.run/fal-ai/hunyuan3d/v2/multi-view"
           else if String.eqb v "single-turbo"
           then endpoint = "https://fal.run/fal-ai/hunyuan3d/v2/turbo"
           else if String.eqb v "multi-turbo"
           then endpoint = "https://fal.run/fal-ai/hunyuan3d/v2/multi-view/turbo"
           else outcome = Throw ("Unsupported Hunyuan3D variant: " +:+ v)
                /\ suffix = [])
     else outcome = Throw ("Unsupported 3D model: " +:+ l_model l)
          /\ suffix = []).
Proof.
  intros paths v key. unfold dispatch. subst paths. fold v.
  unfold bind at 1.
  assert (Hrun : forall (m : M Model3DGenerationResult) endpoint,
            follows_protocol m endpoint key (outputPath l) ->
            exists outcome suffix,
              (let (r, tr') := m tr in
               match r with
               | Ok a => ret (add_reference_metadata l refs a) tr'
               | Throw e => (Throw e, tr')
               end)
              = (match outcome with
                 | Ok r => Ok (add_reference_metadata l refs r)
                 | Throw e => Throw e
                 end, tr ++ suffix) /\
              dispatched endpoint key (outputPath l) outcome suffix).
  { intros m endpoint Hm. destruct (Hm tr) as (outcome & suffix & Hr & Hd).
    exists outcome, suffix. rewrite Hr. destruct outcome; auto. }
  assert (Hstop : forall e,
            (let (r, tr') := @throw Model3DGenerationResult e tr in
             match r with
             | Ok a => ret (add_reference_metadata l refs a) tr'
             | Throw e => (Throw e, tr')
             end) = (Throw e, tr ++ [])).
  { intros e. rewrite app_nil_r. reflexivity. }
  assert (Hstopped : forall e,
            exists endpoint outcome suffix,
              (Throw e, tr ++ [])
              = (match outcome with
                 | Ok r => Ok (add_reference_metadata l refs r)
                 | Throw e => Throw e
                 end, tr ++ suffix) /\
              dispatched endpoint key (outputPath l) outcome suffix /\
              outcome = Throw e /\ suffix = []).
  { intros e. exists EmptyString, (Throw e), [].
    split; [reflexivity|]. split; [constructor | auto]. }
  destruct (String.eqb (l_model l) "trellis").
  - destruct (String.eqb v "single").
    + route trellisGenerate3DSingle (trellisGenerate3DSingle_protocol w).
    + route trellisGenerate3DMulti (trellisGenerate3DMulti_protocol w).
  - destruct (String.eqb (l_model l) "hunyuan3d").
    + destruct (String.eqb v "single");
        [route hunyuan3DGenerateSingle (hunyuan3DGenerateSingle_protocol w)|].
      destruct (String.eqb v "multi");
        [route hunyuan3DGenerateMulti (hunyuan3DGenerateMulti_protocol w)|].
      destruct (String.eqb v "single-turbo");
        [route hunyuan3DGenerateSingleTurbo
           (hunyuan3DGenerateSingleTurbo_protocol w)|].
      destruct (String.eqb v "multi-turbo");
        [route hunyuan3DGenerateMultiTurbo
           (hunyuan3DGenerateMultiTurbo_protocol w)|].
      rewrite Hstop. apply Hstopped.
    + rewrite Hstop. apply Hstopped.
Qed.

End GenerateRouting.

Section GenerateClaims.
Local Open Scope string_scope.
Local Open Scope list_scope.

(** X8. With input images, [generate3DModel] sends its request to the
    endpoint that the model and the variant select: the variant of the
    options or, without one, the single-image variant for one image and
    the multi-image variant for more. Trellis other than [single] goes to
    its multi-image endpoint, whatever the variant says; a variant that
    Hunyuan3D does not know and a model that is neither of the two end
    the call with the error of the switch, nothing sent. The list [urls]
    of the requests of the call is empty when the call stopped before its
    request. *)
Theorem generate3DModel_routes_by_model_and_variant
    (w : World) (options : Obj) (tr : Trace) :
  let l := destructure options in
  let v := actual_variant (l_variant l) (l_model l) (length (inputImagePaths l)) in
  let run := generate3DModel w options tr in
  inputImagePaths l <> [] ->
  exists urls,
    http_urls (snd run) = http_urls tr ++ urls /\
    (l_model l = "trellis" -> v = "single" ->
     urls = [] \/ urls = ["https://fal.run/fal-ai/trellis"]) /\
    (l_model l = "trellis" -> v <> "single" ->
     urls = [] \/ urls = ["https://fal.run/fal-ai/trellis/multi"]) /\
    (l_model l = "hunyuan3d" -> v = "single" ->
     urls = [] \/ urls = ["https://fal.run/fal-ai/hunyuan3d/v2"]) /\
    (l_model l = "hunyuan3d" -> v = "multi" ->
     urls = [] \/ urls = ["https://fal.run/fal-ai/hunyuan3d/v2/multi-view"]) /\
    (l_model l = "hunyuan3d" -> v = "single-turbo" ->
     urls = [] \/ urls = ["https://fal.run/fal-ai/hunyuan3d/v2/turbo"]) /\
    (l_model l = "hunyuan3d" -> v = "multi-turbo" ->
     urls = [] \/
     urls = ["https://fal.run/fal-ai/hunyuan3d/v2/multi-view/turbo"]) /\
    (l_model l = "hunyuan3d" ->
     mem v ["single"; "multi"; "single-turbo"; "multi-turbo"] = false ->
     urls = [] /\
     fst run = Throw ("Unsupported Hunyuan3D variant: " +:+ v)) /\
    (l_model l <> "trellis" -> l_model l <> "hunyuan3d" ->
     urls = [] /\ fst run = Throw ("Unsupported 3D model: " +:+ l_model l)).
Proof.
  intros l v run Hin. subst run.
  rewrite generate3DModel_with_inputs by exact Hin. fold l.
  subst v. destruct (inputImagePaths l) as [|first rest]; [congruence|].
  destruct (dispatch_run w l first rest [] tr)
    as (endpoint & outcome & suffix & Hrun & Hd & Hroute).
  rewrite Hrun. cbn [fst snd].
  destruct (dispatched_urls _ _ _ _ _ Hd) as (Hurls & _ & _).
  exists (http_urls suffix). rewrite http_urls_app.
  split; [reflexivity|].
  set (v := actual_variant (l_variant l) (l_model l) (length (first :: rest))) in *.
  unfold mem. cbn [existsb].
  destruct (String.eqb_spec (l_model l) "trellis") as [Hm|Hm].
  { destruct (String.eqb_spec v "single") as [Hv|Hv]; subst endpoint;
      repeat split; intros; try exact Hurls; congruence. }
  destruct (String.eqb_spec (l_model l) "hunyuan3d") as [Hh|Hh].
  2:{ destruct Hroute as [-> Hs]. rewrite Hs.
      repeat split; intros; auto; congruence. }
  destruct (String.eqb_spec v "single") as [Hv1|Hv1];
    [subst endpoint; repeat split; intros; try exact Hurls;
     try congruence; discriminate|].
  destruct (String.eqb_spec v "multi") as [Hv2|Hv2];
    [subst endpoint; repeat split; intros; try exact Hurls;
     try congruence; discriminate|].
  destruct (String.eqb_spec v "single-turbo") as [Hv3|Hv3];
    [subst endpoint; repeat split; intros; try exact Hurls;
     try congruence; discriminate|].
  destruct (String.eqb_spec v "multi-turbo") as [Hv4|Hv4];
    [subst endpoint; repeat split; intros; try exact Hurls;
     try congruence; discriminate|].
  destruct Hroute as [-> Hs]. rewrite Hs.
  repeat split; intros; auto; congruence.
Qed.

(** One image and the variant [single-turbo] for trellis, which
    [generate3DModel] itself does not reject: the multi-image endpoint. *)
Lemma generate3DModel_routes_by_model_and_variant_witness :
  let run :=
    generate3DModel online
      {[ "inputImagePaths" := VArr ["front.png"];
         "outputPath" := VStr "out/model.glb";
         "model" := VStr "trellis"; "variant" := VStr "single-turbo" ]} [] in
  http_urls (snd run) = [] \/
  http_urls (snd run) = ["https://fal.run/fal-ai/trellis/multi"].
Proof.
  cbv zeta.
  destruct (generate3DModel_routes_by_model_and_variant online
     {[ "inputImagePaths" := VArr ["front.png"];
        "outputPath" := VStr "out/model.glb";
        "model" := VStr "trellis"; "variant" := VStr "single-turbo" ]} [])
    as (urls & Hurls & _ & Hmulti & _).
  - vm_compute. discriminate.
  - rewrite Hurls. apply Hmulti; vm_compute; [reflexivity | discriminate].
Defined.

End GenerateClaims.

Section GenerateEdges.
Local Open Scope string_scope.
Local Open Scope list_scope.

(** X9. Images supplied by the caller are never touched: with at least
    one input image, [generate3DModel] generates no reference image and
    deletes no file, whatever [autoGenerateReferences] and
    [cleanupReferences] say, and a result it returns carries no
    reference metadata and the output path as its one saved path. *)
Theorem generate3DModel_keeps_supplied_images
    (w : World) (options : Obj) (tr : Trace) :
  let l := destructure options in
  let run := generate3DModel w options tr in
  inputImagePaths l <> [] ->
  (exists suffix,
     snd run = tr ++ suffix /\
     image_calls suffix = [] /\ unlink_calls suffix = []) /\
  (forall result, fst run = Ok result ->
     auto_generated_references result = None /\
     savedPaths result = [outputPath l]).
Proof.
  intros l run Hin. subst run.
  rewrite generate3DModel_with_inputs by exact Hin. fold l.
  destruct (inputImagePaths l) as [|first rest]; [congruence|].
  destruct (dispatch_run w l first rest [] tr)
    as (endpoint & outcome & suffix & Hrun & Hd & _).
  rewrite Hrun. cbn [fst snd]. split.
  - exists suffix. split; [reflexivity|].
    apply (dispatched_urls _ _ _ _ _ Hd).
  - intros result Hres. destruct Hd; try discriminate.
    injection Hres as <-. cbn. auto.
Qed.

(** Three supplied images, in a world where every deletion is recorded:
    none is. *)
Lemma generate3DModel_keeps_supplied_images_witness :
  exists suffix,
    snd (generate3DModel online
           {[ "inputImagePaths" := VArr ["front.png"; "back.png"; "left.png"];
              "outputPath" := VStr "out/model.glb";
              "model" := VStr "hunyuan3d"; "variant" := VStr "multi" ]} [])
    = [] ++ suffix /\
    image_calls suffix = [] /\ unlink_calls suffix = [].
Proof.
  refine (proj1 (generate3DModel_keeps_supplied_images online
     {[ "inputImagePaths" := VArr ["front.png"; "back.png"; "left.png"];
        "outputPath" := VStr "out/model.glb";
        "model" := VStr "hunyuan3d"; "variant" := VStr "multi" ]} [] _)).
  vm_compute. discriminate.
Defined.

(** X10. Without input images, and without a prompt or with the
    automatic references switched off, [generate3DModel] throws the error
    of the missing input image and does nothing else: the trace is
    unchanged. *)
Theorem generate3DModel_needs_an_image
    (w : World) (options : Obj) (tr : Trace) :
  let l := destructure options in
  inputImagePaths l = [] ->
  truthy_str (prompt l) = false \/ autoGenerateReferences l = false ->
  generate3DModel w options tr
  = (Throw "At least one input image is required for 3D model generation", tr).
Proof.
  intros l Hin Hno. unfold generate3DModel, generate3DModel_try. fold l.
  rewrite Hin. cbn [length Nat.eqb andb].
  replace (truthy_str (prompt l) && autoGenerateReferences l) with false
    by (destruct Hno as [-> | ->]; rewrite ?andb_false_r; reflexivity).
  unfold cleanup. rewrite andb_false_r. reflexivity.
Qed.

(** A prompt, but the automatic references switched off. *)
Lemma generate3DModel_needs_an_image_witness :
  generate3DModel online
    {[ "prompt" := VStr "fantasy sword"; "outputPath" := VStr "sword.glb";
       "model" := VStr "trellis"; "autoGenerateReferences" := VBool false ]} []
  = (Throw "At least one input image is required for 3D model generation", []).
Proof.
  apply generate3DModel_needs_an_image.
  - vm_compute. reflexivity.
  - right. vm_compute. reflexivity.
Defined.

End GenerateEdges.

Section GenerateReferences.
Local Open Scope string_scope.
Local Open Scope list_scope.
Variable w : World.

#[local] Instance quiet_additive : Additive quiet.
Proof.
  split; unfold quiet, http_urls, unlink_calls; [auto|].
  intros a b [Ha1 Ha2] [Hb1 Hb2]. rewrite !omap_app, Ha1, Ha2, Hb1, Hb2. auto.
Qed.

Lemma append_cons c a b : String c a +:+ b = String c (a +:+ b).
Proof. reflexivity. Qed.

Lemma has_dot_app a b : has_dot (a +:+ b) = has_dot a || has_dot b.
Proof.
  induction a as [|c a IH]; [reflexivity|].
  rewrite append_cons. cbn [has_dot]. rewrite IH, orb_assoc. reflexivity.
Qed.

(** Without a dot there is no extension to replace. *)
Lemma replace_ext_no_dot s repl : has_dot s = false -> replace_ext s repl = s.
Proof.
  induction s as [|c s IH]; [reflexivity|]. cbn [has_dot replace_ext].
  intros H. apply orb_false_iff in H as [Hc Hs]. rewrite Hc, IH by exact Hs.
  reflexivity.
Qed.

(** What follows the last dot is replaced together with the dot. *)
Lemma replace_ext_last_dot stem ext repl :
  has_dot ext = false -> ext <> EmptyString ->
  replace_ext (stem +:+ "." +:+ ext) repl = stem +:+ repl.
Proof.
  intros Hext Hne. induction stem as [|c stem IH].
  - change (EmptyString +:+ "." +:+ ext) with (String "." ext).
    cbn [replace_ext]. rewrite Hext.
    replace (String.eqb ext EmptyString) with false
      by (symmetry; apply String.eqb_neq; exact Hne).
    reflexivity.
  - change (String c stem +:+ "." +:+ ext)
      with (String c (stem +:+ "." +:+ ext)).
    change (String c stem +:+ repl) with (String c (stem +:+ repl)).
    cbn [replace_ext].
    rewrite has_dot_app.
    change (has_dot ("." +:+ ext)) with (true || has_dot ext).
    cbn [orb]. rewrite orb_true_r. cbn [negb]. rewrite andb_false_r.
    cbn [andb]. rewrite IH. reflexivity.
Qed.

(** The [try] block when references are synthesized: the calls for the
    views, then the error of the empty result or the dispatch on what was
    saved. *)
Lemma generate3DModel_try_auto l tr :
  inputImagePaths l = [] ->
  truthy_str (prompt l) = true ->
  autoGenerateReferences l = true ->
  let base := replace_ext (outputPath l) EmptyString in
  let views := views_to_generate (l_variant l) (referenceViews l) in
  let args view :=
    image_args (default EmptyString (prompt l)) base view (referenceModel l) in
  exists answers suffix,
    let refs := concat (saved_paths <$> answers) in
    generate3DModel_try w l tr
    = (refs,
       if (length refs =? 0)%nat
       then (Throw "Failed to generate reference images automatically",
             tr ++ suffix)
       else dispatch w l refs refs (tr ++ suffix)) /\
    Forall2 (fun view answer =>
               exists tr_i, answer = generateImage w tr_i (args view))
            views answers /\
    image_calls suffix = args <$> views /\
    quiet suffix.
Proof.
  intros Hin Hprompt Hauto base views args.
  unfold generate3DModel_try. rewrite Hin, Hprompt, Hauto.
  cbn [length Nat.eqb andb]. unfold generateReferenceImages, bind at 1, emit.
  fold base views.
  set (tr0 := tr ++ [EvLog _]).
  destruct (generateReferenceImages_from_run w (default EmptyString (prompt l))
              base (referenceModel l) views [] tr0)
    as (answers & s1 & Hrun & HF & Hcalls & _).
  destruct (adds_generateReferenceImages_from w quiet
              (default EmptyString (prompt l)) base (referenceModel l) views
              ltac:(split; reflexivity) ltac:(split; reflexivity) [] tr0)
    as (s1' & Hs1' & Hquiet).
  rewrite Hrun in Hs1' |- *. cbn [snd app] in Hs1' |- *.
  apply app_inv_head in Hs1'. subst s1'.
  exists answers, (EvLog "No input images provided, generating reference images automatically..." :: s1).
  cbv zeta. subst tr0. rewrite <- !app_assoc. cbn [app].
  split; [reflexivity|]. split; [exact HF|]. split; [exact Hcalls|].
  destruct Hquiet as [H1 H2]. split; [exact H1 | exact H2].
Qed.

(** The outcome of the call is the outcome of its [try] block. *)
Lemma generate3DModel_outcome options tr :
  fst (generate3DModel w options tr)
  = fst (snd (generate3DModel_try w (destructure options) tr)).
Proof.
  unfold generate3DModel.
  destruct (generate3DModel_try w _ tr) as [refs [o tr1]].
  destruct (cleanup w _ refs tr1). reflexivity.
Qed.

End GenerateReferences.

Section ReferenceOutcomes.
Local Open Scope string_scope.
Local Open Scope list_scope.

Lemma no_saved_paths (w : World) {A} (f : A -> ImageArgs) views answers :
  (forall t a, saved_paths (generateImage w t a) = []) ->
  Forall2 (fun view answer => exists tr_i, answer = generateImage w tr_i (f view))
          views answers ->
  concat (saved_paths <$> answers) = [].
Proof.
  intros Hnone HF. induction HF as [|view answer views answers [t ->] _ IH];
    [reflexivity|].
  cbn [fmap list_fmap concat]. rewrite Hnone, IH. reflexivity.
Qed.

(** X11. When no call of the image generation saves a file, because
    every call fails or answers without saved paths, [generate3DModel]
    throws the error of the automatic references; no request is sent and
    no file is deleted. *)
Theorem generate3DModel_fails_without_references
    (w : World) (options : Obj) (tr : Trace) :
  let l := destructure options in
  let run := generate3DModel w options tr in
  inputImagePaths l = [] ->
  truthy_str (prompt l) = true ->
  autoGenerateReferences l = true ->
  (forall t a, saved_paths (generateImage w t a) = []) ->
  fst run = Throw "Failed to generate reference images automatically" /\
  http_urls (snd run) = http_urls tr /\
  unlink_calls (snd run) = unlink_calls tr.
Proof.
  intros l run Hin Hprompt Hauto Hnone. subst run.
  destruct (generate3DModel_try_auto w l tr Hin Hprompt Hauto)
    as (answers & suffix & Htry & HF & _ & Hq1 & Hq2).
  cbv zeta in Htry. rewrite (no_saved_paths w _ _ _ Hnone HF) in Htry.
  cbn [length Nat.eqb] in Htry.
  unfold generate3DModel. fold l. rewrite Htry.
  unfold cleanup. rewrite andb_false_r. cbn [ret fst snd].
  rewrite http_urls_app, unlink_calls_app, Hq1, Hq2, !app_nil_r. auto.
Qed.

Lemma generate3DModel_fails_without_references_witness :
  fst (generate3DModel no_image_service
         {[ "prompt" := VStr "fantasy sword"; "outputPath" := VStr "sword.glb";
            "model" := VStr "hunyuan3d"; "variant" := VStr "multi" ]} [])
  = Throw "Failed to generate reference images automatically".
Proof.
  refine (proj1 (generate3DModel_fails_without_references no_image_service
     {[ "prompt" := VStr "fantasy sword"; "outputPath" := VStr "sword.glb";
        "model" := VStr "hunyuan3d"; "variant" := VStr "multi" ]} []
     _ _ _ _)); vm_compute; reflexivity.
Defined.

(** X12. A result that [generate3DModel] returns after it synthesized
    its references says so: it lists the synthesized files, at least one,
    the image model, and as views the views of the options, which are the
    requested ones and not the ones that were generated: without a
    multi-image variant in the options only the front view is. *)
Theorem generate3DModel_reports_references
    (w : World) (options : Obj) (tr : Trace) (result : Model3DGenerationResult) :
  let l := destructure options in
  inputImagePaths l = [] ->
  truthy_str (prompt l) = true ->
  autoGenerateReferences l = true ->
  fst (generate3DModel w options tr) = Ok result ->
  let refs := fst (generate3DModel_try w l tr) in
  refs <> [] /\
  auto_generated_references result = Some refs /\
  reference_model_used result = Some (referenceModel l) /\
  reference_views_generated result = Some (referenceViews l) /\
  savedPaths result = [outputPath l] /\
  (truthy_str (l_variant l) = false ->
   views_to_generate (l_variant l) (referenceViews l) = ["front"]).
Proof.
  intros l Hin Hprompt Hauto Hres refs. subst refs.
  rewrite generate3DModel_outcome in Hres. fold l in Hres.
  destruct (generate3DModel_try_auto w l tr Hin Hprompt Hauto)
    as (answers & suffix & Htry & _).
  cbv zeta in Htry. rewrite Htry in Hres |- *. cbn [fst snd] in Hres |- *.
  set (refs := concat (saved_paths <$> answers)) in *.
  destruct refs as [|first rest]; [discriminate|].
  cbn [length Nat.eqb] in Hres.
  destruct (dispatch_run w l first rest (first :: rest) (tr ++ suffix))
    as (endpoint & outcome & s2 & Hrun & Hd & _).
  rewrite Hrun in Hres. cbn [fst] in Hres.
  destruct Hd; try discriminate. injection Hres as <-.
  unfold add_reference_metadata. cbn [length Nat.ltb Nat.leb].
  cbn [auto_generated_references reference_model_used
       reference_views_generated savedPaths].
  repeat (split; [first [discriminate | reflexivity | assumption]|]).
  intros Hv. unfold views_to_generate. rewrite Hv. reflexivity.
Qed.

(** A prompt and no variant: the front view is generated and saved, and
    the result reports the three default views. *)
Lemma generate3DModel_reports_references_witness :
  exists result,
    fst (generate3DModel online
           {[ "prompt" := VStr "fantasy sword"; "outputPath" := VStr "sword.glb";
              "model" := VStr "trellis" ]} []) = Ok result /\
    auto_generated_references result = Some ["sword"] /\
    reference_views_generated result = Some ["front"; "back"; "top"].
Proof.
  eexists. split; [vm_compute; reflexivity|].
  match goal with
  | |- auto_generated_references ?r = _ /\ _ =>
      destruct (generate3DModel_reports_references online
         {[ "prompt" := VStr "fantasy sword"; "outputPath" := VStr "sword.glb";
            "model" := VStr "trellis" ]} [] r)
        as (_ & Hrefs & _ & Hviews & _)
  end; try (vm_compute; reflexivity).
  rewrite Hrefs, Hviews. split; vm_compute; reflexivity.
Defined.

End ReferenceOutcomes.

Section ReferencePaths.
Local Open Scope string_scope.
Local Open Scope list_scope.

(** The image generation calls of a call that synthesizes its
    references. *)
Lemma generate3DModel_image_calls (w : World) (options : Obj) (tr : Trace) :
  let l := destructure options in
  inputImagePaths l = [] ->
  truthy_str (prompt l) = true ->
  autoGenerateReferences l = true ->
  image_calls (snd (generate3DModel w options tr))
  = image_calls tr ++
    ((fun view => image_args (default EmptyString (prompt l))
                    (replace_ext (outputPath l) EmptyString) view (referenceModel l))
       <$> views_to_generate (l_variant l) (referenceViews l)).
Proof.
  intros l Hin Hprompt Hauto.
  destruct (generate3DModel_try_auto w l tr Hin Hprompt Hauto)
    as (answers & s1 & Htry & _ & Hcalls & _).
  cbv zeta in Htry. unfold generate3DModel. fold l. rewrite Htry.
  set (refs := concat (saved_paths <$> answers)) in *.
  assert (Hbody : exists s2,
    snd (if (length refs =? 0)%nat
         then (Throw "Failed to generate reference images automatically",
               tr ++ s1)
         else dispatch w l refs refs (tr ++ s1))
    = (tr ++ s1) ++ s2 /\ image_calls s2 = []).
  { destruct (length refs =? 0)%nat.
    - exists []. rewrite app_nil_r. auto.
    - apply (adds_dispatch w no_image_calls). }
  destruct Hbody as (s2 & Hs2 & Hc2).
  destruct (if (length refs =? 0)%nat then _ else _) as [outcome tr1].
  cbn [snd] in Hs2. subst tr1.
  assert (Hclean : exists s3,
    snd (cleanup w (cleanupReferences l) refs ((tr ++ s1) ++ s2))
    = ((tr ++ s1) ++ s2) ++ s3 /\ image_calls s3 = []).
  { unfold cleanup. destruct (_ && _).
    - destruct (cleanup_each_run w refs ((tr ++ s1) ++ s2))
        as (s3 & ans & Hs3 & _ & Hi & _).
      exists s3. rewrite Hs3. auto.
    - exists []. cbn. rewrite app_nil_r. auto. }
  destruct Hclean as (s3 & Hs3 & Hc3).
  destruct (cleanup w _ _ _) as [r tr2]. cbn [snd] in Hs3 |- *. subst tr2.
  rewrite !image_calls_app, Hcalls, Hc2, Hc3, !app_nil_r. reflexivity.
Qed.

(** X13. [generateReferenceImages] names the file of a view after the
    base path: what follows the last dot of the base path is replaced,
    with the dot, by [_ref_<view>.png]; a base path without a dot is
    used as it is, for every view. *)
Theorem generateReferenceImages_output_paths
    (w : World) (prompt base : string) (views : list string)
    (model : string) (tr : Trace) :
  let calls :=
    drop (length (image_calls tr))
         (image_calls (snd (generateReferenceImages w prompt base views model tr))) in
  (forall stem ext,
     base = stem +:+ "." +:+ ext -> has_dot ext = false -> ext <> EmptyString ->
     img_outputPath <$> calls
     = (fun view => stem +:+ "_ref_" +:+ view +:+ ".png") <$> views) /\
  (has_dot base = false ->
   img_outputPath <$> calls = (fun _ => base) <$> views).
Proof.
  intros calls.
  assert (Hcalls : calls = (fun view => image_args prompt base view model) <$> views).
  { subst calls. unfold generateReferenceImages.
    destruct (generateReferenceImages_from_run w prompt base model views [] tr)
      as (answers & suffix & Hrun & _ & Hc & _).
    rewrite Hrun. cbn [snd]. rewrite image_calls_app, drop_app_length. exact Hc. }
  rewrite Hcalls, <- list_fmap_compose. split.
  - intros stem ext -> Hext Hne. apply list_fmap_ext. intros i view _.
    cbn. apply replace_ext_last_dot; assumption.
  - intros Hdot. apply list_fmap_ext. intros i view _.
    cbn. apply replace_ext_no_dot. exact Hdot.
Qed.

(** The base path of the unit test, and a base path whose only dot is in
    the name of a directory. *)
Lemma generateReferenceImages_output_paths_witness :
  img_outputPath <$>
    drop 0 (image_calls (snd (generateReferenceImages online "test object"
                                "test_object.png" ["front"; "back"] "gemini" [])))
  = ["test_object_ref_front.png"; "test_object_ref_back.png"] /\
  img_outputPath <$>
    drop 0 (image_calls (snd (generateReferenceImages online "test object"
                                "./out/sword" ["front"] "gemini" [])))
  = ["_ref_front.png"].
Proof.
  split.
  - apply (proj1 (generateReferenceImages_output_paths online "test object"
                    "test_object.png" ["front"; "back"] "gemini" [])
                 "test_object" "png" eq_refl eq_refl).
    discriminate.
  - apply (proj1 (generateReferenceImages_output_paths online "test object"
                    "./out/sword" ["front"] "gemini" [])
                 EmptyString "/out/sword" eq_refl eq_refl).
    discriminate.
Defined.

(** X14. [generate3DModel] hands [generateReferenceImages] its output
    path without the extension. When what is left has no dot, as for
    [sword.glb] or [out/model.glb], there is nothing for the view suffix
    to replace: every view is generated at the same output path, the
    stripped one. *)
Theorem generate3DModel_references_share_one_path
    (w : World) (options : Obj) (tr : Trace) :
  let l := destructure options in
  let base := replace_ext (outputPath l) EmptyString in
  inputImagePaths l = [] ->
  truthy_str (prompt l) = true ->
  autoGenerateReferences l = true ->
  has_dot base = false ->
  exists calls,
    image_calls (snd (generate3DModel w options tr)) = image_calls tr ++ calls /\
    length calls = length (views_to_generate (l_variant l) (referenceViews l)) /\
    Forall (fun call => img_outputPath call = base) calls.
Proof.
  intros l base Hin Hprompt Hauto Hdot.
  rewrite (generate3DModel_image_calls w options tr Hin Hprompt Hauto).
  fold l base. eexists. split; [reflexivity|].
  split; [apply length_fmap|].
  apply Forall_fmap, Forall_forall. intros view _.
  cbn. apply replace_ext_no_dot. exact Hdot.
Qed.

Lemma generate3DModel_references_share_one_path_witness :
  exists calls,
    image_calls (snd (generate3DModel online
      {[ "prompt" := VStr "fantasy sword"; "outputPath" := VStr "out/sword.glb";
         "model" := VStr "hunyuan3d"; "variant" := VStr "multi" ]} []))
    = [] ++ calls /\
    length calls = 3%nat /\
    Forall (fun call => img_outputPath call = "out/sword") calls.
Proof.
  destruct (generate3DModel_references_share_one_path online
    {[ "prompt" := VStr "fantasy sword"; "outputPath" := VStr "out/sword.glb";
       "model" := VStr "hunyuan3d"; "variant" := VStr "multi" ]} [])
    as (calls & Hcalls & Hlen & Hpaths); try (vm_compute; reflexivity).
  exists calls. split; [exact Hcalls|].
  split; [rewrite Hlen; vm_compute; reflexivity|].
  vm_compute in Hpaths |- *. exact Hpaths.
Defined.

End ReferencePaths.

Section PartialReferences.
Local Open Scope string_scope.
Local Open Scope list_scope.

Lemma http_urls_network (s : Trace) : network_calls s = [] -> http_urls s = [].
Proof.
  induction s as [|ev s IH]; [reflexivity|].
  destruct ev; cbn; try discriminate; exact IH.
Qed.

(** The [finally] clause sends nothing. *)
Lemma cleanup_sends_nothing (w : World) flag refs tr :
  exists suffix,
    snd (cleanup w flag refs tr) = tr ++ suffix /\ http_urls suffix = [].
Proof.
  unfold cleanup. destruct (_ && _).
  - destruct (cleanup_each_run w refs tr) as (s & ans & Hs & _ & _ & Hn & _).
    exists s. rewrite Hs. auto using http_urls_network.
  - exists []. cbn. rewrite app_nil_r. auto.
Qed.

(** X15. [generateReferenceImages] tolerates a view that fails, the
    multi-view dispatcher of Hunyuan3D does not: when [generate3DModel]
    synthesizes the references for hunyuan3d with the variant [multi]
    and one or two files are saved, no request is sent and the call
    ends with the error of the dispatcher: that three images are
    required when the credential is set, that the credential is required
    when it is not, the credential being looked up first. *)
Theorem generate3DModel_hunyuan_multi_needs_three_references
    (w : World) (options : Obj) (tr : Trace) :
  let l := destructure options in
  let refs := fst (generate3DModel_try w l tr) in
  let run := generate3DModel w options tr in
  l_model l = "hunyuan3d" ->
  l_variant l = Some "multi" ->
  inputImagePaths l = [] ->
  truthy_str (prompt l) = true ->
  autoGenerateReferences l = true ->
  (0 < length refs < 3)%nat ->
  fst run
  = Throw (if truthy_str (FAL_AI_API_KEY w)
           then insufficient_views "Hunyuan3D Multi" (length refs)
           else "FAL_AI_API_KEY environment variable is required") /\
  http_urls (snd run) = http_urls tr.
Proof.
  intros l refs run Hmodel Hvariant Hin Hprompt Hauto Hlen.
  subst refs run.
  destruct (generate3DModel_try_auto w l tr Hin Hprompt Hauto)
    as (answers & s1 & Htry & _ & _ & Hq & _).
  cbv zeta in Htry. unfold generate3DModel. fold l.
  rewrite Htry in Hlen |- *. cbn [fst] in Hlen.
  set (refs := concat (saved_paths <$> answers)) in *.
  destruct refs as [|first rest] eqn:Hrefs; [cbn in Hlen; lia|].
  rewrite <- Hrefs in *.
  replace (length refs =? 0)%nat with false
    by (symmetry; apply Nat.eqb_neq; lia).
  assert (Hdispatch : dispatch w l refs refs (tr ++ s1)
            = (Throw (if truthy_str (FAL_AI_API_KEY w)
                      then insufficient_views "Hunyuan3D Multi" (length refs)
                      else "FAL_AI_API_KEY environment variable is required"),
               tr ++ s1)).
  { rewrite Hrefs. unfold dispatch. rewrite <- Hrefs.
    unfold actual_variant. rewrite Hmodel, Hvariant. cbn [or_else].
    cbn [String.eqb Ascii.eqb Bool.eqb]. unfold bind at 1.
    unfold hunyuan3DGenerateMulti, bind at 1.
    rewrite getFalAIKey_run.
    destruct (truthy_str (FAL_AI_API_KEY w)); [|reflexivity].
    cbn [m_imagePaths].
    replace (length refs <? 3)%nat with true
      by (symmetry; apply Nat.ltb_lt; lia).
    reflexivity. }
  rewrite Hdispatch.
  destruct (cleanup_sends_nothing w (cleanupReferences l) refs (tr ++ s1))
    as (s3 & Hs3 & Hn3).
  destruct (cleanup w _ _ _) as [r tr2]. cbn [fst snd] in Hs3 |- *. subst tr2.
  split; [reflexivity|].
  rewrite !http_urls_app, Hq, Hn3, !app_nil_r. reflexivity.
Qed.

(** The three default views, the back view failing: two references, and
    the error of the dispatcher, with the credential and without it. *)
Lemma generate3DModel_hunyuan_multi_needs_three_references_witness :
  fst (generate3DModel (world_with (Some "fal-key") ["back"])
         {[ "prompt" := VStr "fantasy sword"; "outputPath" := VStr "sword.glb";
            "model" := VStr "hunyuan3d"; "variant" := VStr "multi" ]} [])
  = Throw ("Hunyuan3D Multi requires at least 3 images "
           +:+ "(front, back, left views). Only 2 images provided.")
  /\ fst (generate3DModel (world_with None ["back"])
         {[ "prompt" := VStr "fantasy sword"; "outputPath" := VStr "sword.glb";
            "model" := VStr "hunyuan3d"; "variant" := VStr "multi" ]} [])
     = Throw "FAL_AI_API_KEY environment variable is required".
Proof.
  split.
  - refine (eq_trans (proj1
      (generate3DModel_hunyuan_multi_needs_three_references
         (world_with (Some "fal-key") ["back"])
         {[ "prompt" := VStr "fantasy sword"; "outputPath" := VStr "sword.glb";
            "model" := VStr "hunyuan3d"; "variant" := VStr "multi" ]} []
         _ _ _ _ _ _)) _); try (vm_compute; reflexivity).
    vm_compute. lia.
  - refine (eq_trans (proj1
      (generate3DModel_hunyuan_multi_needs_three_references
         (world_with None ["back"])
         {[ "prompt" := VStr "fantasy sword"; "outputPath" := VStr "sword.glb";
            "model" := VStr "hunyuan3d"; "variant" := VStr "multi" ]} []
         _ _ _ _ _ _)) _); try (vm_compute; reflexivity).
    vm_compute. lia.
Defined.

End PartialReferences.

(* ================================================================== *)
(** ** Validation, defaults and the smart entry point                  *)
(* ================================================================== *)

Section Validation.
Local Open Scope string_scope.
Local Open Scope list_scope.

Lemma mem_In s l : mem s l = true <-> In s l.
Proof.
  unfold mem. rewrite existsb_exists. split.
  - intros (x & Hx & He). apply String.eqb_eq in He. subst. exact Hx.
  - intros H. exists s. split; [exact H | apply String.eqb_refl].
Qed.

Lemma one_of_inv v l : one_of v l = true -> exists s, v = VStr s /\ In s l.
Proof.
  destruct v as [|b|s|a]; cbn; try discriminate.
  intros H. exists s. split; [reflexivity | apply mem_In, H].
Qed.

Lemma andb_negb_false a b : a && negb b = false <-> a = false \/ b = true.
Proof. destruct a, b; cbn; intuition discriminate. Qed.

(** What the validation accepts. *)
Lemma validate3DModelOptions_Ok (options : Obj) :
  validate3DModelOptions options = Ok tt <->
  (exists path, get options "outputPath" = VStr path /\ blank path = false) /\
  (get options "model" = VStr "trellis" \/
   get options "model" = VStr "hunyuan3d") /\
  (truthy (get options "variant") = false \/
   one_of (get options "variant")
     ["single"; "multi"; "single-turbo"; "multi-turbo"] = true) /\
  (truthy (get options "format") = false \/
   one_of (get options "format") ["glb"; "gltf"] = true) /\
  (get options "model" = VStr "trellis" ->
   get options "variant" = VUndefined \/
   exists v, get options "variant" = VStr v /\ includes v "turbo" = false) /\
  (absent_or_empty (get options "inputImagePaths") = false \/
   truthy (get options "prompt") = true).
Proof.
  unfold validate3DModelOptions. cbv zeta. split.
  - destruct (get options "outputPath") as [|[]|path|] eqn:Hp; try discriminate.
    destruct (blank path) eqn:Hb; try discriminate.
    destruct (one_of (get options "model") ["trellis"; "hunyuan3d"]) eqn:Hm;
      cbn [negb]; try discriminate.
    destruct (truthy (get options "variant") && negb _) eqn:Hv; try discriminate.
    destruct (truthy (get options "format") && negb _) eqn:Hf; try discriminate.
    apply andb_negb_false in Hv, Hf.
    apply one_of_inv in Hm as (m & Hm & Hin).
    intros H. split; [eauto|].
    split; [rewrite Hm; cbn in Hin; intuition congruence|].
    split; [exact Hv|]. split; [exact Hf|].
    rewrite Hm in H |- *.
    destruct (one_of (VStr m) ["trellis"]) eqn:Ht.
    + destruct (get options "variant") as [|b|v|a]; try discriminate.
      * destruct (absent_or_empty _ && negb _) eqn:Hi; try discriminate.
        apply andb_negb_false in Hi. auto.
      * destruct (includes v "turbo") eqn:Hturbo; try discriminate.
        destruct (absent_or_empty _ && negb _) eqn:Hi; try discriminate.
        apply andb_negb_false in Hi. eauto 6.
    + destruct (absent_or_empty _ && negb _) eqn:Hi; try discriminate.
      apply andb_negb_false in Hi. split; [|exact Hi].
      intros [= ->]. discriminate.
  - intros ((path & -> & ->) & Hm & Hv & Hf & Ht & Hi).
    apply andb_negb_false in Hv, Hf, Hi. rewrite Hv, Hf, Hi.
    destruct Hm as [Hm|Hm]; rewrite Hm in Ht |- *; cbn [one_of mem existsb
      String.eqb Ascii.eqb Bool.eqb andb orb negb].
    + destruct (Ht eq_refl) as [-> | (v & -> & ->)]; reflexivity.
    + reflexivity.
Qed.

(** X16. [validate3DModelOptions] accepts an option bag exactly when the
    output path is a string that is not blank, the model is trellis or
    hunyuan3d, the variant and the format are falsy or among the legal
    ones, a trellis request has no variant or one without [turbo], and
    there is an input image or a prompt. The order of the checks decides
    the message, not the verdict. *)
Theorem validate3DModelOptions_accepts_exactly (options : Obj) :
  validate3DModelOptions options = Ok tt <->
  (exists path, get options "outputPath" = VStr path /\ blank path = false) /\
  (get options "model" = VStr "trellis" \/
   get options "model" = VStr "hunyuan3d") /\
  (truthy (get options "variant") = false \/
   one_of (get options "variant")
     ["single"; "multi"; "single-turbo"; "multi-turbo"] = true) /\
  (truthy (get options "format") = false \/
   one_of (get options "format") ["glb"; "gltf"] = true) /\
  (get options "model" = VStr "trellis" ->
   get options "variant" = VUndefined \/
   exists v, get options "variant" = VStr v /\ includes v "turbo" = false) /\
  (absent_or_empty (get options "inputImagePaths") = false \/
   truthy (get options "prompt") = true).
Proof. apply validate3DModelOptions_Ok. Qed.

(** The valid options of the unit test. *)
Lemma validate3DModelOptions_accepts_exactly_witness :
  validate3DModelOptions
    {[ "prompt" := VStr "a fantasy sword"; "outputPath" := VStr "test_model.glb";
       "model" := VStr "trellis"; "variant" := VStr "multi";
       "format" := VStr "glb" ]}
  = Ok tt.
Proof.
  apply (proj2 (validate3DModelOptions_accepts_exactly _)).
  split; [eexists; split; vm_compute; reflexivity|].
  split; [left; vm_compute; reflexivity|].
  split; [right; vm_compute; reflexivity|].
  split; [right; vm_compute; reflexivity|].
  split; [intros _; right; exists "multi"; split; vm_compute; reflexivity|].
  right. vm_compute. reflexivity.
Defined.

End Validation.

Section ValidatedRequests.
Local Open Scope string_scope.
Local Open Scope list_scope.

Lemma get_str_VStr (o : Obj) k s : get o k = VStr s -> get_str o k = Some s.
Proof. unfold get_str. intros ->. reflexivity. Qed.

(** The variant that a validated request is dispatched with is one of the
    four. *)
Lemma validated_variant (options : Obj) (m : string) (n : nat) :
  truthy (get options "variant") = false \/
  one_of (get options "variant")
    ["single"; "multi"; "single-turbo"; "multi-turbo"] = true ->
  In (actual_variant (get_str options "variant") m n)
     ["single"; "multi"; "single-turbo"; "multi-turbo"].
Proof.
  unfold actual_variant, get_str, selectModelVariant.
  assert (Hdefault : In (if String.eqb m "trellis"
                         then if (n <=? 1)%nat then "single" else "multi"
                         else if (n <=? 1)%nat then "single" else "multi")
                        ["single"; "multi"; "single-turbo"; "multi-turbo"]).
  { destruct (String.eqb m "trellis"), (n <=? 1)%nat; cbn; auto. }
  intros [Hfalsy | Hlegal].
  - destruct (get options "variant") as [|b|s|a]; try exact Hdefault.
    cbn in Hfalsy. apply negb_false_iff in Hfalsy. cbn [or_else].
    rewrite Hfalsy. exact Hdefault.
  - apply one_of_inv in Hlegal as (s & -> & Hin). cbn [or_else].
    cbn in Hin. intuition subst; cbn; auto.
Qed.

(** X17. A request with input images that passed the validation is
    always handed to one of the six dispatchers: the switch of
    [generate3DModel] knows its model and its variant. Without a
    credential the call therefore ends with the error of the missing
    credential, the trace unchanged: the validation does not look at the
    credential. *)
Theorem validated_request_reaches_a_dispatcher
    (w : World) (options : Obj) (tr : Trace) :
  validate3DModelOptions options = Ok tt ->
  inputImagePaths (destructure options) <> [] ->
  truthy_str (FAL_AI_API_KEY w) = false ->
  generate3DModel w options tr
  = (Throw "FAL_AI_API_KEY environment variable is required", tr).
Proof.
  intros Hvalid Hin Hkey.
  apply validate3DModelOptions_Ok in Hvalid as (_ & Hm & Hv & _).
  rewrite generate3DModel_with_inputs by exact Hin.
  destruct (no_credential_stops w tr Hkey)
    as (H1 & H2 & H3 & H4 & H5 & H6 & _).
  set (l := destructure options) in *.
  destruct (inputImagePaths l) as [|first rest]; [congruence|].
  unfold dispatch, bind.
  pose proof (validated_variant options (l_model l) (length (first :: rest)) Hv)
    as Hlegal.
  change (get_str options "variant") with (l_variant l) in Hlegal.
  set (v := actual_variant (l_variant l) (l_model l) (length (first :: rest))) in *.
  clearbody v.
  assert (Hmodel : l_model l = "trellis" \/ l_model l = "hunyuan3d").
  { unfold l, destructure, l_model.
    destruct Hm as [Hm|Hm]; rewrite (get_str_VStr _ _ _ Hm); auto. }
  destruct Hmodel as [-> | ->].
  - cbn [String.eqb Ascii.eqb Bool.eqb].
    destruct (String.eqb v "single"); rewrite ?H1, ?H2; reflexivity.
  - cbn [String.eqb Ascii.eqb Bool.eqb].
    cbn in Hlegal. destruct Hlegal as [<- | [<- | [<- | [<- | []]]]];
      cbn [String.eqb Ascii.eqb Bool.eqb];
      rewrite ?H3, ?H4, ?H5, ?H6; reflexivity.
Qed.

Lemma validated_request_reaches_a_dispatcher_witness :
  generate3DModel no_credential
    {[ "inputImagePaths" := VArr ["front.png"];
       "outputPath" := VStr "out/model.glb";
       "model" := VStr "hunyuan3d"; "variant" := VStr "single-turbo" ]} []
  = (Throw "FAL_AI_API_KEY environment variable is required", []).
Proof.
  apply validated_request_reaches_a_dispatcher.
  - vm_compute. reflexivity.
  - vm_compute. discriminate.
  - reflexivity.
Defined.

End ValidatedRequests.

Section Defaults.
Local Open Scope string_scope.
Local Open Scope list_scope.

(** [getDefault3DOptions] as a comparison of strings. *)
Lemma getDefault3DOptions_cases (v : Value) :
  getDefault3DOptions v
  = if one_of v ["trellis"]
    then Ok (spread baseDefaults
               {[ "model" := VStr "trellis"; "variant" := VStr "multi" ]})
    else if one_of v ["hunyuan3d"]
    then Ok (spread baseDefaults
               {[ "model" := VStr "hunyuan3d"; "variant" := VStr "multi" ]})
    else Throw ("No default options available for model: " +:+ to_string v).
Proof.
  destruct v as [|b|s|l]; try reflexivity.
  unfold getDefault3DOptions, one_of, mem. cbn [existsb].
  repeat (destruct s as [|[b0 b1 b2 b3 b4 b5 b6 b7] s]; [try reflexivity|];
          destruct b0; try reflexivity; destruct b1; try reflexivity;
          destruct b2; try reflexivity; destruct b3; try reflexivity;
          destruct b4; try reflexivity; destruct b5; try reflexivity;
          destruct b6; try reflexivity; destruct b7; try reflexivity).
Qed.

Lemma getDefault3DOptions_Ok v defaults :
  getDefault3DOptions v = Ok defaults ->
  v = VStr "trellis" \/ v = VStr "hunyuan3d".
Proof.
  rewrite getDefault3DOptions_cases.
  destruct (one_of v ["trellis"]) eqn:Ht.
  - apply one_of_inv in Ht as (s & -> & [<- | []]). auto.
  - destruct (one_of v ["hunyuan3d"]) eqn:Hh; [|discriminate].
    apply one_of_inv in Hh as (s & -> & [<- | []]). auto.
Qed.

Lemma getDefault3DOptions_Throw v :
  v <> VStr "trellis" -> v <> VStr "hunyuan3d" ->
  getDefault3DOptions v
  = Throw ("No default options available for model: " +:+ to_string v).
Proof.
  intros Ht Hh. rewrite getDefault3DOptions_cases.
  destruct (one_of v ["trellis"]) eqn:H1;
    [apply one_of_inv in H1 as (s & -> & [<- | []]); congruence|].
  destruct (one_of v ["hunyuan3d"]) eqn:H2;
    [apply one_of_inv in H2 as (s & -> & [<- | []]); congruence|].
  reflexivity.
Qed.

(** A merge that succeeds keeps the model of the options. *)
Lemma merge3DWithDefaults_Ok options merged :
  merge3DWithDefaults options = Ok merged ->
  exists defaults,
    getDefault3DOptions (get options "model") = Ok defaults /\
    merged = spread defaults options /\
    get merged "model" = get options "model" /\
    (get options "model" = VStr "trellis" \/
     get options "model" = VStr "hunyuan3d").
Proof.
  unfold merge3DWithDefaults.
  destruct (getDefault3DOptions (get options "model")) as [defaults|e] eqn:Hd;
    [|discriminate].
  intros [= <-]. exists defaults.
  pose proof (getDefault3DOptions_Ok _ _ Hd) as Hm.
  repeat (split; [first [reflexivity | assumption]|]).
  split; [|exact Hm].
  destruct Hm as [Hm|Hm]; rewrite Hm;
    apply get_spread_present, get_VStr, Hm.
Qed.

(** X18. Merging with the defaults twice is merging once: the merge
    keeps the model, so the second merge finds the same defaults, and
    every default is already there. *)
Theorem merge3DWithDefaults_idempotent (options merged : Obj) :
  merge3DWithDefaults options = Ok merged ->
  merge3DWithDefaults merged = Ok merged.
Proof.
  intros H.
  destruct (merge3DWithDefaults_Ok _ _ H) as (defaults & Hd & -> & Hm & _).
  unfold merge3DWithDefaults. rewrite Hm, Hd. f_equal.
  unfold spread. rewrite <- (assoc_L (∪)), (idemp_L (∪)). reflexivity.
Qed.

Lemma merge3DWithDefaults_idempotent_witness :
  exists merged,
    merge3DWithDefaults
      {[ "outputPath" := VStr "model.glb"; "model" := VStr "hunyuan3d";
         "format" := VStr "gltf" ]} = Ok merged /\
    merge3DWithDefaults merged = Ok merged.
Proof.
  eexists. split; [reflexivity|].
  apply (merge3DWithDefaults_idempotent
           {[ "outputPath" := VStr "model.glb"; "model" := VStr "hunyuan3d";
              "format" := VStr "gltf" ]}).
  reflexivity.
Defined.

End Defaults.

Section Smart.
Local Open Scope string_scope.
Local Open Scope list_scope.

(** X19. Through [generate3DModelSmart] a model other than trellis and
    hunyuan3d is rejected by the merge with the defaults, with the error
    that no defaults are available and the trace unchanged; the
    validation runs on merged options only, whose model is one of the
    two, so that its own error for the model is never the outcome of
    the validation there. *)
Theorem generate3DModelSmart_rejects_unknown_model
    (w : World) (prompt outputPath model : string) (options : Obj) (tr : Trace) :
  let request := smart_request prompt outputPath model options in
  (get request "model" <> VStr "trellis" ->
   get request "model" <> VStr "hunyuan3d" ->
   generate3DModelSmart w prompt outputPath model options tr
   = (Throw ("No default options available for model: "
             +:+ to_string (get request "model")), tr)) /\
  (forall merged,
     merge3DWithDefaults request = Ok merged ->
     validate3DModelOptions merged
     <> Throw "Model must be one of: trellis, hunyuan3d").
Proof.
  intros request. split.
  - intros Ht Hh. unfold generate3DModelSmart. fold request.
    unfold merge3DWithDefaults.
    rewrite (getDefault3DOptions_Throw _ Ht Hh). reflexivity.
  - intros merged Hmerge.
    destruct (merge3DWithDefaults_Ok _ _ Hmerge) as (_ & _ & _ & Hsame & Hm).
    assert (Hlegal : one_of (get merged "model") ["trellis"; "hunyuan3d"] = true)
      by (rewrite Hsame; destruct Hm as [-> | ->]; reflexivity).
    unfold validate3DModelOptions. cbv zeta. rewrite Hlegal. cbn [negb].
    destruct (get merged "outputPath") as [|[]|path|]; try discriminate.
    destruct (blank path); try discriminate.
    destruct (truthy _ && negb _); try discriminate.
    destruct (truthy _ && negb _); try discriminate.
    destruct (if one_of _ _ then _ else _) as [[]|e] eqn:Hturbo; try discriminate.
    + destruct (absent_or_empty _ && negb _); discriminate.
    + destruct (one_of (get merged "model") ["trellis"]); [|discriminate].
      destruct (get merged "variant"); try discriminate;
        injection Hturbo as <-; discriminate.
Qed.

(** The model of the unit test for the defaults, through the smart entry
    point. *)
Lemma generate3DModelSmart_rejects_unknown_model_witness :
  generate3DModelSmart online "a sword" "model.glb" "invalid" ∅ []
  = (Throw "No default options available for model: invalid", []).
Proof.
  refine (proj1 (generate3DModelSmart_rejects_unknown_model online
                   "a sword" "model.glb" "invalid" ∅ []) _ _);
    vm_compute; discriminate.
Defined.

(** The object literal of [generate3DModelSmart], key by key. *)
Lemma smart_request_lookup prompt outputPath model (options : Obj) k :
  smart_request prompt outputPath model options !! k
  = match options !! k with
    | Some v => Some v
    | None =>
        if decide (k = "prompt") then Some (VStr prompt)
        else if decide (k = "outputPath") then Some (VStr outputPath)
        else if decide (k = "model") then Some (VStr model)
        else if decide (k = "variant") then Some (VStr "multi")
        else None
    end.
Proof.
  unfold smart_request, spread. rewrite lookup_union.
  destruct (options !! k) as [v|]; [destruct (_ !! k); reflexivity|].
  rewrite (left_id_L None _).
  repeat (destruct (decide _) as [->|?];
          [rewrite ?lookup_insert_eq; try reflexivity
          |rewrite lookup_insert_ne by congruence]).
  destruct (decide (k = "variant")) as [->|?].
  - apply lookup_singleton_eq.
  - apply lookup_singleton_ne. congruence.
Qed.

(** X20. The options of [generate3DModelSmart] are spread over its
    positional arguments: a prompt, an output path or a model among the
    options replaces the argument of that name, and two calls that
    differ only in arguments that the options replace are the same
    call. *)
Theorem generate3DModelSmart_options_replace_arguments
    (w : World) (prompt outputPath model prompt' outputPath' model' : string)
    (options : Obj) :
  is_Some (options !! "prompt") \/ prompt = prompt' ->
  is_Some (options !! "outputPath") \/ outputPath = outputPath' ->
  is_Some (options !! "model") \/ model = model' ->
  generate3DModelSmart w prompt outputPath model options
  = generate3DModelSmart w prompt' outputPath' model' options.
Proof.
  intros Hp Ho Hm. unfold generate3DModelSmart.
  replace (smart_request prompt' outputPath' model' options)
    with (smart_request prompt outputPath model options); [reflexivity|].
  apply map_eq. intros k. rewrite !smart_request_lookup.
  destruct (options !! k) as [v|] eqn:Hk; [reflexivity|].
  repeat (destruct (decide _) as [->|?]; [|]); try reflexivity.
  - destruct Hp as [[v Hv] | ->]; congruence.
  - destruct Ho as [[v Hv] | ->]; congruence.
  - destruct Hm as [[v Hv] | ->]; congruence.
Qed.

(** The model among the options wins over the positional one: the
    request for hunyuan3d below is a request for trellis. *)
Lemma generate3DModelSmart_options_replace_arguments_witness :
  generate3DModelSmart online "a sword" "model.glb" "hunyuan3d"
    {[ "model" := VStr "trellis" ]}
  = generate3DModelSmart online "a sword" "model.glb" "trellis"
      {[ "model" := VStr "trellis" ]}.
Proof.
  apply generate3DModelSmart_options_replace_arguments.
  - right. reflexivity.
  - right. reflexivity.
  - left. eexists. vm_compute. reflexivity.
Defined.

End Smart.

Section Tables.
Local Open Scope string_scope.
Local Open Scope list_scope.

Lemma turbo_free (v : string) :
  In v ["single"; "multi"; "single-turbo"; "multi-turbo"] ->
  includes v "turbo" = false <-> In v ["single"; "multi"].
Proof.
  cbn. intros [<- | [<- | [<- | [<- | []]]]]; cbn;
    intuition (try discriminate; auto).
Qed.

(** X21. The validation and the selector agree with the table
    [AVAILABLE_VARIANTS] on trellis and hunyuan3d: of two option bags
    that differ only in model and variant, the validation accepts the one
    whose variant the table lists for its model, and [selectModelVariant]
    only ever returns a listed variant. The model hunyuan-world, which
    the table lists as well, is not accepted. *)
Theorem validation_agrees_with_AVAILABLE_VARIANTS
    (options : Obj) (m v : string) :
  get options "model" = VStr m ->
  get options "variant" = VStr v ->
  v <> EmptyString ->
  (exists path, get options "outputPath" = VStr path /\ blank path = false) ->
  truthy (get options "format") = false \/
  one_of (get options "format") ["glb"; "gltf"] = true ->
  absent_or_empty (get options "inputImagePaths") = false \/
  truthy (get options "prompt") = true ->
  (validate3DModelOptions options = Ok tt <->
   (m = "trellis" \/ m = "hunyuan3d") /\
   exists variants, AVAILABLE_VARIANTS m = Some variants /\ In v variants) /\
  (forall n preferTurbo,
     m = "trellis" \/ m = "hunyuan3d" ->
     exists variants,
       AVAILABLE_VARIANTS m = Some variants /\
       In (selectModelVariant m n preferTurbo) variants).
Proof.
  intros Hm Hv Hne Hpath Hformat Hinput. split.
  - rewrite validate3DModelOptions_Ok, Hm, Hv. split.
    + intros (_ & Hmodel & Hvariant & _ & Hturbo & _).
      assert (Hlegal : In v ["single"; "multi"; "single-turbo"; "multi-turbo"]).
      { destruct Hvariant as [Hfalsy | Hlegal].
        - cbn in Hfalsy. apply negb_false_iff, String.eqb_eq in Hfalsy.
          congruence.
        - apply mem_In. exact Hlegal. }
      destruct Hmodel as [[= ->] | [= ->]].
      * split; [auto|]. eexists. split; [reflexivity|].
        apply (turbo_free v Hlegal).
        destruct (Hturbo eq_refl) as [Hu | (v' & [= <-] & Hfree)];
          [discriminate | exact Hfree].
      * split; [auto|]. eexists. split; [reflexivity | exact Hlegal].
    + intros ([-> | ->] & variants & [= <-] & Hin).
      * split; [exact Hpath|]. split; [auto|].
        split; [right; apply mem_In; cbn in Hin |- *; tauto|].
        split; [exact Hformat|]. split; [|exact Hinput].
        intros _. right. exists v. split; [reflexivity|].
        apply turbo_free; [cbn in Hin |- *; tauto | exact Hin].
      * split; [exact Hpath|]. split; [auto|].
        split; [right; apply mem_In; exact Hin|].
        split; [exact Hformat|]. split; [discriminate | exact Hinput].
  - intros n preferTurbo [-> | ->]; eexists; (split; [reflexivity|]);
      unfold selectModelVariant; cbn [String.eqb Ascii.eqb Bool.eqb];
      destruct preferTurbo, (n <=? 1)%nat; cbn; auto.
Qed.

(** The turbo variant is listed for hunyuan3d and not for trellis, and
    hunyuan-world is listed and not accepted. *)
Lemma validation_agrees_with_AVAILABLE_VARIANTS_witness :
  validate3DModelOptions
    {[ "outputPath" := VStr "model.glb"; "prompt" := VStr "a sword";
       "model" := VStr "hunyuan3d"; "variant" := VStr "single-turbo" ]}
  = Ok tt /\
  validate3DModelOptions
    {[ "outputPath" := VStr "model.glb"; "prompt" := VStr "a sword";
       "model" := VStr "hunyuan-world"; "variant" := VStr "single" ]}
  <> Ok tt.
Proof.
  split.
  - refine (proj2 (proj1 (validation_agrees_with_AVAILABLE_VARIANTS
      {[ "outputPath" := VStr "model.glb"; "prompt" := VStr "a sword";
         "model" := VStr "hunyuan3d"; "variant" := VStr "single-turbo" ]}
      "hunyuan3d" "single-turbo" _ _ _ _ _ _)) _).
    + vm_compute. reflexivity.
    + vm_compute. reflexivity.
    + discriminate.
    + eexists. split; vm_compute; reflexivity.
    + left. vm_compute. reflexivity.
    + right. vm_compute. reflexivity.
    + split; [auto|]. eexists. split; [reflexivity|]. cbn. auto.
  - intros H.
    refine (match proj1 (proj1 (validation_agrees_with_AVAILABLE_VARIANTS
      {[ "outputPath" := VStr "model.glb"; "prompt" := VStr "a sword";
         "model" := VStr "hunyuan-world"; "variant" := VStr "single" ]}
      "hunyuan-world" "single" _ _ _ _ _ _)) H with
            | conj (or_introl Hm) _ => _
            | conj (or_intror Hm) _ => _
            end); try discriminate Hm.
    + vm_compute. reflexivity.
    + vm_compute. reflexivity.
    + discriminate.
    + eexists. split; vm_compute; reflexivity.
    + left. vm_compute. reflexivity.
    + right. vm_compute. reflexivity.
Defined.

End Tables.

Section SmartDefaults.
Local Open Scope string_scope.
Local Open Scope list_scope.

(** The options that [generate3DModelSmart] builds when it is given no
    options: its three arguments, the variant [multi] and the defaults. *)
Lemma smart_default_options prompt outputPath model :
  model = "trellis" \/ model = "hunyuan3d" ->
  exists fullOptions,
    merge3DWithDefaults (smart_request prompt outputPath model ∅)
    = Ok fullOptions /\
    get fullOptions "prompt" = VStr prompt /\
    get fullOptions "outputPath" = VStr outputPath /\
    get fullOptions "model" = VStr model /\
    get fullOptions "variant" = VStr "multi" /\
    get fullOptions "format" = VStr "glb" /\
    get fullOptions "inputImagePaths" = VUndefined /\
    get fullOptions "autoGenerateReferences" = VBool true /\
    get fullOptions "referenceModel" = VStr "gemini" /\
    get fullOptions "referenceViews" = VArr ["front"; "back"; "top"] /\
    get fullOptions "cleanupReferences" = VBool true.
Proof.
  intros Hmodel.
  set (request := smart_request prompt outputPath model ∅).
  assert (Hlookup : forall k,
    request !! k
    = if decide (k = "prompt") then Some (VStr prompt)
      else if decide (k = "outputPath") then Some (VStr outputPath)
      else if decide (k = "model") then Some (VStr model)
      else if decide (k = "variant") then Some (VStr "multi")
      else None).
  { intros k. unfold request. rewrite smart_request_lookup, lookup_empty.
    reflexivity. }
  assert (Hm : get request "model" = VStr model)
    by (apply get_Some; rewrite Hlookup; reflexivity).
  assert (Hdefaults : exists defaults,
    getDefault3DOptions (VStr model) = Ok defaults /\
    get defaults "format" = VStr "glb" /\
    get defaults "inputImagePaths" = VUndefined /\
    get defaults "autoGenerateReferences" = VBool true /\
    get defaults "referenceModel" = VStr "gemini" /\
    get defaults "referenceViews" = VArr ["front"; "back"; "top"] /\
    get defaults "cleanupReferences" = VBool true).
  { destruct Hmodel as [-> | ->]; eexists; (split; [reflexivity|]);
      repeat split; vm_compute; reflexivity. }
  destruct Hdefaults as (defaults & Hd & Hformat & Hinput & Hauto & Hrm & Hrv & Hcl).
  exists (spread defaults request).
  unfold merge3DWithDefaults. rewrite Hm, Hd. split; [reflexivity|].
  repeat (split; [apply get_spread_present; rewrite Hlookup; reflexivity|]).
  repeat split;
    (rewrite get_spread_absent by (rewrite Hlookup; reflexivity); assumption).
Qed.

(** X22. With a prompt, an output path that is not blank, one of the
    two models and no options, [generate3DModelSmart] passes its own
    validation and asks for three reference images, one call each for
    the front, the back and the top view, with the image model gemini;
    these are its only image generation calls. *)
Theorem generate3DModelSmart_default_references
    (w : World) (prompt outputPath model : string) (tr : Trace) :
  prompt <> EmptyString ->
  blank outputPath = false ->
  model = "trellis" \/ model = "hunyuan3d" ->
  image_calls (snd (generate3DModelSmart w prompt outputPath model ∅ tr))
  = image_calls tr ++
    [ image_args prompt (replace_ext outputPath EmptyString) "front" "gemini";
      image_args prompt (replace_ext outputPath EmptyString) "back" "gemini";
      image_args prompt (replace_ext outputPath EmptyString) "top" "gemini" ].
Proof.
  intros Hprompt Hblank Hmodel.
  destruct (smart_default_options prompt outputPath model Hmodel)
    as (full & Hmerge & Hp & Ho & Hm & Hv & Hf & Hi & Ha & Hrm & Hrv & Hcl).
  assert (Htruthy : negb (String.eqb prompt EmptyString) = true)
    by (apply negb_true_iff, String.eqb_neq; exact Hprompt).
  assert (Hvalid : validate3DModelOptions full = Ok tt).
  { apply validate3DModelOptions_Ok. rewrite Hp, Ho, Hm, Hv, Hf, Hi.
    split; [eauto|]. split; [destruct Hmodel as [-> | ->]; auto|].
    split; [right; reflexivity|]. split; [right; reflexivity|].
    split; [intros _; right; exists "multi"; split; reflexivity|].
    right. exact Htruthy. }
  unfold generate3DModelSmart. rewrite Hmerge.
  unfold bind at 1, lift at 1. unfold bind at 1, lift. rewrite Hvalid.
  rewrite generate3DModel_image_calls.
  - unfold destructure, get_str, get_arr, get_bool.
    rewrite Hp, Ho, Hv, Hrm, Hrv. reflexivity.
  - unfold destructure, get_arr. rewrite Hi. reflexivity.
  - unfold destructure, get_str. rewrite Hp. exact Htruthy.
  - unfold destructure, get_bool. rewrite Ha. reflexivity.
Qed.

Lemma generate3DModelSmart_default_references_witness :
  image_calls (snd (generate3DModelSmart online "fantasy sword" "sword.glb"
                      "hunyuan3d" ∅ []))
  = [] ++
    [ image_args "fantasy sword" (replace_ext "sword.glb" EmptyString)
        "front" "gemini";
      image_args "fantasy sword" (replace_ext "sword.glb" EmptyString)
        "back" "gemini";
      image_args "fantasy sword" (replace_ext "sword.glb" EmptyString)
        "top" "gemini" ].
Proof.
  apply (generate3DModelSmart_default_references online "fantasy sword"
           "sword.glb" "hunyuan3d" []);
    [discriminate | reflexivity | right; reflexivity].
Defined.

End SmartDefaults.

(* ================================================================== *)
(** ** Data uris: what the validator accepts, what is stripped         *)
(* ================================================================== *)

Section DataUris.
Local Open Scope string_scope.
Local Open Scope list_scope.

Lemma append_assoc (a b c : string) : (a +:+ b) +:+ c = a +:+ b +:+ c.
Proof.
  induction a as [|x a IH]; [reflexivity|].
  rewrite !append_cons, IH. reflexivity.
Qed.

Lemma append_nil_r (a : string) : a +:+ EmptyString = a.
Proof.
  induction a as [|x a IH]; [reflexivity|]. rewrite append_cons, IH. reflexivity.
Qed.

Lemma strip_prefix_app p s : strip_prefix p (p +:+ s) = Some s.
Proof.
  induction p as [|a p IH]; [destruct s; reflexivity|].
  rewrite append_cons. cbn [strip_prefix]. rewrite Ascii.eqb_refl. exact IH.
Qed.

Lemma strip_prefix_Some p : forall s r, strip_prefix p s = Some r -> s = p +:+ r.
Proof.
  induction p as [|a p IH]; intros s r.
  - destruct s; cbn; intros [= <-]; reflexivity.
  - destruct s as [|b s]; cbn [strip_prefix]; [discriminate|].
    destruct (Ascii.eqb_spec a b) as [<-|]; [|discriminate].
    intros H. rewrite append_cons, (IH _ _ H). reflexivity.
Qed.

(** What [span] takes is of the class, and what it leaves does not start
    with a character of the class. *)
Lemma span_spec class s :
  forall taken others, span class s = (taken, others) ->
  s = taken +:+ others /\ all_chars class taken = true /\
  span class others = (EmptyString, others).
Proof.
  induction s as [|c s IH]; intros taken others; cbn [span].
  - intros [= <- <-]. auto.
  - destruct (class c) eqn:Hc.
    + destruct (span class s) as [t o] eqn:Hs. intros [= <- <-].
      destruct (IH _ _ eq_refl) as (-> & Ht & Ho).
      rewrite append_cons. cbn [all_chars]. rewrite Hc, Ht. auto.
    + intros [= <- <-]. cbn [span all_chars]. rewrite Hc. auto.
Qed.

Lemma span_app class taken others :
  all_chars class taken = true ->
  span class others = (EmptyString, others) ->
  span class (taken +:+ others) = (taken, others).
Proof.
  intros Ht Ho. induction taken as [|c t IH]; [exact Ho|].
  cbn [all_chars] in Ht. apply andb_true_iff in Ht as [Hc Ht].
  rewrite append_cons. cbn [span]. rewrite Hc, (IH Ht). reflexivity.
Qed.

Lemma padding_not_taken padding :
  In padding [EmptyString; "="; "=="] ->
  span base64_char padding = (EmptyString, padding).
Proof. cbn. intros [<- | [<- | [<- | []]]]; reflexivity. Qed.

(** The payload of the validator: a body of the alphabet that is not
    empty, and the padding. *)
Lemma base64_payload_true payload :
  base64_payload payload = true <->
  exists body padding,
    payload = body +:+ padding /\ body <> EmptyString /\
    all_chars base64_char body = true /\
    In padding [EmptyString; "="; "=="].
Proof.
  unfold base64_payload. split.
  - destruct (span base64_char payload) as [body padding] eqn:Hs.
    intros H. apply andb_true_iff in H as [Hne Hp].
    apply negb_true_iff, String.eqb_neq in Hne. apply mem_In in Hp.
    destruct (span_spec _ _ _ _ Hs) as (-> & Hb & _). eauto 7.
  - intros (body & padding & -> & Hne & Hb & Hp).
    rewrite (span_app _ _ _ Hb (padding_not_taken _ Hp)).
    apply andb_true_iff. split.
    + apply negb_true_iff, String.eqb_neq. exact Hne.
    + apply mem_In. exact Hp.
Qed.

(** X23. [validateBase64ImageURI] accepts exactly the texts
    [data:image/<subtype>;base64,<body><padding>] with a subtype among
    png, jpg, jpeg and webp, a body of one or more characters of the
    base64 alphabet and a padding of at most two [=]: nothing before,
    nothing after, no other subtype, no empty body. *)
Theorem validateBase64ImageURI_accepts_exactly (uri : string) :
  validateBase64ImageURI uri = true <->
  exists subtype body padding,
    uri = "data:image/" +:+ subtype +:+ ";base64," +:+ body +:+ padding /\
    In subtype ["png"; "jpg"; "jpeg"; "webp"] /\
    body <> EmptyString /\
    all_chars base64_char body = true /\
    In padding [EmptyString; "="; "=="].
Proof.
  unfold validateBase64ImageURI. split.
  - destruct (strip_prefix "data:image/" uri) as [rest|] eqn:Hrest;
      [|discriminate].
    apply strip_prefix_Some in Hrest. subst uri.
    intros H. apply existsb_exists in H as (subtype & Hin & H).
    destruct (strip_prefix (subtype +:+ ";base64,") rest) as [payload|] eqn:Hp;
      [|discriminate].
    apply strip_prefix_Some in Hp. subst rest.
    apply base64_payload_true in H as (body & padding & -> & Hne & Hb & Hpad).
    exists subtype, body, padding. rewrite append_assoc. auto.
  - intros (subtype & body & padding & -> & Hin & Hne & Hb & Hpad).
    rewrite strip_prefix_app. apply existsb_exists.
    exists subtype. split; [exact Hin|].
    rewrite <- append_assoc, strip_prefix_app.
    apply base64_payload_true. eauto 7.
Qed.

Lemma validate_built_uri b :
  validateBase64ImageURI ("data:image/png;base64," +:+ b) = base64_payload b.
Proof.
  unfold validateBase64ImageURI.
  change ("data:image/png;base64," +:+ b)
    with ("data:image/" +:+ ("png" +:+ ";base64,") +:+ b).
  rewrite strip_prefix_app. cbn [existsb].
  rewrite strip_prefix_app.
  change (strip_prefix ("jpg" +:+ ";base64,") (("png" +:+ ";base64,") +:+ b))
    with (@None string).
  change (strip_prefix ("jpeg" +:+ ";base64,") (("png" +:+ ";base64,") +:+ b))
    with (@None string).
  change (strip_prefix ("webp" +:+ ";base64,") (("png" +:+ ";base64,") +:+ b))
    with (@None string).
  rewrite !orb_false_r. reflexivity.
Qed.

Lemma strip_built_uri b : strip_data_url ("data:image/png;base64," +:+ b) = b.
Proof. reflexivity. Qed.

(** X24. The uris that [convertPathsToBase64URIs] returns, and those
    the dispatchers build from file names, lose exactly their prefix in
    [saveBase64Image]: what is left is the base64 text of the file the
    uri was made from. *)
Theorem built_uris_strip_to_file_content
    (w : World) (paths uris : list string) (tr tr' : Trace) :
  (convertPathsToBase64URIs w paths tr = (Ok uris, tr') ->
   Forall2 (fun p u => readFileBase64 w p = Ok (strip_data_url u)) paths uris) /\
  (toImageUris w paths tr = (Ok uris, tr') ->
   Forall2 (fun p u => startsWith p "data:" = false ->
                       readFileBase64 w p = Ok (strip_data_url u)) paths uris).
Proof.
  split; intros H.
  - apply convertPathsToBase64URIs_from_ok in H as (_ & us & -> & HF).
    cbn [app]. eapply Forall2_impl; [exact HF|].
    intros p u (b & Hb & ->). rewrite strip_built_uri. exact Hb.
  - apply toImageUris_ok in H as [_ HF].
    eapply Forall2_impl; [exact HF|].
    intros p u [[Hs _] | (_ & b & Hb & ->)] Hs'; [congruence|].
    rewrite strip_built_uri. exact Hb.
Qed.

Lemma built_uris_strip_to_file_content_witness :
  Forall2 (fun p u => readFileBase64 online p = Ok (strip_data_url u))
          ["refs/front.jpg"] ["data:image/png;base64,QUJD"].
Proof.
  exact (proj1 (built_uris_strip_to_file_content online
                  ["refs/front.jpg"] ["data:image/png;base64,QUJD"] [] [])
               eq_refl).
Defined.

(** X25. A uri that [convertPathsToBase64URIs] returns passes
    [validateBase64ImageURI] exactly when the base64 text of the file is
    a body of the alphabet that is not empty, followed by at most two
    [=]. The uri of an empty file is [data:image/png;base64,] and is
    rejected. *)
Theorem built_uris_validate_by_content
    (w : World) (paths uris : list string) (tr tr' : Trace) :
  convertPathsToBase64URIs w paths tr = (Ok uris, tr') ->
  Forall2 (fun p u =>
             exists b,
               readFileBase64 w p = Ok b /\
               (validateBase64ImageURI u = true <->
                exists body padding,
                  b = body +:+ padding /\ body <> EmptyString /\
                  all_chars base64_char body = true /\
                  In padding [EmptyString; "="; "=="]) /\
               (b = EmptyString -> validateBase64ImageURI u = false))
          paths uris.
Proof.
  intros H.
  apply convertPathsToBase64URIs_from_ok in H as (_ & us & -> & HF).
  cbn [app]. eapply Forall2_impl; [exact HF|].
  intros p u (b & Hb & ->). exists b. split; [exact Hb|].
  rewrite validate_built_uri. split; [apply base64_payload_true|].
  intros ->. reflexivity.
Qed.

(** A file with content and an empty file. *)
Lemma built_uris_validate_by_content_witness :
  validateBase64ImageURI "data:image/png;base64,QUJD" = true /\
  exists u,
    fst (convertPathsToBase64URIs empty_files ["refs/empty.png"] []) = Ok [u] /\
    validateBase64ImageURI u = false.
Proof.
  split.
  - pose proof (built_uris_validate_by_content online ["refs/front.jpg"]
                  ["data:image/png;base64,QUJD"] [] [] eq_refl) as HF.
    inversion HF as [|? ? ? ? (b & Hb & Hiff & _) _]; subst.
    apply Hiff. injection Hb as <-. exists "QUJD", EmptyString.
    repeat split; [discriminate | left; reflexivity].
  - eexists. split; [reflexivity|].
    pose proof (built_uris_validate_by_content empty_files ["refs/empty.png"]
                  ["data:image/png;base64,"] [] [] eq_refl) as HF.
    inversion HF as [|? ? ? ? (b & Hb & _ & Hempty) _]; subst.
    apply Hempty. injection Hb as <-. reflexivity.
Defined.

End DataUris.

(* ================================================================== *)
(** ** [makeHTTPRequest]: one curl process, the temporary body file    *)
(* ================================================================== *)

Section HttpRequest.
Import System.
Local Open Scope string_scope.
Local Open Scope list_scope.
Variable h : Host.

Lemma executed_app (a b : Calls) : executed (a ++ b) = executed a ++ executed b.
Proof. unfold executed. apply omap_app. Qed.

Lemma written_app (a b : Calls) : written (a ++ b) = written a ++ written b.
Proof. unfold written. apply omap_app. Qed.

Lemma unlinked_app (a b : Calls) : unlinked (a ++ b) = unlinked a ++ unlinked b.
Proof. unfold unlinked. apply omap_app. Qed.

Lemma startsWith_app p e : startsWith (p +:+ e) p = true.
Proof.
  unfold startsWith. induction p as [|a p IH]; [destruct e; reflexivity|].
  rewrite append_cons. cbn [String.prefix].
  destruct (ascii_dec a a); [exact IH | congruence].
Qed.

(** The end of [makeHTTPRequest] without a temporary file. *)
Lemma request_run args tr :
  request h args tr
  = (match execFile h tr "curl" args with
     | Ok stdout =>
         match JSON_parse h stdout with
         | Ok response => Ok response
         | Throw e => Throw ("HTTP request failed: " +:+ e)
         end
     | Throw e => Throw ("HTTP request failed: " +:+ e)
     end, tr ++ [Exec "curl" args]).
Proof.
  unfold request, try_catch, bind, curl, perform, lift, throw.
  destruct (execFile h tr "curl" args) as [stdout|e]; [|reflexivity].
  destruct (JSON_parse h stdout); reflexivity.
Qed.

(** X26. Whatever happens, [makeHTTPRequest] starts at most one process:
    curl, with the method, the address and one [-H] per header, in
    order, before anything else. Without a body, or with the method GET,
    that is the whole call and no body is sent. If a file is written, it
    is a file named [/tmp/fal_request_...] that holds the JSON text of
    the body, and once curl has run its deletion is attempted; no other
    file is deleted. When no file was written, an error of the call
    starts with [HTTP request failed: ]. *)
Theorem makeHTTPRequest_protocol
    (url method : string) (headers : list (string * string))
    (body : option Body) (tr : Calls) :
  let run := makeHTTPRequest h url method headers body tr in
  exists suffix,
    snd run = tr ++ suffix /\
    (executed suffix = [] \/
     exists data,
       executed suffix = [("curl", curl_args url method headers ++ data)]) /\
    (body = None \/ method = "GET" ->
     suffix = [Exec "curl" (curl_args url method headers)]) /\
    (forall file content, In (file, content) (written suffix) ->
       startsWith file "/tmp/fal_request_" = true /\
       (exists b, body = Some b /\ content = JSON_stringify h b) /\
       (executed suffix <> [] -> In file (unlinked suffix))) /\
    (forall file, In file (unlinked suffix) ->
       exists content, In (file, content) (written suffix)) /\
    (written suffix = [] ->
     forall e, fst run = Throw e ->
       startsWith e "HTTP request failed: " = true).
Proof.
  intros run. subst run. unfold makeHTTPRequest.
  assert (Hdirect : forall data,
    (body = None \/ method = "GET" -> data = []) ->
    let run := request h (curl_args url method headers ++ data) tr in
    exists suffix,
      snd run = tr ++ suffix /\
      (executed suffix = [] \/
       exists data,
         executed suffix = [("curl", curl_args url method headers ++ data)]) /\
      (body = None \/ method = "GET" ->
       suffix = [Exec "curl" (curl_args url method headers)]) /\
      (forall file content, In (file, content) (written suffix) ->
         startsWith file "/tmp/fal_request_" = true /\
         (exists b, body = Some b /\ content = JSON_stringify h b) /\
         (executed suffix <> [] -> In file (unlinked suffix))) /\
      (forall file, In file (unlinked suffix) ->
         exists content, In (file, content) (written suffix)) /\
      (written suffix = [] ->
       forall e, fst run = Throw e ->
         startsWith e "HTTP request failed: " = true)).
  { intros data Hdata run. subst run. rewrite request_run. cbn [fst snd].
    eexists. split; [reflexivity|].
    split; [right; exists data; reflexivity|].
    split; [intros Hno; rewrite (Hdata Hno), app_nil_r; reflexivity|].
    split; [intros file content []|]. split; [intros file []|].
    intros _ e.
    destruct (execFile h tr "curl" _) as [stdout|e'];
      [destruct (JSON_parse h stdout); [discriminate|]|];
      intros [= <-]; apply startsWith_app. }
  destruct body as [b|].
  2:{ replace (request h (curl_args url method headers))
        with (request h (curl_args url method headers ++ []))
        by (rewrite app_nil_r; reflexivity).
      apply Hdirect. reflexivity. }
  destruct (String.eqb_spec method "GET") as [Hget|Hget]; cbn [negb].
  { replace (request h (curl_args url method headers))
      with (request h (curl_args url method headers ++ []))
      by (rewrite app_nil_r; reflexivity).
    apply Hdirect. reflexivity. }
  destruct (50000 <? Z.of_nat (utf16_length (JSON_stringify h b)))%Z.
  2:{ apply Hdirect. intros [Hb | Hm]; congruence. }
  set (tempFile := "/tmp/fal_request_" +:+ pretty (Date_now h tr) +:+ ".json").
  assert (Htemp : startsWith tempFile "/tmp/fal_request_" = true)
    by apply startsWith_app.
  clearbody tempFile.
  unfold bind, try_catch, writeFile, curl, unlink_quietly, try_catch,
    perform, lift, warn, throw.
  destruct (fs_writeFileSync h tr tempFile _) as [[]|e].
  2:{ eexists [_]. split; [reflexivity|]. split; [left; reflexivity|].
      split; [intros [Hb | Hm]; congruence|].
      split; [|split; [intros file []|discriminate]].
      intros file content [[= <- <-] | []].
      split; [exact Htemp|]. split; [eauto|]. intros Hex. exfalso. auto. }
  destruct (execFile h _ "curl" _) as [stdout|e];
    [destruct (fs_unlinkSync h _ tempFile) as [[]|e1];
     (destruct (JSON_parse h stdout) as [response|e2];
      [|destruct (fs_unlinkSync h _ tempFile) as [[]|e3]])
    |destruct (fs_unlinkSync h _ tempFile) as [[]|e3]];
    (eexists (WriteFile tempFile _ :: Exec "curl" _ :: Unlink tempFile :: _);
     rewrite <- !app_assoc;
     split; [reflexivity|];
     split; [right; eexists; reflexivity|];
     split; [intros [Hb | Hm]; congruence|];
     split;
       [intros file content Hin;
        assert (He : (file, content) = (tempFile, JSON_stringify h b))
          by (revert Hin; clear; unfold written; cbn [omap list_omap In];
              repeat (intros [H | H]; [symmetry; exact H | revert H]);
              intros []);
        injection He as -> ->;
        split; [exact Htemp|]; split; [eauto|];
        intros _; left; reflexivity
       |split;
          [intros file Hin; exists (JSON_stringify h b);
           assert (He : file = tempFile)
             by (revert Hin; clear; unfold unlinked; cbn [omap list_omap In];
                 repeat (intros [H | H]; [symmetry; exact H | revert H]);
                 intros []);
           subst file; left; reflexivity
          |intros Hw; discriminate Hw]]).
Qed.

End HttpRequest.

Section HttpRequestExample.
Import System Machines.
Local Open Scope string_scope.
Local Open Scope list_scope.

(** A GET with a header: one process, no body. *)
Lemma makeHTTPRequest_protocol_witness :
  snd (makeHTTPRequest workstation "https://fal.run/status" "GET"
         [("Authorization", "Key fal-key")] None [])
  = [] ++ [Exec "curl" ["-s"; "-X"; "GET"; "https://fal.run/status";
                        "-H"; "Authorization: Key fal-key"]].
Proof.
  destruct (makeHTTPRequest_protocol workstation "https://fal.run/status" "GET"
              [("Authorization", "Key fal-key")] None [])
    as (suffix & Hrun & _ & Hget & _).
  rewrite Hrun, (Hget (or_introl eq_refl)). reflexivity.
Defined.

End HttpRequestExample.

(* ================================================================== *)
(** ** [generateTransparentImage]: the two steps and the temporary file *)
(* ================================================================== *)

Section TransparentImageRun.
Import System.
Local Open Scope string_scope.
Local Open Scope list_scope.
Variable h : Host.

(** The call, path by path: a failure of one of its steps, wrapped and
    with nothing deleted, or the five calls of a success and at most one
    warning. *)
Lemma generateTransparentImage_run prompt outputPath provider options
    generationOptions tr :
  let background := default ImageUtils.white (backgroundColor options) in
  let tol := default 30%float (tolerance options) in
  let tempPath := replace_ext outputPath "_temp_solid.png" in
  let transparentPrompt :=
    prompt +:+ ", plain " +:+ background_name background
    +:+ " background, no shadows, isolated subject, professional product photography style" in
  exists outcome suffix,
    generateTransparentImage h prompt outputPath provider options
      generationOptions tr = (outcome, tr ++ suffix) /\
    ((exists e,
        outcome = Throw ("Failed to generate transparent image: " +:+ e) /\
        unlinked suffix = []) \/
     (outcome = Ok outputPath /\
      exists imageBuffer imageData transparentBuffer warnings tr_r,
        suffix = [GenerateImage provider transparentPrompt tempPath
                    generationOptions;
                  Mkdir (path_dirname h outputPath);
                  ReadFile tempPath;
                  WriteFile outputPath transparentBuffer;
                  Unlink tempPath] ++ warnings /\
        fs_readFileSync h tr_r tempPath = Ok imageBuffer /\
        canvas_getImageData h imageBuffer = Ok imageData /\
        canvas_toBuffer h
          (ImageUtils.convertImagePixelsToTransparent imageData background tol)
        = Ok transparentBuffer /\
        (warnings = [] \/
         exists e,
           warnings = [Warn ("Failed to cleanup temporary file: " +:+ e)]))).
Proof.
  intros background tol tempPath transparentPrompt.
  unfold generateTransparentImage, convertToTransparentBackground.
  fold background tol tempPath transparentPrompt.
  cbn [backgroundColor tolerance blur default from_option id].
  unfold convertImagePixelsToTransparent.
  unfold bind, try_catch, mkdir, readFile, writeFile, unlink_quietly,
    try_catch, perform, lift, warn, throw, ret.
  destruct (generateImage h tr _ _ _ _) as [generated|e].
  2:{ eexists _, [_]. split; [reflexivity|]. left. eauto. }
  destruct (fs_mkdirSync h _ _) as [[]|e].
  2:{ eexists _, [_; _]. rewrite <- !app_assoc. split; [reflexivity|].
      left. eauto. }
  destruct (fs_readFileSync h _ tempPath) as [imageBuffer|e] eqn:Hread.
  2:{ eexists _, [_; _; _]. rewrite <- !app_assoc. split; [reflexivity|].
      left. eauto. }
  destruct (canvas_getImageData h imageBuffer) as [imageData|e] eqn:Hdecode.
  2:{ eexists _, [_; _; _]. rewrite <- !app_assoc. split; [reflexivity|].
      left. eauto. }
  destruct (canvas_toBuffer h _) as [transparentBuffer|e] eqn:Hencode.
  2:{ eexists _, [_; _; _]. rewrite <- !app_assoc. split; [reflexivity|].
      left. eauto. }
  destruct (fs_writeFileSync h _ outputPath _) as [[]|e].
  2:{ eexists _, [_; _; _; _]. rewrite <- !app_assoc. split; [reflexivity|].
      left. eauto. }
  destruct (fs_unlinkSync h _ tempPath) as [[]|e].
  - eexists _, [_; _; _; _; _]. rewrite <- !app_assoc. split; [reflexivity|].
    right. split; [reflexivity|].
    exists imageBuffer, imageData, transparentBuffer, [].
    eexists. split; [reflexivity|]. eauto.
  - eexists _, [_; _; _; _; _; _]. rewrite <- !app_assoc. split; [reflexivity|].
    right. split; [reflexivity|].
    exists imageBuffer, imageData, transparentBuffer.
    eexists [_]. eexists. split; [reflexivity|]. eauto 6.
Qed.

End TransparentImageRun.

Section TransparentImage.
Import System Machines.
Local Open Scope string_scope.
Local Open Scope list_scope.

(** X27. When [generateTransparentImage] returns, it returns its
    output path, and it has done five things in order: generated the
    image on a plain background at the temporary path, made the
    directory of the output path, read the temporary file, written the
    output file, asked for the deletion of the temporary file. What it
    wrote is the encoding of what the pixel loop makes of the decoded
    temporary file, with the background [white] and the tolerance 30
    unless the options say otherwise. A deletion that fails leaves a
    warning and nothing else. *)
Theorem generateTransparentImage_success
    (h : Host) (prompt outputPath provider : string) (options : TransparencyOptions)
    (generationOptions : GenerationOptions) (tr : Calls) (path : string) :
  let run := generateTransparentImage h prompt outputPath provider options
               generationOptions tr in
  let background := default ImageUtils.white (backgroundColor options) in
  let tol := default 30%float (tolerance options) in
  let tempPath := replace_ext outputPath "_temp_solid.png" in
  fst run = Ok path ->
  path = outputPath /\
  exists transparentPrompt imageBuffer imageData transparentBuffer warnings tr_r,
    snd run
    = tr ++ [GenerateImage provider transparentPrompt tempPath generationOptions;
             Mkdir (path_dirname h outputPath);
             ReadFile tempPath;
             WriteFile outputPath transparentBuffer;
             Unlink tempPath] ++ warnings /\
    startsWith transparentPrompt prompt = true /\
    fs_readFileSync h tr_r tempPath = Ok imageBuffer /\
    canvas_getImageData h imageBuffer = Ok imageData /\
    canvas_toBuffer h
      (ImageUtils.convertImagePixelsToTransparent imageData background tol)
    = Ok transparentBuffer /\
    (warnings = [] \/
     exists e, warnings = [Warn ("Failed to cleanup temporary file: " +:+ e)]).
Proof.
  intros run background tol tempPath Hok. subst run.
  destruct (generateTransparentImage_run h prompt outputPath provider options
              generationOptions tr)
    as (outcome & suffix & Hrun & [(e & -> & _) | (-> & Hshape)]);
    rewrite Hrun in Hok |- *; cbn [fst snd] in Hok |- *; [discriminate|].
  injection Hok as <-. split; [reflexivity|].
  destruct Hshape as (imageBuffer & imageData & transparentBuffer & warnings
                      & tr_r & -> & Hread & Hdecode & Hencode & Hwarn).
  eexists _, imageBuffer, imageData, transparentBuffer, warnings, tr_r.
  split; [reflexivity|]. split; [apply startsWith_app|]. auto.
Qed.

(** A white pixel on the default white background: what is written is
    the transparent image. *)
Lemma generateTransparentImage_success_witness :
  exists warnings,
    snd (generateTransparentImage workstation "a cat" "out/cat.png" "openai"
           no_options no_generation_options [])
    = [] ++ [GenerateImage "openai"
               ("a cat, plain white background, no shadows, isolated subject, "
                +:+ "professional product photography style")
               "out/cat_temp_solid.png" no_generation_options;
             Mkdir "out";
             ReadFile "out/cat_temp_solid.png";
             WriteFile "out/cat.png" "transparent";
             Unlink "out/cat_temp_solid.png"] ++ warnings.
Proof.
  destruct (generateTransparentImage_success workstation "a cat" "out/cat.png"
              "openai" no_options no_generation_options [] "out/cat.png"
              eq_refl)
    as (_ & transparentPrompt & imageBuffer & imageData & transparentBuffer
        & warnings & tr_r & Hrun & _).
  exists warnings. rewrite Hrun. vm_compute in Hrun.
  destruct warnings; injection Hrun as <- <-; reflexivity.
Defined.

(** X28. When [generateTransparentImage] throws, the message starts
    with [Failed to generate transparent image: ] and nothing was
    deleted: a temporary file that the generation wrote before a later
    step failed is left where it is. *)
Theorem generateTransparentImage_failure
    (h : Host) (prompt outputPath provider : string) (options : TransparencyOptions)
    (generationOptions : GenerationOptions) (tr : Calls) (message : string) :
  let run := generateTransparentImage h prompt outputPath provider options
               generationOptions tr in
  fst run = Throw message ->
  startsWith message "Failed to generate transparent image: " = true /\
  exists suffix, snd run = tr ++ suffix /\ unlinked suffix = [].
Proof.
  intros run Hthrow. subst run.
  destruct (generateTransparentImage_run h prompt outputPath provider options
              generationOptions tr)
    as (outcome & suffix & Hrun & [(e & -> & Hnone) | (-> & _)]);
    rewrite Hrun in Hthrow |- *; cbn [fst snd] in Hthrow |- *; [|discriminate].
  injection Hthrow as <-. split; [apply startsWith_app | eauto].
Qed.

(** The temporary file cannot be read back. *)
Lemma generateTransparentImage_failure_witness :
  startsWith
    ("Failed to generate transparent image: "
     +:+ "Failed to convert image to transparent background: "
     +:+ "ENOENT: no such file or directory")
    "Failed to generate transparent image: " = true /\
  exists suffix,
    snd (generateTransparentImage unreadable_disk "a cat" "out/cat.png"
           "openai" no_options no_generation_options [])
    = [] ++ suffix /\ unlinked suffix = [].
Proof.
  exact (generateTransparentImage_failure unreadable_disk "a cat" "out/cat.png"
           "openai" no_options no_generation_options [] _ eq_refl).
Defined.

(** X29. For an output path without a dot the temporary path is the
    output path itself: when [generateTransparentImage] returns, the last
    thing it did to the file whose path it returns, after writing it, is
    to ask for its deletion. *)
Theorem generateTransparentImage_deletes_its_output
    (h : Host) (prompt outputPath provider : string) (options : TransparencyOptions)
    (generationOptions : GenerationOptions) (tr : Calls) (path : string) :
  let run := generateTransparentImage h prompt outputPath provider options
               generationOptions tr in
  has_dot outputPath = false ->
  fst run = Ok path ->
  path = outputPath /\
  exists before transparentBuffer warnings,
    snd run
    = tr ++ before
         ++ [WriteFile outputPath transparentBuffer; Unlink outputPath]
         ++ warnings /\
    unlinked warnings = [] /\ written warnings = [].
Proof.
  intros run Hdot Hok. subst run.
  destruct (generateTransparentImage_run h prompt outputPath provider options
              generationOptions tr)
    as (outcome & suffix & Hrun & [(e & -> & _) | (-> & Hshape)]);
    rewrite Hrun in Hok |- *; cbn [fst snd] in Hok |- *; [discriminate|].
  injection Hok as <-. split; [reflexivity|].
  destruct Hshape as (imageBuffer & imageData & transparentBuffer & warnings
                      & tr_r & -> & _ & _ & _ & Hwarn).
  rewrite (replace_ext_no_dot _ _ Hdot).
  eexists [_; _; _], transparentBuffer, warnings.
  split; [reflexivity|].
  destruct Hwarn as [-> | [e ->]]; split; reflexivity.
Qed.

Lemma generateTransparentImage_deletes_its_output_witness :
  exists before transparentBuffer warnings,
    snd (generateTransparentImage workstation "a cat" "cat" "openai"
           no_options no_generation_options [])
    = [] ++ before ++ [WriteFile "cat" transparentBuffer; Unlink "cat"]
         ++ warnings /\
    unlinked warnings = [] /\ written warnings = [].
Proof.
  exact (proj2 (generateTransparentImage_deletes_its_output workstation
                  "a cat" "cat" "openai" no_options no_generation_options []
                  "cat" eq_refl eq_refl)).
Defined.

End TransparentImage.

(* ================================================================== *)
(** ** [saveBase64Image]: the prefix of a data url                     *)
(* ================================================================== *)

Section SaveBase64.
Import System Machines.
Local Open Scope string_scope.
Local Open Scope list_scope.

Lemma strip_data_url_prefixed subtype payload :
  subtype <> EmptyString -> all_chars lower_char subtype = true ->
  strip_data_url ("data:image/" +:+ subtype +:+ ";base64," +:+ payload)
  = payload.
Proof.
  intros Hne Hlower. unfold strip_data_url.
  rewrite strip_prefix_app.
  rewrite (span_app lower_char subtype (";base64," +:+ payload) Hlower eq_refl).
  replace (String.eqb subtype EmptyString) with false
    by (symmetry; apply String.eqb_neq; exact Hne).
  rewrite strip_prefix_app. reflexivity.
Qed.

(** X30. [saveBase64Image] takes a data url for what follows its
    prefix: for [data:image/<subtype>;base64,<payload>], with a subtype
    of one or more lower-case letters, it writes at most one file, the
    output path with the decoded payload, and when it returns it has
    written it and returns the output path. *)
Theorem saveBase64Image_writes_decoded_payload
    (h : Host) (subtype payload outputPath : string) (tr : Calls) :
  let run :=
    saveBase64Image h
      ("data:image/" +:+ subtype +:+ ";base64," +:+ payload) outputPath tr in
  subtype <> EmptyString ->
  all_chars lower_char subtype = true ->
  exists suffix,
    snd run = tr ++ suffix /\
    (written suffix = [] \/
     written suffix = [(outputPath, Buffer_from_base64 h payload)]) /\
    (forall path, fst run = Ok path ->
       path = outputPath /\
       written suffix = [(outputPath, Buffer_from_base64 h payload)]).
Proof.
  intros run Hne Hlower. subst run. unfold saveBase64Image.
  rewrite (strip_data_url_prefixed _ _ Hne Hlower).
  unfold bind, try_catch, mkdir, writeFile, perform, throw, ret.
  destruct (fs_mkdirSync h tr _) as [[]|e].
  2:{ eexists [_]. split; [reflexivity|]. split; [left; reflexivity|].
      discriminate. }
  destruct (fs_writeFileSync h _ outputPath _) as [[]|e].
  - eexists [_; _]. rewrite <- !app_assoc. split; [reflexivity|].
    split; [right; reflexivity|]. intros path [= <-]. auto.
  - eexists [_; _]. rewrite <- !app_assoc. split; [reflexivity|].
    split; [right; reflexivity|]. discriminate.
Qed.

Lemma saveBase64Image_writes_decoded_payload_witness :
  exists suffix,
    snd (saveBase64Image workstation "data:image/jpeg;base64,QUJD"
           "out/cat.jpg" [])
    = [] ++ suffix /\
    (written suffix = [] \/ written suffix = [("out/cat.jpg", "QUJD")]) /\
    (forall path,
       fst (saveBase64Image workstation "data:image/jpeg;base64,QUJD"
              "out/cat.jpg" []) = Ok path ->
       path = "out/cat.jpg" /\ written suffix = [("out/cat.jpg", "QUJD")]).
Proof.
  apply (saveBase64Image_writes_decoded_payload workstation "jpeg" "QUJD"
           "out/cat.jpg" []); [discriminate | reflexivity].
Defined.

End SaveBase64.
